(** * Session state and human-handoff orchestration (achora chatbot backend)

    A shallow embedding of the session state machine (sessionService.js),
    the handoff eligibility check (handoffService.js), the Redis adapter
    (redisService.js), the agent-assignment logic of slackService.js and the
    lead/callback paths of chatController.js.

    Conventions of the embedding.
    - Every [async] method becomes a function in the state monad [M] over
      [World]; one monadic step corresponds to one awaited call.
    - [Date.now()] is an explicit argument [now] of each entry point.
    - Redis commands succeed whenever [isConnected] is true; key expiry is
      not modelled (a key lives until it is deleted or overwritten).
    - Calls to Slack, the database and socket.io are recorded as [Event]s
      emitted by the computation; unless an entry point takes an explicit
      reply argument they return normally.
    - A JavaScript string is a [string] whose characters are read as UTF-16
      code units below 256. *)

From Stdlib Require Import ZArith String Ascii List Bool Lia.
From stdpp Require Import base option gmap strings list.
From Stdlib Require DecimalString QArith.

Set Default Proof Using "Type".

(** ** JavaScript string primitives used by the controller *)

Module Js.

(** [s.includes(sub)] *)
Fixpoint includes (sub s : string) : bool :=
  String.prefix sub s ||
  match s with
  | EmptyString => false
  | String _ s' => includes sub s'
  end.

(** [s.split(sep)] for a non-empty separator.  [skip] counts the code
    units of a matched separator that are still to be dropped, [cur] is
    the piece being accumulated. *)
Fixpoint split_go (sep : string) (skip : nat) (cur s : string) : list string :=
  match s with
  | EmptyString => [cur]
  | String c s' =>
      match skip with
      | S k => split_go sep k cur s'
      | O =>
          if String.prefix sep s
          then cur :: split_go sep (String.length sep - 1) EmptyString s'
          else split_go sep 0 (String.append cur (String c EmptyString)) s'
      end
  end.

Definition split (sep s : string) : list string := split_go sep 0 EmptyString s.





(** Truthiness of a possibly absent string: [null], [undefined] and the
    empty string are falsy. *)
Definition truthy (o : option string) : option string :=
  match o with
  | Some EmptyString => None
  | Some s => Some s
  | None => None
  end.

(** Truthiness of a possibly absent object or of a Redis [EXISTS] count. *)
Definition present {A} (o : option A) : bool :=
  match o with
  | Some _ => true
  | None => false
  end.


(** [s.toLowerCase()] on code units below 256: the basic Latin capitals
    and the Latin-1 capitals (all of 192..222 but the multiplication sign)
    move up by 32. *)
Definition lowerUnit (c : ascii) : ascii :=
  let n := nat_of_ascii c in
  if ((65 <=? n) && (n <=? 90) || (192 <=? n) && (n <=? 222) && negb (n =? 215))%nat
  then ascii_of_nat (n + 32)
  else c.

Fixpoint toLowerCase (s : string) : string :=
  match s with
  | EmptyString => EmptyString
  | String c s' => String (lowerUnit c) (toLowerCase s')
  end.

(** An integer interpolated into a template string. *)
Definition numberToString (n : Z) : string :=
  DecimalString.NilZero.string_of_int (Z.to_int n).

End Js.

(** ** states.js *)

Module SessionState.
Definition SEEKING_HANDOFF : string := "seeking_handoff".
Definition CALLBACK_REQUEST : string := "callback_request".
Definition LEAD_CAPTURE : string := "lead_capture".
Definition NORMAL_CHAT : string := "normal_chat".
Definition HUMAN_CONNECTED : string := "human_connected".

(** [Object.values(SessionState)], in declaration order. *)
Definition values : list string :=
  [SEEKING_HANDOFF; CALLBACK_REQUEST; LEAD_CAPTURE; NORMAL_CHAT; HUMAN_CONNECTED].
End SessionState.

(** ** Records kept in memory and in Redis *)

(** The object held per session by [SessionService.sessions] and, serialised,
    under [session_state:<persistentUserId>]. *)
Module Session.
Record t := mk {
  state : string;
  lastActivity : Z;
  handoffOffered : bool;
  lastHandoffTime : option Z;
  persistentUserId : option string
}.

Definition setState (v : string) (s : t) : t :=
  mk v (lastActivity s) (handoffOffered s) (lastHandoffTime s) (persistentUserId s).
Definition setLastActivity (v : Z) (s : t) : t :=
  mk (state s) v (handoffOffered s) (lastHandoffTime s) (persistentUserId s).
Definition setHandoffOffered (v : bool) (s : t) : t :=
  mk (state s) (lastActivity s) v (lastHandoffTime s) (persistentUserId s).
Definition setLastHandoffTime (v : option Z) (s : t) : t :=
  mk (state s) (lastActivity s) (handoffOffered s) v (persistentUserId s).
Definition setPersistentUserId (v : option string) (s : t) : t :=
  mk (state s) (lastActivity s) (handoffOffered s) (lastHandoffTime s) v.

(** The default record created by [getSession]. *)
Definition default (now : Z) : t :=
  mk SessionState.SEEKING_HANDOFF now false None None.
End Session.

(** The pending request stored under [handoff:<persistentUserId>]. *)
Module Handoff.
Record t := mk {
  sessionId : string;
  messageTs : string;
  requestTime : Z;
  conversationHistory : list (string * string);
  summary : option string
}.

Definition setSessionId (v : string) (h : t) : t :=
  mk v (messageTs h) (requestTime h) (conversationHistory h) (summary h).
End Handoff.

(** The connection record stored in the [activeSessions] hash. *)
Module ActiveSession.
Record t := mk {
  agentId : string;
  agentName : string;
  threadTs : string;
  originalMessageTs : string;
  connectedAt : Z;
  persistentUserId : string;
  currentSessionId : string
}.

Definition setCurrentSessionId (v : string) (a : t) : t :=
  mk (agentId a) (agentName a) (threadTs a) (originalMessageTs a)
     (connectedAt a) (persistentUserId a) v.
End ActiveSession.

(** ** The Redis keyspace

    One finite map per key family.  The families [user:], [handoff:],
    [timer:], [session_state:] and the single hash [activeSessions] have
    pairwise distinct prefixes, so they cannot collide.  The mapping keys
    [session:<sessionId>] and the marks [session:<persistentUserId>:ttl]
    share the prefix [session:] and therefore live in one map, [sessionKeys],
    indexed by what follows that prefix. *)
(** The hash stored under [user:<persistentUserId>].  A field that was
    never written is [None]; [connectedAt] holds the instant whose ISO
    rendering the code stores. *)
Module UserState.
Record t := mk {
  currentSessionId : option string;
  agentConnected : option string;
  agentName : option string;
  agentId : option string;
  connectedAt : option Z
}.

Definition empty : t := mk None None None None None.

(** [Object.keys(data).length] is zero *)
Definition isEmpty (u : t) : bool :=
  match u with
  | mk None None None None None => true
  | _ => false
  end.

Definition setCurrentSessionId (v : string) (u : t) : t :=
  mk (Some v) (agentConnected u) (agentName u) (agentId u) (connectedAt u).
End UserState.

Record Redis := mkRedis {
  isConnected : bool;
  userKeys : gmap string UserState.t;
  sessionKeys : gmap string string;
  handoffKeys : gmap string Handoff.t;
  timerKeys : gmap string Z;
  activeSessions : gmap string ActiveSession.t;
  sessionStateKeys : gmap string Session.t
}.

(** ** Effects visible outside the process

    A Slack message is identified by its kind and the values interpolated
    into it; a socket.io emission by its room and event name. *)
Inductive SlackMessage :=
| NewSupportRequest (sessionId : string)
| RequestTimedOut (sessionId : string)
| TimedOutThreadNote
| AlreadyAccepted (sessionId agentName : string)
| ChatAccepted (agentName sessionId : string)
| ChatEnded (agentName sessionId : string)
| ChatEndedThreadNote (agentName : string).

Inductive Event :=
| SlackPost (thread : option string) (m : SlackMessage)   (* chat.postMessage *)
| SlackUpdate (ts : string) (m : SlackMessage)            (* chat.update *)
| Emit (room : string) (event : string)                   (* global.io.to(room).emit(event, _) *)
| ConsoleError (message : string)
| DbLog (method : string) (key : string)
| LeadCreated (firstName lastName email phone : string) (sessionId : string).

(** ** Timer and cache maps owned by SlackService *)
Record SlackLocal := mkSlackLocal {
  updateIntervals : gmap (option string) (string * string);
  sessionDurationIntervals : gmap string string;
  handoffTimeouts : gmap string string;
  userInactivityTimeouts : gset string;
  connectionRequestTimes : gmap string Z;
  sessionConversationHistory : gmap string (list (string * string));
  cachedSummaries : gmap string string;
  waitingSessions : gmap string (string * Z * option string)
}.

Record World := mkWorld {
  redis : Redis;
  sessions : gmap string Session.t;
  slack : SlackLocal;
  io : bool
}.

Definition withRedis (f : Redis → Redis) (w : World) : World :=
  mkWorld (f (redis w)) (sessions w) (slack w) (io w).
Definition withSessions (f : gmap string Session.t → gmap string Session.t) (w : World) : World :=
  mkWorld (redis w) (f (sessions w)) (slack w) (io w).
Definition withSlack (f : SlackLocal → SlackLocal) (w : World) : World :=
  mkWorld (redis w) (sessions w) (f (slack w)) (io w).

(** ** The monad: state over [World], output of [Event]s

    A computation maps the world before a call to the value returned, the
    world after the call and the events emitted meanwhile, oldest first. *)

Definition M (A : Type) : Type := World → A * World * list Event.

Definition value {A} (r : A * World * list Event) : A := r.1.1.
Definition world {A} (r : A * World * list Event) : World := r.1.2.
Definition events {A} (r : A * World * list Event) : list Event := r.2.

Definition ret {A} (a : A) : M A := λ w, (a, w, []).
Definition bind {A B} (m : M A) (k : A → M B) : M B :=
  λ w, let '(a, w1, t1) := m w in
       let '(b, w2, t2) := k a w1 in
       (b, w2, t1 ++ t2).

Declare Scope m_scope.
Delimit Scope m_scope with M.
Notation "'let*' x ':=' m 'in' k" := (bind m (λ x, k))
  (at level 10, x name, m at level 100, k at level 200) : m_scope.
Notation "m ;;; k" := (bind m (λ _, k))
  (at level 100, right associativity) : m_scope.
Local Open Scope m_scope.

Definition gets {A} (f : World → A) : M A := λ w, (f w, w, []).
Definition modify (f : World → World) : M unit := λ w, (tt, f w, []).
Definition emit (e : Event) : M unit := λ w, (tt, w, [e]).
Definition when (b : bool) (m : M unit) : M unit := if b then m else ret tt.


(** ** Slack traffic of the conversation upkeep

    The messages sent to Slack by [sendToHuman], by the inactivity timer
    and by [handleWaitingSessionDisconnect], identified like the ones above.
    An [Effect] is one of these or an [Event]; [X] is [M] with [Effect]s for
    output. *)
Inductive ThreadMessage :=
| CustomerMessage (message : string)
| InactivityEnded (sessionId duration agentName : string)
| InactivityThreadNote
| UserDisconnected (sessionId waited : string)
| UserDisconnectedThreadNote (waited : string).

Inductive Effect :=
| Plain (e : Event)
| ThreadPost (thread : string) (m : ThreadMessage)  (* chat.postMessage with thread_ts *)
| MessageUpdate (ts : string) (m : ThreadMessage).  (* chat.update *)

Definition X (A : Type) : Type := World → A * World * list Effect.

Definition answer {A} (r : A * World * list Effect) : A := r.1.1.
Definition after {A} (r : A * World * list Effect) : World := r.1.2.
Definition effects {A} (r : A * World * list Effect) : list Effect := r.2.

Definition retX {A} (a : A) : X A := λ w, (a, w, []).
Definition bindX {A B} (m : X A) (k : A → X B) : X B :=
  λ w, let '(a, w1, t1) := m w in
       let '(b, w2, t2) := k a w1 in
       (b, w2, t1 ++ t2).
Definition lift {A} (m : M A) : X A :=
  λ w, let '(a, w1, t) := m w in (a, w1, map Plain t).
Definition emitX (e : Effect) : X unit := λ w, (tt, w, [e]).

Declare Scope x_scope.
Delimit Scope x_scope with X.
Notation "'let*' x ':=' m 'in' k" := (bindX m (λ x, k))
  (at level 10, x name, m at level 100, k at level 200) : x_scope.
Notation "m ;;; k" := (bindX m (λ _, k))
  (at level 100, right associativity) : x_scope.
(** ** redisService.js *)

Module RedisService.

Definition connected : M bool := gets (λ w, isConnected (redis w)).

Definition setUsers (f : gmap string UserState.t → gmap string UserState.t)
    (r : Redis) : Redis :=
  mkRedis (isConnected r) (f (userKeys r)) (sessionKeys r) (handoffKeys r)
          (timerKeys r) (activeSessions r) (sessionStateKeys r).
Definition setSessionKeys (f : gmap string string → gmap string string) (r : Redis) : Redis :=
  mkRedis (isConnected r) (userKeys r) (f (sessionKeys r)) (handoffKeys r)
          (timerKeys r) (activeSessions r) (sessionStateKeys r).
Definition setHandoffKeys (f : gmap string Handoff.t → gmap string Handoff.t) (r : Redis) : Redis :=
  mkRedis (isConnected r) (userKeys r) (sessionKeys r) (f (handoffKeys r))
          (timerKeys r) (activeSessions r) (sessionStateKeys r).
Definition setTimerKeys (f : gmap string Z → gmap string Z) (r : Redis) : Redis :=
  mkRedis (isConnected r) (userKeys r) (sessionKeys r) (handoffKeys r)
          (f (timerKeys r)) (activeSessions r) (sessionStateKeys r).
Definition setActiveSessions (f : gmap string ActiveSession.t → gmap string ActiveSession.t)
    (r : Redis) : Redis :=
  mkRedis (isConnected r) (userKeys r) (sessionKeys r) (handoffKeys r)
          (timerKeys r) (f (activeSessions r)) (sessionStateKeys r).
Definition setSessionStateKeys (f : gmap string Session.t → gmap string Session.t)
    (r : Redis) : Redis :=
  mkRedis (isConnected r) (userKeys r) (sessionKeys r) (handoffKeys r)
          (timerKeys r) (activeSessions r) (f (sessionStateKeys r)).

(** The suffix of the key [session:<id>:ttl]. *)
Definition ttlKey (persistentUserId : string) : string :=
  String.append persistentUserId ":ttl".

(** [HSET key data]: [write] assigns the fields present in [data] to the
    hash under the key, which is created when missing. *)
Definition hSet (persistentUserId : string) (write : UserState.t → UserState.t) : M bool :=
  let* c := connected in
  if c then
    modify (withRedis (setUsers (λ u,
      <[persistentUserId := write (default UserState.empty (u !! persistentUserId))]> u))) ;;;
    ret true
  else ret false.

(** The only caller passes the five fields written on acceptance. *)
Definition setUserState (persistentUserId : string)
    (agentConnected agentName agentId : string) (connectedAt : Z)
    (currentSessionId : string) : M bool :=
  hSet persistentUserId (λ _,
    UserState.mk (Some currentSessionId) (Some agentConnected) (Some agentName)
      (Some agentId) (Some connectedAt)).

(** [updateUserField(persistentUserId, 'currentSessionId', newSessionId)] *)
Definition updateCurrentSession (persistentUserId newSessionId : string) : M bool :=
  hSet persistentUserId (UserState.setCurrentSessionId newSessionId).

(** [hGetAll] of a missing key is the empty object, reported as [null]. *)
Definition getUserState (persistentUserId : string) : M (option UserState.t) :=
  let* c := connected in
  if c then
    let* u := gets (λ w, userKeys (redis w) !! persistentUserId) in
    ret (match u with
         | Some h => if UserState.isEmpty h then None else Some h
         | None => None
         end)
  else ret None.

Definition deleteUserState (persistentUserId : string) : M bool :=
  let* c := connected in
  if c then modify (withRedis (setUsers (delete persistentUserId))) ;;; ret true
  else ret false.

Definition setSessionMapping (sessionId persistentUserId : string) : M bool :=
  let* c := connected in
  if c then
    modify (withRedis (setSessionKeys (<[sessionId := persistentUserId]>))) ;;; ret true
  else ret false.

Definition getSessionMapping (sessionId : string) : M (option string) :=
  let* c := connected in
  if c then gets (λ w, sessionKeys (redis w) !! sessionId) else ret None.

Definition setHandoffState (persistentUserId : string) (h : Handoff.t) : M bool :=
  let* c := connected in
  if c then
    modify (withRedis (setHandoffKeys (<[persistentUserId := h]>))) ;;; ret true
  else ret false.

Definition getHandoffState (persistentUserId : string) : M (option Handoff.t) :=
  let* c := connected in
  if c then gets (λ w, handoffKeys (redis w) !! persistentUserId) else ret None.

Definition deleteHandoffState (persistentUserId : string) : M bool :=
  let* c := connected in
  if c then modify (withRedis (setHandoffKeys (delete persistentUserId))) ;;; ret true
  else ret false.

Definition setTimerStart (persistentUserId : string) (startTime : Z) : M bool :=
  let* c := connected in
  if c then
    modify (withRedis (setTimerKeys (<[persistentUserId := startTime]>))) ;;; ret true
  else ret false.

Definition getTimerStart (persistentUserId : string) : M (option Z) :=
  let* c := connected in
  if c then gets (λ w, timerKeys (redis w) !! persistentUserId) else ret None.

Definition deleteTimer (persistentUserId : string) : M bool :=
  let* c := connected in
  if c then modify (withRedis (setTimerKeys (delete persistentUserId))) ;;; ret true
  else ret false.

(** [MULTI; HSET activeSessions id data; SETEX session:id:ttl ttl 1; EXEC] *)
Definition setActiveSession (persistentUserId : string) (a : ActiveSession.t) : M bool :=
  let* c := connected in
  if c then
    modify (withRedis (λ r,
      setSessionKeys (<[ttlKey persistentUserId := "1"%string]>)
        (setActiveSessions (<[persistentUserId := a]>) r))) ;;;
    ret true
  else ret false.

Definition getActiveSession (persistentUserId : string) : M (option ActiveSession.t) :=
  let* c := connected in
  if c then
    let* ttlExists := gets (λ w, Js.present (sessionKeys (redis w) !! ttlKey persistentUserId)) in
    let* data := gets (λ w, activeSessions (redis w) !! persistentUserId) in
    if ttlExists then ret data
    else
      when (Js.present data)
        (modify (withRedis (setActiveSessions (delete persistentUserId)))) ;;;
      ret None
  else ret None.

Definition deleteActiveSession (persistentUserId : string) : M bool :=
  let* c := connected in
  if c then
    modify (withRedis (λ r,
      setSessionKeys (delete (ttlKey persistentUserId))
        (setActiveSessions (delete persistentUserId) r))) ;;;
    ret true
  else ret false.

(** Returns the live connections; hash entries whose [:ttl] mark is gone
    are removed from the hash on the way. *)
Definition getAllActiveSessions : M (gmap string ActiveSession.t) :=
  let* c := connected in
  if c then
    let* keys := gets (λ w, sessionKeys (redis w)) in
    let live := filter (λ kv : string * ActiveSession.t, is_Some (keys !! ttlKey kv.1)) in
    let* parsed := gets (λ w, live (activeSessions (redis w))) in
    modify (withRedis (setActiveSessions live)) ;;;
    ret parsed
  else ret ∅.

Definition updateActiveSessionId (persistentUserId newSessionId : string) : M bool :=
  let* c := connected in
  if c then
    let* session := getActiveSession persistentUserId in
    match session with
    | Some a =>
        setActiveSession persistentUserId (ActiveSession.setCurrentSessionId newSessionId a) ;;;
        ret true
    | None => ret false
    end
  else ret false.

End RedisService.

(** ** memoryService.js

    The conversation histories are the key family [conversation:<id>], each
    key holding a serialised array of messages; the family is kept beside
    the world.  A method is a function from the memory before the call to
    its result and the memory after it. *)

Module MemoryService.

Record Message := mkMessage {
  role : string;
  content : string
}.

Record Memory := mkMemory {
  base : World;
  conversationKeys : gmap string (list Message)
}.

(** A RedisService method run on the world of the memory (the ones used
    here emit nothing). *)
Definition viaRedis {A} (m : M A) (s : Memory) : A * Memory :=
  let r := m (base s) in
  (value r, mkMemory (world r) (conversationKeys s)).

Definition contextWindowLength : nat := 5.

(** [l.slice(-n)] *)
Definition lastN {A} (n : nat) (l : list A) : list A :=
  drop (length l - n) l.

(** [persistentUserId || sessionId] *)
Definition identifierOf (sessionId : string) (persistentUserId : option string) : string :=
  match Js.truthy persistentUserId with
  | Some uid => uid
  | None => sessionId
  end.

Definition getConversationHistory (identifier : string) (s : Memory)
    : list Message * Memory :=
  if isConnected (redis (base s)) then
    match conversationKeys s !! identifier with
    | Some conversationData => (conversationData, s)
    | None =>
        let '(persistentUserId, s1) := viaRedis (RedisService.getSessionMapping identifier) s in
        match Js.truthy persistentUserId with
        | Some uid => (default [] (conversationKeys s1 !! uid), s1)
        | None => ([], s1)
        end
    end
  else ([], s).

Definition addMessage (sessionId userMessage botResponse : string)
    (persistentUserId : option string) (s : Memory) : Memory :=
  if isConnected (redis (base s)) then
    let identifier := identifierOf sessionId persistentUserId in
    let existing := default [] (conversationKeys s !! identifier) in
    let pushed := existing ++ [mkMessage "user" userMessage;
                               mkMessage "assistant" botResponse] in
    let history :=
      if (contextWindowLength * 2 <? length pushed)%nat
      then lastN (contextWindowLength * 2) pushed
      else pushed in
    let s1 := mkMemory (base s) (<[identifier := history]> (conversationKeys s)) in
    match Js.truthy persistentUserId with
    | Some uid => (viaRedis (RedisService.setSessionMapping sessionId uid) s1).2
    | None => s1
    end
  else s.

Definition getMessagesForOpenAI (sessionId newMessage : string)
    (persistentUserId : option string) (s : Memory) : list Message * Memory :=
  let '(history, s1) := getConversationHistory (identifierOf sessionId persistentUserId) s in
  (history ++ [mkMessage "user" newMessage], s1).

Definition forget (key : string) (s : Memory) : Memory :=
  mkMemory (base s) (delete key (conversationKeys s)).

Definition clearSession (sessionId : string) (persistentUserId : option string)
    (s : Memory) : Memory :=
  if isConnected (redis (base s)) then
    match Js.truthy persistentUserId with
    | Some uid => forget uid s
    | None =>
        let '(mappedUserId, s1) := viaRedis (RedisService.getSessionMapping sessionId) s in
        match Js.truthy mappedUserId with
        | Some uid => forget uid s1
        | None => forget sessionId s1
        end
    end
  else s.

End MemoryService.

(** ** sessionService.js *)

Module SessionService.

Definition getSessionFromRedis (persistentUserId : string) : M (option Session.t) :=
  let* c := RedisService.connected in
  if c then gets (λ w, sessionStateKeys (redis w) !! persistentUserId) else ret None.

Definition saveSessionToRedis (persistentUserId : string) (s : Session.t) : M bool :=
  let* c := RedisService.connected in
  if c then
    modify (withRedis (RedisService.setSessionStateKeys (<[persistentUserId := s]>))) ;;;
    ret true
  else ret false.

(** [persistentUserId && redisService.isConnected] *)
Definition persistent (persistentUserId : option string) : M (option string) :=
  let* c := RedisService.connected in
  ret (if c then Js.truthy persistentUserId else None).

(** Replace the object cached under [sessionId]. *)
Definition cache (sessionId : string) (s : Session.t) : M unit :=
  modify (withSessions (<[sessionId := s]>)).

(** The fallback branch of [getSession]: the in-memory map, creating the
    default record when the session is unknown. *)
Definition getSessionInMemory (now : Z) (sessionId : string)
    (persistentUserId : option string) : M Session.t :=
  let* cached := gets (λ w, sessions w !! sessionId) in
  match cached with
  | Some s => ret s
  | None =>
      let defaultSession := Session.default now in
      cache sessionId defaultSession ;;;
      let* p := persistent persistentUserId in
      match p with
      | Some uid => saveSessionToRedis uid defaultSession ;;; ret defaultSession
      | None => ret defaultSession
      end
  end.

(** [getSession] returns the object stored under [sessionId] in
    [this.sessions]; callers that assign to its fields change that stored
    object, which [cache] expresses here. *)
Definition getSession (now : Z) (sessionId : string)
    (persistentUserId : option string) : M Session.t :=
  let* p := persistent persistentUserId in
  match p with
  | Some uid =>
      let* redisSession := getSessionFromRedis uid in
      match redisSession with
      | Some s => cache sessionId s ;;; ret s
      | None => getSessionInMemory now sessionId persistentUserId
      end
  | None => getSessionInMemory now sessionId persistentUserId
  end.

(** Assign fields of the cached session object, then write it to Redis
    when a persistent user is known and Redis is connected. *)
Definition saveIfPersistent (persistentUserId : option string) (s : Session.t) : M unit :=
  let* p := persistent persistentUserId in
  match p with
  | Some uid => saveSessionToRedis uid s ;;; ret tt
  | None => ret tt
  end.

Definition getSessionState (now : Z) (sessionId : string)
    (persistentUserId : option string) : M string :=
  let* p := persistent persistentUserId in
  let* activeSession := match p with
                   | Some uid => RedisService.getActiveSession uid
                   | None => ret None
                   end in
  match p, activeSession with
  | Some uid, Some _ =>
      let* session := getSession now sessionId persistentUserId in
      let session' :=
        Session.setPersistentUserId persistentUserId
          (Session.setState SessionState.HUMAN_CONNECTED session) in
      cache sessionId session' ;;;
      saveSessionToRedis uid session' ;;;
      ret SessionState.HUMAN_CONNECTED
  | _, _ =>
      let* session := getSession now sessionId persistentUserId in
      ret (Session.state session)
  end.

(** [validStates.includes(state)] *)
Definition isValidState (state : string) : bool :=
  existsb (String.eqb state) SessionState.values.

Definition invalidStateMessage (state : string) : string :=
  String.append "Invalid state: "
    (String.append state
       (String.append ". Must be one of: "
          (String.concat ", " SessionState.values))).

Definition setSessionState (now : Z) (sessionId state : string)
    (persistentUserId : option string) : M unit :=
  if isValidState state then
    let* previousState := getSessionState now sessionId persistentUserId in
    let* sessionData := getSession now sessionId persistentUserId in
    let sessionData' := Session.setLastActivity now (Session.setState state sessionData) in
    cache sessionId sessionData' ;;;
    saveIfPersistent persistentUserId sessionData'
  else
    emit (ConsoleError (invalidStateMessage state)).

Definition updateSessionActivity (now : Z) (sessionId : string)
    (persistentUserId : option string) : M unit :=
  let* session := getSession now sessionId persistentUserId in
  let session' := Session.setLastActivity now session in
  cache sessionId session' ;;;
  saveIfPersistent persistentUserId session'.

Definition hasHandoffBeenOffered (now : Z) (sessionId : string)
    (persistentUserId : option string) : M bool :=
  let* session := getSession now sessionId persistentUserId in
  ret (Session.handoffOffered session).

Definition markHandoffOffered (now : Z) (sessionId : string)
    (persistentUserId : option string) : M unit :=
  let* session := getSession now sessionId persistentUserId in
  let session' := Session.setHandoffOffered true session in
  cache sessionId session' ;;;
  saveIfPersistent persistentUserId session'.

Definition oneHourMs : Z := 60 * 60 * 1000.

(** [!session.lastHandoffTime] holds for [null] and for [0]. *)
Definition canRequestHandoffAgain (now : Z) (sessionId : string)
    (persistentUserId : option string) : M bool :=
  let* session := getSession now sessionId persistentUserId in
  match Session.lastHandoffTime session with
  | None => ret true
  | Some t =>
      if (t =? 0)%Z then ret true
      else
        let timeSinceLastHandoff := (now - t)%Z in
        ret (oneHourMs <=? timeSinceLastHandoff)%Z
  end.

Definition markHumanHandoffDeclined (now : Z) (sessionId : string)
    (persistentUserId : option string) : M unit :=
  setSessionState now sessionId SessionState.LEAD_CAPTURE persistentUserId.

Definition markCallbackRequested (now : Z) (sessionId : string)
    (persistentUserId : option string) : M unit :=
  setSessionState now sessionId SessionState.CALLBACK_REQUEST persistentUserId.


Definition markHumanHandoffAccepted (now : Z) (sessionId : string)
    (persistentUserId : option string) : M unit :=
  let* session := getSession now sessionId persistentUserId in
  let session' := Session.setLastHandoffTime (Some now) session in
  cache sessionId session' ;;;
  saveIfPersistent persistentUserId session' ;;;
  setSessionState now sessionId SessionState.NORMAL_CHAT persistentUserId.


(** [cleanupOldSessions], run every hour by the timer started in the
    constructor: in-memory records idle for more than an hour are dropped. *)
Definition cleanupOldSessions (now : Z) : M unit :=
  let cutoffTime := (now - 60 * 60 * 1000)%Z in
  modify (withSessions (filter (λ entry : string * Session.t,
    ¬ (Session.lastActivity entry.2 < cutoffTime)%Z))).

(** [isWithinBusinessHours], given the day of the week (0 is Sunday) and
    the hour of the current instant on a clock in Sydney. *)
Definition isWithinBusinessHours (day hours : Z) : bool :=
  let isWeekday := (1 <=? day)%Z && (day <=? 5)%Z in
  let isBusinessTime := (9 <=? hours)%Z && (hours <? 17)%Z in
  isWeekday && isBusinessTime.

End SessionService.

(** ** openaiRetryService.js *)

Module OpenAIRetryService.

(** The fields of a thrown error that [isRetryableError] reads; [None] is
    a field that is missing. *)
Record ApiError := mkApiError {
  status : option Z;
  code : option string;
  message : option string
}.

Definition maxRetries : nat := 3.
Definition baseDelay : Z := 1000.

Definition retryableCodes : list Z := [429; 500; 502; 503; 504]%Z.

Definition isRetryableError (error : ApiError) : bool :=
  match status error with
  | Some st => existsb (Z.eqb st) retryableCodes
  | None => false
  end
  || match code error with
     | Some c => String.eqb c "ECONNRESET" || String.eqb c "ETIMEDOUT"
     | None => false
     end
  || match message error with
     | Some m => Js.includes "timeout" m
     | None => false
     end.

(** [baseDelay * Math.pow(2, maxRetries - retries)] *)
Definition delayBefore (retries : nat) : QArith_base.Q :=
  QArith_base.Qmult (QArith_base.Qmake baseDelay 1)
    (QArith_base.Qpower (QArith_base.Qmake 2 1) (Z.of_nat maxRetries - Z.of_nat retries)).

(** What a run of [retryWithBackoff] did: how often it invoked [apiCall],
    the delays it slept, oldest first, and the value returned or the error
    thrown to the caller. *)
Record Run (A : Type) := mkRun {
  calls : nat;
  slept : list QArith_base.Q;
  result : A + ApiError
}.
Arguments mkRun {A}.
Arguments calls {A}.
Arguments slept {A}.
Arguments result {A}.

(** [apiCall n] is what the [n]-th invocation of the callback does (counted
    from [made], the invocations before this call): it returns a value or
    throws. *)
Fixpoint retryWithBackoff {A} (apiCall : nat → A + ApiError) (made : nat)
    (retries : nat) : Run A :=
  match apiCall made with
  | inl v => mkRun (S made) [] (inl v)
  | inr error =>
      match retries with
      | O => mkRun (S made) [] (inr error)
      | S retries' =>
          if negb (isRetryableError error) then mkRun (S made) [] (inr error)
          else
            let delay := delayBefore retries in
            let rest := retryWithBackoff apiCall (S made) retries' in
            mkRun (calls rest) (delay :: slept rest) (result rest)
      end
  end.

End OpenAIRetryService.

(** ** handoffService.js *)

Module HandoffService.

Record Analysis := mk { action : string; reason : string }.

(** The part of [analyzeResponseForHandoff] that follows the [switch]:
    the already-offered check, then the verdict of the external analysis
    ([analyzeConversationForHandoff], given as [shouldOffer]). *)
Definition offerDecision (now : Z) (sessionId : string) (persistentUserId : option string)
    (shouldOffer : bool * string) : M Analysis :=
  let* offered := SessionService.hasHandoffBeenOffered now sessionId persistentUserId in
  if offered then ret (mk "continue_ai" "Human handoff already offered")
  else if shouldOffer.1 then ret (mk "human_handoff" shouldOffer.2)
  else ret (mk "continue_ai" "No handoff triggers detected").

Definition analyzeResponseForHandoff (now : Z) (sessionId : string)
    (persistentUserId : option string) (shouldOffer : bool * string) : M Analysis :=
  let* currentState := SessionService.getSessionState now sessionId persistentUserId in
  if String.eqb currentState SessionState.CALLBACK_REQUEST then
    ret (mk "continue_ai" "CALLBACK_REQUEST state - focusing on lead collection")
  else if String.eqb currentState SessionState.LEAD_CAPTURE then
    ret (mk "continue_ai" "LEAD_CAPTURE state - conversational lead capture mode")
  else if String.eqb currentState SessionState.HUMAN_CONNECTED then
    ret (mk "continue_ai" "HUMAN_CONNECTED state - agent handling conversation")
  else if String.eqb currentState SessionState.NORMAL_CHAT then
    let* canRequestHandoff := SessionService.canRequestHandoffAgain now sessionId persistentUserId in
    if negb canRequestHandoff then
      ret (mk "continue_ai" "NORMAL_CHAT state - handoff cooldown active")
    else
      SessionService.setSessionState now sessionId SessionState.SEEKING_HANDOFF persistentUserId ;;;
      offerDecision now sessionId persistentUserId shouldOffer
  else if String.eqb currentState SessionState.SEEKING_HANDOFF then
    offerDecision now sessionId persistentUserId shouldOffer
  else
    ret (mk "continue_ai" (String.append "Unknown session state: " currentState)).


(** *** [enhancedFallbackAnalysis]

    The fallback taken when the OpenAI analysis throws.  The outcome of
    the regular-expression tests of each category is an input: [user] tells
    whether one of its [patterns] matches the user message, [ai] whether one
    of its [aiPatterns] matches the response ([None] for a category that has
    no such list). *)
Record Category := mkCategory {
  name : string;
  condition : option bool;
  user : bool;
  ai : option bool;
  weight : Z;
  categoryReason : string
}.

(** The outcome of the tests, one field per pattern list. *)
Record Tests := mkTests {
  explicitRequests : bool;
  conversationEnding : bool;
  knowledgeGap : bool;
  strongEngagement : bool;
  complexity : bool;
  emotionalTriggers : bool;
  aiLimitation : bool;
  aiLimitationResponse : bool;
  handoffAcceptance : bool
}.

(** The [patterns] object, in the order of its keys. *)
Definition patterns (t : Tests) (aiResponse : string) (hasKnowledgeMatch : bool)
    : list Category :=
  let aiLower := Js.toLowerCase aiResponse in
  [ mkCategory "explicitRequests" None (explicitRequests t) None 10
      "Direct human connection request detected";
    mkCategory "conversationEnding" None (conversationEnding t) None 9
      "User expressing satisfaction - prime opportunity for future support offer";
    mkCategory "knowledgeGap" (Some (negb hasKnowledgeMatch)) (knowledgeGap t) None 8
      "Specific question without knowledge base match";
    mkCategory "strongEngagement" None (strongEngagement t) None 7
      "Strong engagement and interest signals";
    mkCategory "complexity" None (complexity t) None 7
      "Complex NDIS topics requiring personalized guidance";
    mkCategory "emotionalTriggers" None (emotionalTriggers t) None 8
      "Emotional indicators suggest need for human support";
    mkCategory "aiLimitation" None (aiLimitation t) (Some (aiLimitationResponse t)) 6
      "AI acknowledging limitations or suggesting human help";
    mkCategory "handoffAcceptance"
      (Some (Js.includes "connect" aiLower || Js.includes "speak" aiLower
             || Js.includes "team" aiLower))
      (handoffAcceptance t) None 10
      "User accepted AI offer to connect with team" ].

(** Whether the loop body finds the category triggered; a category whose
    condition fails is skipped. *)
Definition categoryTriggered (c : Category) : bool :=
  match condition c with
  | Some false => false
  | _ =>
      match ai c with
      | Some aiMatches => user c || aiMatches
      | None => user c
      end
  end.

(** The loop variables [maxWeight], [bestReason] and [triggerType]. *)
Record Best := mkBest {
  maxWeight : Z;
  bestReason : string;
  triggerType : option string
}.

Definition consider (best : Best) (c : Category) : Best :=
  if categoryTriggered c && (maxWeight best <? weight c)%Z
  then mkBest (weight c) (categoryReason c) (Some (name c))
  else best.

Record Fallback := mkFallback {
  shouldOffer : bool;
  fallbackReason : string;
  fallbackTrigger : option string;
  confidence : QArith_base.Q
}.

Definition enhancedFallbackAnalysis (t : Tests) (aiResponse : string)
    (hasKnowledgeMatch : bool) : Fallback :=
  let best := fold_left consider (patterns t aiResponse hasKnowledgeMatch)
                (mkBest 0 "No clear triggers detected" None) in
  mkFallback (7 <=? maxWeight best)%Z
    (String.append "Enhanced: " (bestReason best))
    (triggerType best)
    (QArith_base.Qmake (maxWeight best) 10).

End HandoffService.

(** ** slackService.js *)

Module SlackService.

Record Reply := mkReply {
  status : string;
  message : option string;
  threadTs : option string
}.

Definition setUpdateIntervals f (s : SlackLocal) : SlackLocal :=
  mkSlackLocal (f (updateIntervals s)) (sessionDurationIntervals s) (handoffTimeouts s)
    (userInactivityTimeouts s) (connectionRequestTimes s) (sessionConversationHistory s)
    (cachedSummaries s) (waitingSessions s).
Definition setSessionDurationIntervals f (s : SlackLocal) : SlackLocal :=
  mkSlackLocal (updateIntervals s) (f (sessionDurationIntervals s)) (handoffTimeouts s)
    (userInactivityTimeouts s) (connectionRequestTimes s) (sessionConversationHistory s)
    (cachedSummaries s) (waitingSessions s).
Definition setHandoffTimeouts f (s : SlackLocal) : SlackLocal :=
  mkSlackLocal (updateIntervals s) (sessionDurationIntervals s) (f (handoffTimeouts s))
    (userInactivityTimeouts s) (connectionRequestTimes s) (sessionConversationHistory s)
    (cachedSummaries s) (waitingSessions s).
Definition setUserInactivityTimeouts f (s : SlackLocal) : SlackLocal :=
  mkSlackLocal (updateIntervals s) (sessionDurationIntervals s) (handoffTimeouts s)
    (f (userInactivityTimeouts s)) (connectionRequestTimes s) (sessionConversationHistory s)
    (cachedSummaries s) (waitingSessions s).
Definition setConnectionRequestTimes f (s : SlackLocal) : SlackLocal :=
  mkSlackLocal (updateIntervals s) (sessionDurationIntervals s) (handoffTimeouts s)
    (userInactivityTimeouts s) (f (connectionRequestTimes s)) (sessionConversationHistory s)
    (cachedSummaries s) (waitingSessions s).
Definition setSessionConversationHistory f (s : SlackLocal) : SlackLocal :=
  mkSlackLocal (updateIntervals s) (sessionDurationIntervals s) (handoffTimeouts s)
    (userInactivityTimeouts s) (connectionRequestTimes s) (f (sessionConversationHistory s))
    (cachedSummaries s) (waitingSessions s).
Definition setCachedSummaries f (s : SlackLocal) : SlackLocal :=
  mkSlackLocal (updateIntervals s) (sessionDurationIntervals s) (handoffTimeouts s)
    (userInactivityTimeouts s) (connectionRequestTimes s) (sessionConversationHistory s)
    (f (cachedSummaries s)) (waitingSessions s).
Definition setWaitingSessions f (s : SlackLocal) : SlackLocal :=
  mkSlackLocal (updateIntervals s) (sessionDurationIntervals s) (handoffTimeouts s)
    (userInactivityTimeouts s) (connectionRequestTimes s) (sessionConversationHistory s)
    (cachedSummaries s) (f (waitingSessions s)).

(** [if (global.io) global.io.to(room).emit(event, ...)] *)
Definition emitTo (room event : string) : M unit :=
  let* up := gets io in
  when up (emit (Emit room event)).

Definition mapUserToSession (persistentUserId sessionId : string) : M unit :=
  RedisService.updateCurrentSession persistentUserId sessionId ;;;
  RedisService.setSessionMapping sessionId persistentUserId ;;;
  RedisService.updateActiveSessionId persistentUserId sessionId ;;;
  ret tt.

(** [clearTimeout] on the registered timer, then removal of the entry. *)
Definition clearHandoffTimeout (persistentUserId : string) : M unit :=
  modify (withSlack (setHandoffTimeouts (delete persistentUserId))).

Definition stopWaitingTimeUpdater (persistentUserId : string) : M unit :=
  modify (withSlack (setUpdateIntervals (delete (Some persistentUserId)))) ;;;
  RedisService.deleteTimer persistentUserId ;;;
  RedisService.deleteHandoffState persistentUserId ;;;
  ret tt.

(** The timer registered by [setHandoffTimeout] is represented by its
    entry in [handoffTimeouts]; the entry records the [sessionId] captured
    by the callback. *)
Definition setHandoffTimeout (persistentUserId sessionId : string) : M unit :=
  clearHandoffTimeout persistentUserId ;;;
  modify (withSlack (setHandoffTimeouts (<[persistentUserId := sessionId]>))).

(** [userState?.currentSessionId || sessionId] *)
Definition currentSessionOr (userState : option UserState.t)
    (sessionId : string) : string :=
  match Js.truthy (userState ≫= UserState.currentSessionId) with
  | Some s => s
  | None => sessionId
  end.

(** The body of the callback passed to [setTimeout] in
    [setHandoffTimeout]. *)
Definition handoffTimeoutCallback (now : Z) (persistentUserId sessionId : string) : M unit :=
  emit (DbLog "logHandoffTimeout" persistentUserId) ;;;
  let* handoffState := RedisService.getHandoffState persistentUserId in
  match handoffState with
  | Some h =>
      match Js.truthy (Some (Handoff.messageTs h)) with
      | Some ts =>
          emit (SlackUpdate ts (RequestTimedOut (Handoff.sessionId h))) ;;;
          emit (SlackPost (Some ts) TimedOutThreadNote)
      | None => ret tt
      end
  | None => ret tt
  end ;;;
  let* userState := RedisService.getUserState persistentUserId in
  match Js.truthy (Some (currentSessionOr userState sessionId)) with
  | Some currentSessionId =>
      SessionService.setSessionState now currentSessionId SessionState.SEEKING_HANDOFF
        (Some persistentUserId) ;;;
      emitTo currentSessionId "handoff_timeout" ;;;
      emitTo currentSessionId "message"
  | None => ret tt
  end ;;;
  RedisService.deleteHandoffState persistentUserId ;;;
  RedisService.deleteTimer persistentUserId ;;;
  stopWaitingTimeUpdater persistentUserId ;;;
  modify (withSlack (setHandoffTimeouts (delete persistentUserId))).

(** The run-time firing of the handoff timer of [persistentUserId]: a
    timer that was cleared, or never set, does not run its callback. *)
Definition fireHandoffTimeout (now : Z) (persistentUserId : string) : M unit :=
  let* timer := gets (λ w, handoffTimeouts (slack w) !! persistentUserId) in
  match timer with
  | Some sessionId => handoffTimeoutCallback now persistentUserId sessionId
  | None => ret tt
  end.

Definition clearUserInactivityTimeout (persistentUserId : string) : M unit :=
  modify (withSlack (setUserInactivityTimeouts (λ s, s ∖ {[persistentUserId]}))).

Definition setUserInactivityTimeout (persistentUserId : string) : M unit :=
  clearUserInactivityTimeout persistentUserId ;;;
  modify (withSlack (setUserInactivityTimeouts (λ s, s ∪ {[persistentUserId]}))).

Definition startWaitingTimeUpdater (sessionId messageTs : string)
    (persistentUserId : option string) : M unit :=
  modify (withSlack (setUpdateIntervals (<[persistentUserId := (sessionId, messageTs)]>))).

Definition startSessionDurationUpdater (persistentUserId messageTs : string) : M unit :=
  let* session := RedisService.getActiveSession persistentUserId in
  match session with
  | None => ret tt
  | Some _ =>
      modify (withSlack (setSessionDurationIntervals (<[persistentUserId := messageTs]>)))
  end.

Definition stopSessionDurationUpdater (key : string) : M unit :=
  modify (withSlack (setSessionDurationIntervals (delete key))).

(** What [slack.chat.postMessage] did: it threw, or it returned a message
    whose [ts] may be empty. *)
Inductive PostReply :=
| PostThrows
| PostReturns (ts : string).

Definition stillActiveMessage : string :=
  "Your previous request for human assistance is still active. Someone will be with you shortly!".
Definition requestSentMessage : string :=
  "Human agent request sent to our team. Someone will be with you shortly!".

(** [summaryReply] is what [summarizeConversation] answers when it is
    called. *)
Definition requestHumanAgent (now : Z) (sessionId : string)
    (conversationHistory : list (string * string)) (persistentUserId : option string)
    (summaryReply : string) (post : PostReply) : M Reply :=
  let* existingRequest :=
    match Js.truthy persistentUserId with
    | Some uid =>
        mapUserToSession uid sessionId ;;;
        RedisService.getHandoffState uid
    | None => ret None
    end in
  match Js.truthy persistentUserId, existingRequest with
  | Some uid, Some existing =>
      RedisService.setHandoffState uid (Handoff.setSessionId sessionId existing) ;;;
      emitTo sessionId "agent_waiting" ;;;
      ret (mkReply "human_requested" (Some stillActiveMessage) None)
  | _, _ =>
      modify (withSlack (setSessionConversationHistory (<[sessionId := conversationHistory]>))) ;;;
      modify (withSlack (setConnectionRequestTimes (<[sessionId := now]>))) ;;;
      let* summary :=
        match conversationHistory with
        | [] => ret None
        | _ :: _ =>
            modify (withSlack (setCachedSummaries (<[sessionId := summaryReply]>))) ;;;
            ret (Some summaryReply)
        end in
      match post with
      | PostThrows =>
          emit (ConsoleError "Error sending Slack notification:") ;;;
          ret (mkReply "error"
                 (Some "Unable to connect to human agent right now. Please try again."%string) None)
      | PostReturns ts =>
          emit (SlackPost None (NewSupportRequest sessionId)) ;;;
          match Js.truthy (Some ts) with
          | Some messageTs =>
              modify (withSlack (setWaitingSessions
                (<[sessionId := (messageTs, now, persistentUserId)]>))) ;;;
              match Js.truthy persistentUserId with
              | Some uid =>
                  RedisService.setHandoffState uid
                    (Handoff.mk sessionId messageTs now conversationHistory summary) ;;;
                  RedisService.setTimerStart uid now ;;;
                  setHandoffTimeout uid sessionId
              | None => ret tt
              end ;;;
              startWaitingTimeUpdater sessionId messageTs persistentUserId
          | None => ret tt
          end ;;;
          ret (mkReply "human_requested" (Some requestSentMessage) None)
      end
  end.

(** *** [handleAcceptButton]

    The method is given in three consecutive parts, cut at two of its
    [await]s, so that other handlers can be scheduled between them as the
    event loop may do:
    - [acceptResolve]: identifier resolution and the already-accepted
      check, up to the first [slack.chat.update];
    - [acceptStore]: from there to [await deleteHandoffState];
    - [acceptFinish]: the rest.
    [handleAcceptButton] runs the three parts without interruption; two
    calls whose parts alternate are two requests served concurrently. *)

Inductive Resolved :=
| Finished (r : Reply)
| Claiming (persistentUserId sessionId : string).

Definition alreadyTakenMessage (agentName : string) : string :=
  String.append "This chat is already being handled by " agentName.

(** The opening lines of the method: the button value is either a
    [persistentUserId] whose user hash names the current session, or an
    old [sessionId] to be looked up in the session mappings.  The result
    is the pair [(persistentUserId, sessionId)]. *)
Definition resolveIdentifier (identifier : string) : M (option string * string) :=
  let* userState := RedisService.getUserState identifier in
  match Js.truthy (userState ≫= UserState.currentSessionId) with
  | Some s => ret (Some identifier, s)
  | None => let* m := RedisService.getSessionMapping identifier in ret (m, identifier)
  end.

Definition acceptResolve (identifier : string) (originalMessageTs : string) : M Resolved :=
  let* ids := resolveIdentifier identifier in
  match Js.truthy ids.1, Js.truthy (Some ids.2) with
  | Some persistentUserId, Some sessionId =>
      let* activeSession := RedisService.getActiveSession persistentUserId in
      match activeSession with
      | Some a =>
          emit (SlackUpdate originalMessageTs
                  (AlreadyAccepted sessionId (ActiveSession.agentName a))) ;;;
          ret (Finished (mkReply "already_taken"
                 (Some (alreadyTakenMessage (ActiveSession.agentName a))) None))
      | None => ret (Claiming persistentUserId sessionId)
      end
  | _, _ =>
      emit (ConsoleError (String.append "Could not resolve identifiers: " identifier)) ;;;
      ret (Finished (mkReply "error" (Some "Session not found"%string) None))
  end.

Definition threadError : Reply :=
  mkReply "error" (Some "Failed to create chat thread"%string) None.

(** [updateOk] tells whether the [slack.chat.update] that marks the
    message as accepted returned; when it throws, the [catch] answers. *)
Definition acceptStore (now : Z) (persistentUserId sessionId userId userName
    originalMessageTs : string) (updateOk : bool) : M (option Reply) :=
  if updateOk then
    emit (SlackUpdate originalMessageTs (ChatAccepted userName sessionId)) ;;;
    modify (withSlack (setSessionConversationHistory (delete sessionId))) ;;;
    let sessionData :=
      ActiveSession.mk userId userName originalMessageTs originalMessageTs now
        persistentUserId sessionId in
    RedisService.setActiveSession persistentUserId sessionData ;;;
    RedisService.getActiveSession persistentUserId ;;;
    RedisService.getAllActiveSessions ;;;
    RedisService.setUserState persistentUserId "true" userName userId now sessionId ;;;
    stopWaitingTimeUpdater persistentUserId ;;;
    RedisService.deleteHandoffState persistentUserId ;;;
    ret None
  else
    emit (ConsoleError "Error creating thread:") ;;;
    ret (Some threadError).

Definition acceptFinish (now : Z) (persistentUserId sessionId userId userName
    originalMessageTs : string) : M Reply :=
  clearHandoffTimeout persistentUserId ;;;
  clearUserInactivityTimeout persistentUserId ;;;
  startSessionDurationUpdater persistentUserId originalMessageTs ;;;
  SessionService.markHumanHandoffAccepted now sessionId (Some persistentUserId) ;;;
  setUserInactivityTimeout persistentUserId ;;;
  RedisService.getHandoffState persistentUserId ;;;
  emit (DbLog "logAgentConnection" sessionId) ;;;
  emitTo sessionId "agent_connected" ;;;
  ret (mkReply "accepted" None (Some originalMessageTs)).

(** What follows [acceptResolve]. *)
Definition acceptContinue (now : Z) (resolved : Resolved) (userId userName
    originalMessageTs : string) (updateOk : bool) : M Reply :=
  match resolved with
  | Finished r => ret r
  | Claiming persistentUserId sessionId =>
      let* stored := acceptStore now persistentUserId sessionId userId userName
                  originalMessageTs updateOk in
      match stored with
      | Some r => ret r
      | None =>
          acceptFinish now persistentUserId sessionId userId userName originalMessageTs
      end
  end.

Definition handleAcceptButton (now : Z) (identifier userId userName
    originalMessageTs : string) (updateOk : bool) : M Reply :=
  let* resolved := acceptResolve identifier originalMessageTs in
  acceptContinue now resolved userId userName originalMessageTs updateOk.

(** *** [handleEndChatButton] *)

(** [session.persistentUserId || persistentUserId] *)
Definition ownerOf (a : ActiveSession.t) (persistentUserId : option string) : option string :=
  match Js.truthy (Some (ActiveSession.persistentUserId a)) with
  | Some uid => Some uid
  | None => persistentUserId
  end.

Definition handleEndChatButton (now : Z) (identifier userId userName
    messageTs : string) : M Reply :=
  let* direct := RedisService.getActiveSession identifier in
  let* found :=
    match direct with
    | Some a => ret (Some identifier, ActiveSession.currentSessionId a, Some a)
    | None =>
        let* m := RedisService.getSessionMapping identifier in
        let* a := match Js.truthy m with
             | Some uid => RedisService.getActiveSession uid
             | None => ret None
             end in
        ret (m, identifier, a)
    end in
  let '(persistentUserId, sessionId, session) := found in
  match session with
  | None =>
      ret (mkReply "session_not_found" (Some "Session not found or already ended"%string) None)
  | Some a =>
      let owner := ownerOf a persistentUserId in
      match owner with
      | Some key => stopSessionDurationUpdater key
      | None => ret tt
      end ;;;
      emit (SlackUpdate messageTs (ChatEnded userName sessionId)) ;;;
      emit (SlackPost (Some messageTs) (ChatEndedThreadNote userName)) ;;;
      emit (DbLog "logAgentDisconnection" sessionId) ;;;
      emitTo sessionId "agent_disconnected" ;;;
      match Js.truthy owner with
      | Some uid =>
          RedisService.deleteActiveSession uid ;;;
          clearUserInactivityTimeout uid
      | None => ret tt
      end ;;;
      modify (withSlack (setCachedSummaries (delete sessionId))) ;;;
      ret (mkReply "ended" None None)
  end.


(** *** Lookups *)

(** [session !== null] after [getActiveSession], which answers [null] or
    a record. *)
Definition isSessionActive (sessionId : string) : M bool :=
  let* persistentUserId := RedisService.getSessionMapping sessionId in
  match Js.truthy persistentUserId with
  | Some uid =>
      let* session := RedisService.getActiveSession uid in
      ret (Js.present session)
  | None => ret false
  end.

Definition isSessionActiveForUser (persistentUserId : string) : M bool :=
  let* session := RedisService.getActiveSession persistentUserId in
  ret (Js.present session).

Definition isSessionWaiting (sessionId : string) : M bool :=
  let* persistentUserId := RedisService.getSessionMapping sessionId in
  match Js.truthy persistentUserId with
  | Some uid =>
      let* handoffState := RedisService.getHandoffState uid in
      ret (Js.present handoffState)
  | None => ret false
  end.

(** *** [formatDuration]

    [Math.floor(x / d)] is [x / d] on integers with [d] positive, [x % d]
    is the remainder that takes the sign of [x]. *)
Definition formatDuration (seconds : Z) : string :=
  let hours := (seconds / 3600)%Z in
  let minutes := (Z.rem seconds 3600 / 60)%Z in
  let secs := Z.rem seconds 60 in
  if (0 <? hours)%Z then
    String.concat EmptyString
      [Js.numberToString hours; "h "; Js.numberToString minutes; "m ";
       Js.numberToString secs; "s"]
  else if (0 <? minutes)%Z then
    String.concat EmptyString
      [Js.numberToString minutes; "m "; Js.numberToString secs; "s"]
  else String.append (Js.numberToString secs) "s".

(** *** Ending a connection without the agent *)

Definition disconnectSession (sessionId : string) : M unit :=
  let* persistentUserId := RedisService.getSessionMapping sessionId in
  match Js.truthy persistentUserId with
  | Some _ => ret tt
  | None =>
      RedisService.deleteActiveSession sessionId ;;;
      stopSessionDurationUpdater sessionId
  end.

(** The answer of [forceEndSession]: [{status: 'cleaned', persistentUserId}]
    or [{status: 'not_found'}]. *)
Inductive ForceEnd :=
| Cleaned (persistentUserId : string)
| NotFound.

Definition forceEndSession (sessionId : string) : M ForceEnd :=
  let* persistentUserId := RedisService.getSessionMapping sessionId in
  match Js.truthy persistentUserId with
  | Some uid =>
      RedisService.deleteActiveSession uid ;;;
      RedisService.deleteUserState uid ;;;
      RedisService.deleteHandoffState uid ;;;
      stopSessionDurationUpdater uid ;;;
      clearHandoffTimeout uid ;;;
      clearUserInactivityTimeout uid ;;;
      ret (Cleaned uid)
  | None => ret NotFound
  end.

(** [stopWaitingTimeUpdater] is called without [await]; it is run here at
    the place of the call. *)
Definition cleanupSessionData (persistentUserId sessionId : option string) : M unit :=
  match Js.truthy persistentUserId with
  | Some uid =>
      RedisService.deleteActiveSession uid ;;;
      RedisService.deleteUserState uid ;;;
      RedisService.deleteHandoffState uid ;;;
      clearHandoffTimeout uid ;;;
      clearUserInactivityTimeout uid ;;;
      stopWaitingTimeUpdater uid
  | None => ret tt
  end ;;;
  match Js.truthy sessionId with
  | Some sid => stopSessionDurationUpdater sid
  | None => ret tt
  end.

Definition forceEndSessionByPersistentUserId (persistentUserId : string) : M unit :=
  let* userState := RedisService.getUserState persistentUserId in
  match Js.truthy (userState ≫= UserState.currentSessionId) with
  | Some currentSessionId => forceEndSession currentSessionId ;;; ret tt
  | None => cleanupSessionData (Some persistentUserId) None
  end.

(** *** Reconnection of a visitor under a new session *)

Definition reconnectPersistentUser (persistentUserId newSessionId : string) : M bool :=
  let* pendingHandoff := RedisService.getHandoffState persistentUserId in
  match pendingHandoff with
  | Some pending =>
      mapUserToSession persistentUserId newSessionId ;;;
      RedisService.setHandoffState persistentUserId
        (Handoff.setSessionId newSessionId pending) ;;;
      ret true
  | None =>
      let* userState := RedisService.getUserState persistentUserId in
      match userState ≫= UserState.agentConnected with
      | Some flag =>
          if String.eqb flag "true" then
            mapUserToSession persistentUserId newSessionId ;;;
            ret true
          else ret false
      | None => ret false
      end
  end.

Definition handleSessionReconnection (newSessionId persistentUserId : string) : M bool :=
  reconnectPersistentUser persistentUserId newSessionId.

(** *** [sendToHuman] *)

(** What [slack.chat.postMessage] did with the visitor's message: it
    returned, it threw because the thread is gone ([thread_not_found] or
    [message_not_found]), or it threw something else. *)
Inductive ThreadPostReply :=
| Posted
| ThreadGone
| PostFailed.

Definition noAgentMessage : string :=
  "No human agent connected. Please request human assistance first.".

Definition sendToHuman (sessionId message : string) (persistentUserId : option string)
    (post : ThreadPostReply) : X Reply :=
  (lift RedisService.getAllActiveSessions ;;;
   match Js.truthy persistentUserId with
   | Some uid => lift (RedisService.getUserState uid) ;;; retX tt
   | None => retX tt
   end ;;;
   let* byUser :=
     match Js.truthy persistentUserId with
     | Some uid => lift (RedisService.getActiveSession uid)
     | None => retX None
     end in
   let* session :=
     match byUser with
     | Some a => retX (Some a)
     | None =>
         let* mappedUserId := lift (RedisService.getSessionMapping sessionId) in
         match Js.truthy mappedUserId with
         | Some uid => lift (RedisService.getActiveSession uid)
         | None => retX None
         end
     end in
   match session with
   | None => retX (mkReply "error" (Some noAgentMessage) None)
   | Some a =>
       match post with
       | Posted =>
           emitX (ThreadPost (ActiveSession.threadTs a) (CustomerMessage message)) ;;;
           match Js.truthy persistentUserId with
           | Some uid => lift (setUserInactivityTimeout uid)
           | None => retX tt
           end ;;;
           retX (mkReply "sent_to_human" None None)
       | ThreadGone =>
           emitX (Plain (ConsoleError "Error sending message to Slack:")) ;;;
           lift (forceEndSession sessionId) ;;;
           retX (mkReply "thread_deleted"
                   (Some "Session cleaned up - please continue with AI assistant"%string) None)
       | PostFailed =>
           emitX (Plain (ConsoleError "Error sending message to Slack:")) ;;;
           retX (mkReply "error" (Some "Failed to send message to human agent"%string) None)
       end
   end)%X.

(** *** The inactivity timer

    The body of the callback passed to [setTimeout] in
    [setUserInactivityTimeout], and the firing of the timer of a visitor: a
    timer that was cleared, or never set, does not run. *)

(** [a || b] on strings *)
Definition orElse (a b : string) : string :=
  match a with
  | EmptyString => b
  | _ => a
  end.

Definition userInactivityCallback (now : Z) (persistentUserId : string) : X unit :=
  (let* activeSession := lift (RedisService.getActiveSession persistentUserId) in
   match activeSession with
   | Some a =>
       let finalDuration := ((now - ActiveSession.connectedAt a) / 1000)%Z in
       let current := ActiveSession.currentSessionId a in
       emitX (MessageUpdate
                (orElse (ActiveSession.originalMessageTs a) (ActiveSession.threadTs a))
                (InactivityEnded current (formatDuration finalDuration)
                   (ActiveSession.agentName a))) ;;;
       emitX (ThreadPost (ActiveSession.threadTs a) InactivityThreadNote) ;;;
       lift (modify (withSlack (setCachedSummaries (delete current)))) ;;;
       match Js.truthy (Some current) with
       | Some room => lift (emitTo room "agent_disconnected")
       | None => retX tt
       end ;;;
       lift (forceEndSessionByPersistentUserId persistentUserId) ;;;
       lift (emit (DbLog "logUserInactivityTimeout" persistentUserId))
   | None => retX tt
   end ;;;
   lift (modify (withSlack (setUserInactivityTimeouts (λ s, s ∖ {[persistentUserId]})))))%X.

Definition fireUserInactivityTimeout (now : Z) (persistentUserId : string) : X unit :=
  (let* armed := lift (gets (λ w, bool_decide (persistentUserId ∈ userInactivityTimeouts (slack w)))) in
   if armed then userInactivityCallback now persistentUserId else retX tt)%X.

(** *** [handleWaitingSessionDisconnect]

    The method opens with [if (!this.isSessionWaiting(sessionId)) return;].
    [isSessionWaiting] is [async]: what is negated is its promise, which is
    an object, so the method never returns there. *)
Definition handleWaitingSessionDisconnect (now : Z) (sessionId : string) : X unit :=
  (lift (isSessionWaiting sessionId) ;;;
   let* waitingSession := lift (gets (λ w, waitingSessions (slack w) !! sessionId)) in
   match Js.truthy (waitingSession ≫= (λ ws, ws.2)) with
   | Some _ => retX tt
   | None =>
       lift (stopWaitingTimeUpdater sessionId) ;;;
       match waitingSession with
       | Some (messageTs, requestTime, _) =>
           match Js.truthy (Some messageTs) with
           | Some ts =>
               let waited := formatDuration ((now - requestTime) / 1000) in
               emitX (MessageUpdate ts (UserDisconnected sessionId waited)) ;;;
               emitX (ThreadPost ts (UserDisconnectedThreadNote waited))
           | None => retX tt
           end
       | None => retX tt
       end ;;;
       lift (modify (withSlack (setWaitingSessions (delete sessionId)))) ;;;
       lift (modify (withSlack (setCachedSummaries (delete sessionId))))
   end)%X.

End SlackService.

(** ** conversationService.js *)

Module ConversationService.

(** [generateResponse], whatever the state: the history is read, the
    OpenAI completion is asked for through [retryWithBackoff], and the
    exchange is filed with [memoryService.addMessage], which also maps the
    session to the visitor.  [completion] is the text of the completion,
    [None] when the call throws; the method then logs and throws, which the
    answer [None] stands for.  The history itself is kept under the
    conversation keys of [MemoryService], which are no part of [World];
    what the knowledge search and the classification log on the way is not
    recorded. *)
Definition generateResponse (sessionId : string) (persistentUserId : option string)
    (completion : option string) : M (option string) :=
  match completion with
  | Some botResponse =>
      match Js.truthy persistentUserId with
      | Some uid => RedisService.setSessionMapping sessionId uid ;;; ret tt
      | None => ret tt
      end ;;;
      ret (Some botResponse)
  | None =>
      emit (ConsoleError "OpenAI API error in conversation service:") ;;;
      ret None
  end.

End ConversationService.

(** ** aiService.js *)

Module AIService.

(** What [getChatResponse] returns: the responder's text, the notice given
    while an agent is connected, or a handoff suggestion. *)
Inductive ChatResponse :=
| Text (botResponse : string)
| Notice (message : string)
| Suggestion (message reason : string).

Definition responseText (r : ChatResponse) : string :=
  match r with
  | Text t => t
  | Notice m => m
  | Suggestion m _ => m
  end.

(** [userAgreed] is the outcome of the agreement patterns on the message;
    [responder] is the completion that [conversationService.generateResponse]
    obtains, [None] when the call throws; [shouldOffer] is the external
    handoff analysis.  The result is [None] when the method throws. *)
Definition getChatResponse (now : Z) (sessionId : string) (persistentUserId : option string)
    (userAgreed : bool) (responder : option string) (shouldOffer : bool * string)
    : M (option ChatResponse) :=
  SessionService.updateSessionActivity now sessionId persistentUserId ;;;
  let* currentState := SessionService.getSessionState now sessionId persistentUserId in
  if String.eqb currentState SessionState.HUMAN_CONNECTED then
    ret (Some (Notice
      "You're currently connected to a human agent. They should respond shortly."))
  else
    when (String.eqb currentState SessionState.LEAD_CAPTURE && userAgreed)
      (SessionService.setSessionState now sessionId SessionState.CALLBACK_REQUEST
         persistentUserId) ;;;
    let* sessionState := SessionService.getSessionState now sessionId persistentUserId in
    let* generated := ConversationService.generateResponse sessionId persistentUserId
                        responder in
    match generated with
    | None =>
        emit (ConsoleError "OpenAI API error:") ;;;
        ret None
    | Some botResponse =>
        let* handoffAnalysis :=
          (if String.eqb sessionState SessionState.SEEKING_HANDOFF then
             HandoffService.analyzeResponseForHandoff now sessionId persistentUserId shouldOffer
           else ret (HandoffService.mk "continue_ai" "Not in SEEKING_HANDOFF state")) in
        if String.eqb (HandoffService.action handoffAnalysis) "human_handoff" then
          SessionService.markHandoffOffered now sessionId persistentUserId ;;;
          ret (Some (Suggestion botResponse (HandoffService.reason handoffAnalysis)))
        else ret (Some (Text botResponse))
    end.

End AIService.

(** ** chatController.js *)

Module ChatController.








(** *** The callback branch of [handleChatMessage]

    Taken when the message is exactly [callbackMessage] and no earlier
    route has answered. *)

Definition callbackMessage : string :=
  "I would like to request a callback. Can you please help me schedule a call?".

(** The agreement patterns match [callbackMessage] (it contains
    "i would like" once put in lower case). *)
Definition callbackMessageAgrees : bool := true.

(** The JSON answer, without its text; [None] is the 500 answer of the
    outer [catch], which logs. *)
Record Json := mkJson {
  type : string;
  leadCaptureMode : bool
}.

Definition callbackRoute (now : Z) (sessionId : string) (persistentUserId : option string)
    (responder : option string) (shouldOffer : bool * string) : M (option Json) :=
  emit (DbLog "trackCallbackPressed" sessionId) ;;;
  let* currentState := SessionService.getSessionState now sessionId persistentUserId in
  emit (DbLog "logMessage" sessionId) ;;;
  if negb (String.eqb currentState SessionState.NORMAL_CHAT) then
    SessionService.markCallbackRequested now sessionId persistentUserId ;;;
    let* aiResponse := AIService.getChatResponse now sessionId persistentUserId
                    callbackMessageAgrees responder shouldOffer in
    match aiResponse with
    | None =>
        emit (ConsoleError "Error processing request:") ;;;
        ret None
    | Some _ =>
        emit (DbLog "logMessage" sessionId) ;;;
        ret (Some (mkJson "bot_response" true))
    end
  else
    let* aiResponse := AIService.getChatResponse now sessionId persistentUserId
                    callbackMessageAgrees responder shouldOffer in
    match aiResponse with
    | None =>
        emit (ConsoleError "Error processing request:") ;;;
        ret None
    | Some _ =>
        emit (DbLog "logMessage" sessionId) ;;;
        let* responseState := SessionService.getSessionState now sessionId persistentUserId in
        ret (Some (mkJson "bot_response"
               (String.eqb responseState SessionState.LEAD_CAPTURE)))
    end.


(** *** Other branches of [handleChatMessage] *)

(** The step that opens the handler: a visitor who comes back under a
    new session is reconnected. *)
Definition reconnection (sessionId : string) (persistentUserId : option string) : M unit :=
  match Js.truthy persistentUserId, Js.truthy (Some sessionId) with
  | Some uid, Some sid => SlackService.handleSessionReconnection sid uid ;;; ret tt
  | _, _ => ret tt
  end.

(** The branch [type === 'check_session_state']. *)
Inductive SessionCheck :=
| SpecialistConnected (specialistName : string)
| WaitingForSpecialist (waitingStartTime : Z)
| NoSpecialist.

(** [None] is the 500 answer of the outer [catch].  The branch calls
    [slackService.getActiveSessionForUser], which SlackService does not
    define: the call throws a [TypeError]. *)
Definition checkSessionState (sessionId : string) (persistentUserId : option string)
    : M (option SessionCheck) :=
  let* isActive :=
    match Js.truthy persistentUserId with
    | Some uid => SlackService.isSessionActiveForUser uid
    | None => SlackService.isSessionActive sessionId
    end in
  if isActive then
    match Js.truthy persistentUserId with
    | Some _ =>
        emit (ConsoleError "Error processing request:") ;;;
        ret None
    | None => ret (Some (SpecialistConnected "Support Specialist"))
    end
  else
    match Js.truthy persistentUserId with
    | Some uid =>
        let* handoffState := RedisService.getHandoffState uid in
        match handoffState with
        | Some h =>
            if (Handoff.requestTime h =? 0)%Z then ret (Some NoSpecialist)
            else ret (Some (WaitingForSpecialist (Handoff.requestTime h)))
        | None => ret (Some NoSpecialist)
        end
    | None => ret (Some NoSpecialist)
    end.

(** The branch [type === 'decline_human_handoff'].  Its guard
    [if (slackService.isSessionWaiting(sessionId))] tests a promise, so
    [handleWaitingSessionDisconnect] is always called.  The answer is the
    text sent and the [leadCaptureMode] field, [None] when the field is
    left out. *)
Definition ignoredDeclineMessage : string :=
  "No worries! I'm here whenever you need help with NDIS information. Feel free to ask me any questions!".
Definition declineAcknowledgment : string :=
  "No problem at all! I'm here to help with any NDIS questions you have. What would you like to know more about?".

Definition declineRoute (now : Z) (sessionId : string) (persistentUserId : option string)
    : X (string * option bool) :=
  (lift (SlackService.isSessionWaiting sessionId) ;;;
   SlackService.handleWaitingSessionDisconnect now sessionId ;;;
   let* currentState := lift (SessionService.getSessionState now sessionId persistentUserId) in
   if negb (String.eqb currentState SessionState.SEEKING_HANDOFF) then
     retX (ignoredDeclineMessage, None)
   else
     lift (SessionService.markHumanHandoffDeclined now sessionId persistentUserId) ;;;
     lift (emit (DbLog "logMessage" sessionId)) ;;;
     lift (emit (DbLog "logMessage" sessionId)) ;;;
     retX (declineAcknowledgment, Some true))%X.

(** Route 1: the message of a visitor who talks to an agent.  [None]
    means that the handler goes on to the routes that follow. *)
Definition humanRoute (sessionId message : string) (persistentUserId : option string)
    (userToHuman : bool) (post : SlackService.ThreadPostReply)
    : X (option SlackService.Reply) :=
  (let* isActive :=
     lift (match Js.truthy persistentUserId with
           | Some uid => SlackService.isSessionActiveForUser uid
           | None => SlackService.isSessionActive sessionId
           end) in
   if userToHuman || isActive then
     let* result := SlackService.sendToHuman sessionId message persistentUserId post in
     if String.eqb (SlackService.status result) "thread_deleted" then retX None
     else retX (Some result)
   else retX None)%X.

End ChatController.

(** ** Scenarios

    Concrete worlds and schedules used to run the embedding. *)

Module Scenario.

Definition noTimers : SlackLocal := mkSlackLocal ∅ ∅ ∅ ∅ ∅ ∅ ∅ ∅.


(** Redis is connected and holds the session record of visitor [u1], who
    has been offered a handoff on session [s1]. *)
Definition chatting : World :=
  mkWorld
    (mkRedis true ∅ ∅ ∅ ∅ ∅
       {[ "u1"%string := Session.mk SessionState.SEEKING_HANDOFF 900 true None None ]})
    ∅ noTimers true.

(** [u1] asks for a human at instant 1000; Slack answers with message
    [1700.0001]. *)
Definition waiting : World :=
  world (SlackService.requestHumanAgent 1000 "s1" [] (Some "u1"%string) EmptyString
           (SlackService.PostReturns "1700.0001") chatting).

(** Two agents press "Accept" on the same request; both handlers pass
    the already-accepted check before either stores its connection. *)
Definition claimRace : M (SlackService.Reply * SlackService.Reply) :=
  let* a := SlackService.acceptResolve "u1" "1700.0001" in
  let* b := SlackService.acceptResolve "u1" "1700.0001" in
  let* ra := SlackService.acceptContinue 2000 a "A1" "alice" "1700.0001" true in
  let* rb := SlackService.acceptContinue 2001 b "B2" "bob" "1700.0001" true in
  ret (ra, rb).

(** An agent's claim has stored the connection and removed the pending
    request, but has not yet reached [clearHandoffTimeout]. *)
Definition claimLanded : World :=
  world ((let* a := SlackService.acceptResolve "u1" "1700.0001" in
          match a with
          | SlackService.Claiming uid sid =>
              SlackService.acceptStore 600999 uid sid "A1" "alice" "1700.0001" true ;;;
              ret tt
          | SlackService.Finished _ => ret tt
          end) waiting).

(** Agent [alice] accepts the request of [u1] at [handoffInstant] and
    ends the chat thirty seconds later. *)
Definition handoffInstant : Z := 1700000000000.

Definition connected : World :=
  world (SlackService.handleAcceptButton handoffInstant "u1" "A1" "alice"
           "1700.0001" true waiting).

Definition afterLiveHandoff : World :=
  world (SlackService.handleEndChatButton (handoffInstant + 30000) "u1" "A1" "alice"
           "1700.0001" connected).

(** Nobody accepted the request of [u1]; its timer has fired. *)
Definition timedOut : World :=
  world (SlackService.fireHandoffTimeout 601000 "u1" waiting).

End Scenario.

(** * Observations on a world

    The vocabulary of the specifications below.  [agentBound] tells whether
    [getSessionState] finds a live connection record for the visitor;
    [frame] relates two worlds that differ at most in the session records
    (and in hash entries of connections whose mark has gone, which
    [getActiveSession] removes when it meets them). *)

Definition persistentKey (persistentUserId : option string) (w : World) : option string :=
  value (SessionService.persistent persistentUserId w).

Definition connectionOf (uid : string) (w : World) : option ActiveSession.t :=
  value (RedisService.getActiveSession uid w).

Definition agentBound (persistentUserId : option string) (w : World) : bool :=
  match persistentKey persistentUserId w with
  | Some uid => Js.present (connectionOf uid w)
  | None => false
  end.

(** The record [getSession] answers with at instant [n]. *)
Definition recordAt (n : Z) (sessionId : string) (persistentUserId : option string)
    (w : World) : Session.t :=
  value (SessionService.getSession n sessionId persistentUserId w).

Record frame (w w' : World) : Prop := mkFrame {
  frame_connected : isConnected (redis w') = isConnected (redis w);
  frame_users : userKeys (redis w') = userKeys (redis w);
  frame_sessionKeys : sessionKeys (redis w') = sessionKeys (redis w);
  frame_handoff : handoffKeys (redis w') = handoffKeys (redis w);
  frame_timer : timerKeys (redis w') = timerKeys (redis w);
  frame_slack : slack w' = slack w;
  frame_io : io w' = io w;
  frame_connection : ∀ uid, connectionOf uid w' = connectionOf uid w
}.

Definition recorded (sessionId : string) (persistentUserId : option string)
    (w : World) (s : Session.t) : Prop :=
  ∀ n, recordAt n sessionId persistentUserId w = s.

(** After a write the Redis copy is what any session of the visitor reads. *)
Definition recordedForVisitor (persistentUserId : option string)
    (w : World) (s : Session.t) : Prop :=
  ∀ uid, persistentKey persistentUserId w = Some uid →
         sessionStateKeys (redis w) !! uid = Some s.

(** The record [getSessionState] leaves behind: the stored one, overwritten
    when a connection record is live. *)
Definition afterStateRead (now : Z) (sessionId : string) (persistentUserId : option string)
    (w : World) : Session.t :=
  let s := recordAt now sessionId persistentUserId w in
  if agentBound persistentUserId w
  then Session.setPersistentUserId persistentUserId
         (Session.setState SessionState.HUMAN_CONNECTED s)
  else s.

(** The answer of [canRequestHandoffAgain] as a function of the record. *)
Definition cooledDown (now : Z) (s : Session.t) : bool :=
  match Session.lastHandoffTime s with
  | None => true
  | Some t => if (t =? 0)%Z then true else (SessionService.oneHourMs <=? now - t)%Z
  end.

(** The record [markHumanHandoffAccepted] leaves behind. *)
Definition afterAcceptance (now : Z) (sessionId : string) (persistentUserId : option string)
    (w : World) : Session.t :=
  let s1 := Session.setLastHandoffTime (Some now)
              (recordAt now sessionId persistentUserId w) in
  Session.setLastActivity now
    (Session.setState SessionState.NORMAL_CHAT
       (if agentBound persistentUserId w
        then Session.setPersistentUserId persistentUserId
               (Session.setState SessionState.HUMAN_CONNECTED s1)
        else s1)).

(** What [handleAcceptButton] stores, emits and answers. *)
Definition connectionData (now : Z) (uid sessionId userId userName originalMessageTs : string)
    : ActiveSession.t :=
  ActiveSession.mk userId userName originalMessageTs originalMessageTs now uid sessionId.

Definition acceptedUserState (now : Z) (sessionId userId userName : string) : UserState.t :=
  UserState.mk (Some sessionId) (Some "true"%string) (Some userName) (Some userId) (Some now).

Definition acceptFinishEvents (sessionId : string) (w : World) : list Event :=
  DbLog "logAgentConnection" sessionId ::
  (if io w then [Emit sessionId "agent_connected"] else []).

Definition notFound : SlackService.Reply :=
  SlackService.mkReply "error" (Some "Session not found"%string) None.

Definition alreadyTaken (a : ActiveSession.t) : SlackService.Reply :=
  SlackService.mkReply "already_taken"
    (Some (SlackService.alreadyTakenMessage (ActiveSession.agentName a))) None.

(** The session record left by a successful claim. *)
Definition acceptedRecord (now : Z) (uid : string) (old : Session.t) : Session.t :=
  Session.mk SessionState.NORMAL_CHAT now (Session.handoffOffered old) (Some now) (Some uid).

Definition acceptedReply (originalMessageTs : string) : SlackService.Reply :=
  SlackService.mkReply "accepted" None (Some originalMessageTs).

(** A history made of whole exchanges: a user message followed by the
    assistant's answer, any number of times. *)
Fixpoint alternates (l : list MemoryService.Message) : bool :=
  match l with
  | [] => true
  | u :: rest =>
      match rest with
      | [] => false
      | a :: rest' =>
          String.eqb (MemoryService.role u) "user"
          && String.eqb (MemoryService.role a) "assistant"
          && alternates rest'
      end
  end.

(** The delays slept before the first [n] retries, when [retries] retries
    were left at the start. *)
Definition backoff (retries n : nat) : list QArith_base.Q :=
  map (λ i, OpenAIRetryService.delayBefore (retries - i)) (seq 0 n).

(** * Reasoning support *)

(** Symbolic execution of a computation on a world whose maps are variables:
    unfold the embedding, use the known lookups, simplify lookups in updated
    maps, decide comparisons of literals.  [mrun] stops at the methods of
    SessionService, which are used through their specifications below;
    [srun] enters them. *)

Ltac wcases w :=
  let c := fresh "c" in let uk := fresh "uk" in let sk := fresh "sk" in
  let hk := fresh "hk" in let tk := fresh "tk" in let ak := fresh "ak" in
  let ssk := fresh "ssk" in let ses := fresh "ses" in let i := fresh "i" in
  let ui := fresh "ui" in let sdi := fresh "sdi" in let ht := fresh "ht" in
  let uit := fresh "uit" in let crt := fresh "crt" in let sch := fresh "sch" in
  let cs := fresh "cs" in let ws := fresh "ws" in
  destruct w as [[c uk sk hk tk ak ssk] ses [ui sdi ht uit crt sch cs ws] i].

Ltac mrun :=
  lazy [bind ret gets modify emit when value world events fst snd negb andb
       withRedis withSessions withSlack redis sessions slack io
       isConnected userKeys sessionKeys handoffKeys timerKeys activeSessions sessionStateKeys
       updateIntervals sessionDurationIntervals handoffTimeouts userInactivityTimeouts
       connectionRequestTimes sessionConversationHistory cachedSummaries waitingSessions
       Js.present
       RedisService.connected RedisService.setUsers RedisService.setSessionKeys
       RedisService.setHandoffKeys RedisService.setTimerKeys RedisService.setActiveSessions
       RedisService.setSessionStateKeys RedisService.hSet RedisService.setUserState
       RedisService.updateCurrentSession RedisService.getUserState RedisService.deleteUserState
       RedisService.setSessionMapping RedisService.getSessionMapping
       RedisService.setHandoffState RedisService.getHandoffState RedisService.deleteHandoffState
       RedisService.setTimerStart RedisService.getTimerStart RedisService.deleteTimer
       RedisService.setActiveSession RedisService.getActiveSession
       RedisService.deleteActiveSession RedisService.getAllActiveSessions
       RedisService.updateActiveSessionId
       Session.state Session.lastActivity Session.handoffOffered Session.lastHandoffTime
       Session.persistentUserId Session.setState Session.setLastActivity
       Session.setHandoffOffered Session.setLastHandoffTime Session.setPersistentUserId
       Session.default
       HandoffService.action HandoffService.reason
       SlackService.status SlackService.message SlackService.threadTs
       SlackService.setUpdateIntervals SlackService.setSessionDurationIntervals
       SlackService.setHandoffTimeouts SlackService.setUserInactivityTimeouts
       SlackService.setConnectionRequestTimes SlackService.setSessionConversationHistory
       SlackService.setCachedSummaries SlackService.setWaitingSessions
       SlackService.emitTo SlackService.mapUserToSession SlackService.clearHandoffTimeout
       SlackService.stopWaitingTimeUpdater SlackService.setHandoffTimeout
       SlackService.handoffTimeoutCallback SlackService.fireHandoffTimeout
       SlackService.clearUserInactivityTimeout SlackService.setUserInactivityTimeout
       SlackService.startWaitingTimeUpdater SlackService.startSessionDurationUpdater
       SlackService.stopSessionDurationUpdater SlackService.requestHumanAgent
       SlackService.resolveIdentifier SlackService.acceptResolve SlackService.acceptStore
       SlackService.acceptFinish SlackService.acceptContinue SlackService.handleAcceptButton
       SlackService.handleEndChatButton SlackService.ownerOf SlackService.currentSessionOr];
  cbn [app].

Ltac srun :=
  lazy [SessionService.getSessionFromRedis SessionService.saveSessionToRedis
       SessionService.persistent SessionService.cache SessionService.getSessionInMemory
       SessionService.getSession SessionService.saveIfPersistent
       SessionService.getSessionState];
  mrun.

Ltac mlit :=
  repeat match goal with
  | |- context [String.eqb ?a ?b] =>
      let v := eval vm_compute in (String.eqb a b) in
      lazymatch v with
      | true => change (String.eqb a b) with true
      | false => change (String.eqb a b) with false
      end
  | |- context [SessionService.isValidState ?a] =>
      let v := eval vm_compute in (SessionService.isValidState a) in
      lazymatch v with
      | true => change (SessionService.isValidState a) with true
      | false => change (SessionService.isValidState a) with false
      end
  end.

Ltac mhyp :=
  repeat match goal with
  | H : ?m !! ?k = _ |- context [?m !! ?k] => rewrite H
  | H : Js.truthy ?x = _ |- context [Js.truthy ?x] => rewrite H
  | H : String.eqb ?a ?b = _ |- context [String.eqb ?a ?b] => rewrite H
  end.

Ltac mmap :=
  repeat first
    [ rewrite lookup_insert_eq
    | rewrite lookup_delete_eq
    | rewrite lookup_insert_ne by congruence
    | rewrite lookup_delete_ne by congruence ].

Ltac mexec := repeat (progress (mrun; mhyp; mmap; mlit)).

(** Case analysis on whatever still blocks the execution. *)
Ltac mcases :=
  repeat first
    [ progress mexec
    | progress (change (Js.truthy None) with (@None string))
    | match goal with
      | |- context [delete ?k ?m !! ?k'] =>
          destruct (decide (k' = k)); [subst|]
      | |- context [<[?k := _]> ?m !! ?k'] =>
          destruct (decide (k' = k)); [subst|]
      | |- context [match ?m !! ?k with Some _ => _ | None => _ end] =>
          is_var m; destruct (m !! k) eqn:?
      | |- context [match Js.truthy ?x with Some _ => _ | None => _ end] =>
          destruct (Js.truthy x) eqn:?
      | |- context [if ?b then _ else _] => is_var b; destruct b
      end ].
Ltac sexec := repeat (progress (srun; mhyp; mmap; mlit)).

Section Basics.

Lemma truthy_Some (o : option string) (s : string) :
  Js.truthy o = Some s → o = Some s ∧ s ≠ EmptyString.
Proof. destruct o as [[|a t]|]; simpl; intros H; inversion H; subst; split; congruence. Qed.

Lemma truthy_idem (o : option string) (s : string) :
  Js.truthy o = Some s → Js.truthy (Some s) = Some s.
Proof. intros H. apply truthy_Some in H as [_ Hne]. destruct s; simpl; congruence. Qed.

Lemma isValidState_elem (state : string) :
  SessionService.isValidState state = true ↔ state ∈ SessionState.values.
Proof.
  unfold SessionService.isValidState. rewrite existsb_exists, list_elem_of_In.
  split.
  - intros (x & Hin & Heq). apply String.eqb_eq in Heq. by subst.
  - intros Hin. exists state. split; [done | apply String.eqb_refl].
Qed.

Lemma five_known_states : length SessionState.values = 5%nat ∧ NoDup SessionState.values.
Proof. split; [reflexivity | ]. apply (bool_decide_unpack _). vm_compute. exact I. Qed.

(** Running a sequence: the value and the world of [bind]. *)
Lemma bind_run {A B} (m : M A) (k : A → M B) (w : World) :
  bind m k w =
  (value (k (value (m w)) (world (m w))),
   world (k (value (m w)) (world (m w))),
   events (m w) ++ events (k (value (m w)) (world (m w)))).
Proof.
  unfold bind, value, world, events.
  destruct (m w) as [[a w1] t1]. simpl. destruct (k a w1) as [[b w2] t2]. reflexivity.
Qed.

Lemma value_bind {A B} (m : M A) (k : A → M B) (w : World) :
  value (bind m k w) = value (k (value (m w)) (world (m w))).
Proof. rewrite bind_run. reflexivity. Qed.

Lemma world_bind {A B} (m : M A) (k : A → M B) (w : World) :
  world (bind m k w) = world (k (value (m w)) (world (m w))).
Proof. rewrite bind_run. reflexivity. Qed.

Lemma events_bind {A B} (m : M A) (k : A → M B) (w : World) :
  events (bind m k w) = events (m w) ++ events (k (value (m w)) (world (m w))).
Proof. rewrite bind_run. reflexivity. Qed.

Lemma run_eta {A} (r : A * World * list Event) : r = (value r, world r, events r).
Proof. destruct r as [[a w] t]. reflexivity. Qed.

End Basics.

(** * The session state machine *)

(** C8. Setting the state of a visitor to a value outside the five known
    ones is rejected: the call writes one "Invalid state" line with
    [console.error] and leaves Redis, the in-memory sessions and every other
    part of the world as they were. *)
Theorem setSessionState_rejects_unknown_state
    (now : Z) (sessionId state : string) (persistentUserId : option string) (w : World) :
  state ∉ SessionState.values →
  SessionService.setSessionState now sessionId state persistentUserId w =
    (tt, w, [ConsoleError (SessionService.invalidStateMessage state)]).
Proof.
  intros Hbad. unfold SessionService.setSessionState.
  destruct (SessionService.isValidState state) eqn:E; [|reflexivity].
  apply isValidState_elem in E. contradiction.
Qed.

Lemma setSessionState_rejects_unknown_state_witness :
  ("paused"%string ∉ SessionState.values) ∧
  SessionService.setSessionState 7 "s1" "paused" (Some "u1"%string)
    (mkWorld (mkRedis true ∅ ∅ ∅ ∅ ∅ ∅) ∅ (mkSlackLocal ∅ ∅ ∅ ∅ ∅ ∅ ∅ ∅) true) =
    (tt, mkWorld (mkRedis true ∅ ∅ ∅ ∅ ∅ ∅) ∅ (mkSlackLocal ∅ ∅ ∅ ∅ ∅ ∅ ∅ ∅) true,
     [ConsoleError (SessionService.invalidStateMessage "paused")]).
Proof.
  assert (H : "paused"%string ∉ SessionState.values).
  { apply (bool_decide_unpack _). vm_compute. exact I. }
  split; [exact H | exact (setSessionState_rejects_unknown_state 7 "s1" "paused" _ _ H)].
Defined.

Ltac lookup_cases :=
  repeat (mexec;
          match goal with
          | |- context [match ?m !! ?k with Some _ => _ | None => _ end] =>
              is_var m; destruct (m !! k) eqn:?
          end); mexec.

Ltac frame_tac :=
  constructor; try reflexivity;
  let u := fresh "u" in intros u; unfold connectionOf; mexec; try reflexivity.

Section Frame.

Lemma frame_refl (w : World) : frame w w.
Proof. by constructor. Qed.

Lemma frame_trans (w1 w2 w3 : World) : frame w1 w2 → frame w2 w3 → frame w1 w3.
Proof.
  intros [] []. constructor; congruence.
Qed.

Lemma frame_persistentKey (w w' : World) (p : option string) :
  frame w w' → persistentKey p w' = persistentKey p w.
Proof.
  intros [Hc _ _ _ _ _ _ _].
  unfold persistentKey, SessionService.persistent, RedisService.connected, bind, gets, ret, value.
  cbn. by rewrite Hc.
Qed.

Lemma frame_agentBound (w w' : World) (p : option string) :
  frame w w' → agentBound p w' = agentBound p w.
Proof.
  intros Hf. unfold agentBound. rewrite (frame_persistentKey _ _ _ Hf).
  destruct (persistentKey p w); [|done]. by rewrite (frame_connection _ _ Hf).
Qed.

End Frame.

(** ** Specifications of the SessionService methods

    Each method returns, emits nothing, leaves everything but the session
    records alone, and leaves a record that [getSession] will answer with at
    any later instant. *)

Section SessionSpecs.

Variables (now : Z) (sessionId : string) (persistentUserId : option string).

Lemma getSession_spec (w : World) :
  ∃ w', SessionService.getSession now sessionId persistentUserId w
          = (recordAt now sessionId persistentUserId w, w', []) ∧
        frame w w' ∧
        recorded sessionId persistentUserId w' (recordAt now sessionId persistentUserId w).
Proof.
  unfold recorded, recordAt. wcases w.
  destruct c, (Js.truthy persistentUserId) as [uid|] eqn:Ht;
    try destruct (ssk !! uid) as [s|] eqn:E1;
    destruct (ses !! sessionId) as [s'|] eqn:E2; sexec.
  all: eexists; split; [reflexivity|].
  all: split; [frame_tac; lookup_cases; reflexivity|intros n; sexec; reflexivity].
Qed.

(** Assigning the fields of the cached object and saving it. *)
Lemma store_spec (s : Session.t) (w : World) :
  ∃ w', (SessionService.cache sessionId s ;;;
         SessionService.saveIfPersistent persistentUserId s) w = (tt, w', []) ∧
        frame w w' ∧
        recorded sessionId persistentUserId w' s ∧
        recordedForVisitor persistentUserId w' s.
Proof.
  unfold recorded, recordedForVisitor, recordAt, persistentKey. wcases w.
  destruct c, (Js.truthy persistentUserId) as [uid|] eqn:Ht; sexec;
    (eexists; split; [reflexivity|split; [frame_tac; lookup_cases; reflexivity|split;
       [intros n; sexec; reflexivity | intros u'; sexec; try congruence]]]).
  intros [= <-]. sexec. reflexivity.
Qed.

Lemma getSessionState_spec (w : World) :
  ∃ w', SessionService.getSessionState now sessionId persistentUserId w
          = (if agentBound persistentUserId w then SessionState.HUMAN_CONNECTED
             else Session.state (recordAt now sessionId persistentUserId w), w', []) ∧
        frame w w' ∧
        recorded sessionId persistentUserId w' (afterStateRead now sessionId persistentUserId w).
Proof.
  unfold afterStateRead, recorded, recordAt, agentBound, persistentKey, connectionOf.
  wcases w.
  destruct c, (Js.truthy persistentUserId) as [uid|] eqn:Ht;
    try destruct (sk !! RedisService.ttlKey uid) as [v|] eqn:E0;
    try destruct (ak !! uid) as [a|] eqn:E3;
    try destruct (ssk !! uid) as [s|] eqn:E1;
    destruct (ses !! sessionId) as [s'|] eqn:E2; sexec;
    (eexists; split; [reflexivity|split; [frame_tac|intros n; sexec; reflexivity]]).
  all: try (destruct (decide (u = uid)) as [->|Hne]); lookup_cases; reflexivity.
Qed.

End SessionSpecs.

Lemma bind_eq {A B} (m : M A) (k : A → M B) (w w1 : World) (a : A) (t1 : list Event) :
  m w = (a, w1, t1) →
  bind m k w = (let '(b, w2, t2) := k a w1 in (b, w2, t1 ++ t2)).
Proof. intros E. unfold bind. rewrite E. reflexivity. Qed.

Lemma seq_assoc {A B C} (a : M A) (b : M B) (k : B → M C) (w : World) :
  bind a (λ _, bind b k) w = bind (bind a (λ _, b)) k w.
Proof.
  unfold bind. destruct (a w) as [[x w1] t1]. destruct (b w1) as [[y w2] t2].
  destruct (k y w2) as [[z w3] t3]. by rewrite app_assoc.
Qed.

(** Replace the first call of a sequence by its specified outcome. *)
Ltac mbind E := rewrite (bind_eq _ _ _ _ _ _ E); cbv beta iota zeta.

Section SessionSpecs2.

Variables (now : Z) (sessionId : string) (persistentUserId : option string).

Local Abbreviation recAt := (recordAt now sessionId persistentUserId).

Lemma getSessionState_value (w : World) :
  value (SessionService.getSessionState now sessionId persistentUserId w) =
  if agentBound persistentUserId w then SessionState.HUMAN_CONNECTED
  else Session.state (recAt w).
Proof. destruct (getSessionState_spec now sessionId persistentUserId w) as (w' & -> & _). done. Qed.

(** Reading the record, assigning fields with [f] and saving. *)
Lemma update_spec (f : Session.t → Session.t) (w : World) :
  ∃ w', (let* session := SessionService.getSession now sessionId persistentUserId in
         SessionService.cache sessionId (f session) ;;;
         SessionService.saveIfPersistent persistentUserId (f session)) w = (tt, w', []) ∧
        frame w w' ∧
        recorded sessionId persistentUserId w' (f (recAt w)) ∧
        recordedForVisitor persistentUserId w' (f (recAt w)).
Proof.
  destruct (getSession_spec now sessionId persistentUserId w) as (w1 & E1 & F1 & R1).
  destruct (store_spec sessionId persistentUserId (f (recAt w)) w1) as (w2 & E2 & F2 & R2 & V2).
  exists w2. mbind E1. rewrite E2. split; [reflexivity|].
  split; [by eapply frame_trans|]. by split.
Qed.

Lemma setSessionState_spec (state : string) (w : World) :
  state ∈ SessionState.values →
  let s' := Session.setLastActivity now
              (Session.setState state (afterStateRead now sessionId persistentUserId w)) in
  ∃ w', SessionService.setSessionState now sessionId state persistentUserId w = (tt, w', []) ∧
        frame w w' ∧
        recorded sessionId persistentUserId w' s' ∧
        recordedForVisitor persistentUserId w' s'.
Proof.
  intros Hv s'. apply isValidState_elem in Hv.
  unfold SessionService.setSessionState. rewrite Hv.
  destruct (getSessionState_spec now sessionId persistentUserId w) as (w1 & E1 & F1 & R1).
  destruct (update_spec (λ s, Session.setLastActivity now (Session.setState state s)) w1)
    as (w2 & E2 & F2 & R2 & V2).
  exists w2. mbind E1. rewrite E2, (R1 now) in *.
  split; [reflexivity|]. split; [by eapply frame_trans|]. by split.
Qed.

Lemma updateSessionActivity_spec (w : World) :
  ∃ w', SessionService.updateSessionActivity now sessionId persistentUserId w = (tt, w', []) ∧
        frame w w' ∧
        recorded sessionId persistentUserId w' (Session.setLastActivity now (recAt w)) ∧
        recordedForVisitor persistentUserId w' (Session.setLastActivity now (recAt w)).
Proof. apply (update_spec (Session.setLastActivity now)). Qed.

Lemma markHandoffOffered_spec (w : World) :
  ∃ w', SessionService.markHandoffOffered now sessionId persistentUserId w = (tt, w', []) ∧
        frame w w' ∧
        recorded sessionId persistentUserId w' (Session.setHandoffOffered true (recAt w)) ∧
        recordedForVisitor persistentUserId w' (Session.setHandoffOffered true (recAt w)).
Proof. apply (update_spec (Session.setHandoffOffered true)). Qed.

Lemma hasHandoffBeenOffered_spec (w : World) :
  ∃ w', SessionService.hasHandoffBeenOffered now sessionId persistentUserId w
          = (Session.handoffOffered (recAt w), w', []) ∧
        frame w w' ∧ recorded sessionId persistentUserId w' (recAt w).
Proof.
  destruct (getSession_spec now sessionId persistentUserId w) as (w1 & E1 & F1 & R1).
  exists w1. unfold SessionService.hasHandoffBeenOffered. mbind E1. done.
Qed.

Lemma canRequestHandoffAgain_spec (w : World) :
  ∃ w', SessionService.canRequestHandoffAgain now sessionId persistentUserId w
          = (cooledDown now (recAt w), w', []) ∧
        frame w w' ∧ recorded sessionId persistentUserId w' (recAt w).
Proof.
  destruct (getSession_spec now sessionId persistentUserId w) as (w1 & E1 & F1 & R1).
  exists w1. unfold SessionService.canRequestHandoffAgain, cooledDown. mbind E1.
  split; [|done].
  destruct (Session.lastHandoffTime (recAt w)) as [t|]; [|done].
  destruct (t =? 0)%Z; done.
Qed.

Lemma markHumanHandoffAccepted_spec (w : World) :
  ∃ w', SessionService.markHumanHandoffAccepted now sessionId persistentUserId w
          = (tt, w', []) ∧
        frame w w' ∧
        recorded sessionId persistentUserId w' (afterAcceptance now sessionId persistentUserId w) ∧
        recordedForVisitor persistentUserId w' (afterAcceptance now sessionId persistentUserId w).
Proof.
  destruct (getSession_spec now sessionId persistentUserId w) as (w0 & E0 & F0 & R0).
  destruct (store_spec sessionId persistentUserId
              (Session.setLastHandoffTime (Some now) (recAt w)) w0)
    as (w1 & E1 & F1 & R1 & V1).
  destruct (setSessionState_spec SessionState.NORMAL_CHAT w1) as (w2 & E2 & F2 & R2 & V2).
  { apply isValidState_elem. reflexivity. }
  exists w2. unfold SessionService.markHumanHandoffAccepted.
  mbind E0. rewrite seq_assoc. mbind E1. rewrite E2.
  assert (afterStateRead now sessionId persistentUserId w1 =
          if agentBound persistentUserId w
          then Session.setPersistentUserId persistentUserId
                 (Session.setState SessionState.HUMAN_CONNECTED
                    (Session.setLastHandoffTime (Some now) (recAt w)))
          else Session.setLastHandoffTime (Some now) (recAt w)) as Hread.
  { unfold afterStateRead. rewrite (R1 now).
    by rewrite (frame_agentBound w w1) by (by eapply frame_trans). }
  rewrite Hread in R2, V2.
  split; [reflexivity|]. split; [eauto using frame_trans|]. by split.
Qed.

End SessionSpecs2.

Section Cooldown.

Variables (sessionId : string) (persistentUserId : option string).

(** The handoff timestamp of the record answered by [getSession] does not
    depend on the instant of the call: a record created on the spot has
    none. *)
Lemma lastHandoffTime_any_instant (n1 n2 : Z) (w : World) :
  Session.lastHandoffTime (recordAt n1 sessionId persistentUserId w) =
  Session.lastHandoffTime (recordAt n2 sessionId persistentUserId w).
Proof.
  unfold recordAt. wcases w.
  destruct c, (Js.truthy persistentUserId) as [uid|] eqn:Ht;
    try destruct (ssk !! uid) eqn:E1;
    destruct (ses !! sessionId) eqn:E2; sexec; reflexivity.
Qed.

Lemma not_bound_of_state (now : Z) (w : World) (st : string) :
  value (SessionService.getSessionState now sessionId persistentUserId w) = st →
  st ≠ SessionState.HUMAN_CONNECTED →
  agentBound persistentUserId w = false ∧
  Session.state (recordAt now sessionId persistentUserId w) = st.
Proof.
  rewrite getSessionState_value. destruct (agentBound persistentUserId w); [congruence|done].
Qed.

End Cooldown.

(** C3. The live-handoff cooldown.  For a visitor whose record carries
    [lastHandoffTime = T], [canRequestHandoffAgain] answers false 59 minutes
    after [T] and true 61 minutes after [T]; a visitor whose record carries no
    timestamp is eligible.  In [analyzeResponseForHandoff], a visitor in
    NORMAL_CHAT whose cooldown is still running gets "cooldown active" and
    stays in NORMAL_CHAT; once the cooldown has elapsed the state is first set
    to SEEKING_HANDOFF and the remaining rules ([offerDecision]) are then
    evaluated in a world [w1] where the state reads SEEKING_HANDOFF. *)
Theorem live_handoff_cooldown
    (T : Z) (sessionId : string) (persistentUserId : option string) (w : World) :
  T ≠ 0%Z →
  Session.lastHandoffTime
    (value (SessionService.getSession T sessionId persistentUserId w)) = Some T →
  value (SessionService.canRequestHandoffAgain (T + 59 * 60 * 1000) sessionId persistentUserId w)
    = false ∧
  value (SessionService.canRequestHandoffAgain (T + 61 * 60 * 1000) sessionId persistentUserId w)
    = true ∧
  (∀ (now : Z) (w0 : World),
     Session.lastHandoffTime
       (value (SessionService.getSession now sessionId persistentUserId w0)) = None →
     value (SessionService.canRequestHandoffAgain now sessionId persistentUserId w0) = true) ∧
  (∀ (now : Z) (shouldOffer : bool * string),
     value (SessionService.getSessionState now sessionId persistentUserId w)
       = SessionState.NORMAL_CHAT →
     (now - T < SessionService.oneHourMs)%Z →
     let r := HandoffService.analyzeResponseForHandoff now sessionId persistentUserId
                shouldOffer w in
     value r = HandoffService.mk "continue_ai" "NORMAL_CHAT state - handoff cooldown active" ∧
     value (SessionService.getSessionState now sessionId persistentUserId (world r))
       = SessionState.NORMAL_CHAT) ∧
  (∀ (now : Z) (shouldOffer : bool * string),
     value (SessionService.getSessionState now sessionId persistentUserId w)
       = SessionState.NORMAL_CHAT →
     (SessionService.oneHourMs ≤ now - T)%Z →
     ∃ w1 : World,
       value (SessionService.getSessionState now sessionId persistentUserId w1)
         = SessionState.SEEKING_HANDOFF ∧
       value (HandoffService.analyzeResponseForHandoff now sessionId persistentUserId
                shouldOffer w)
         = value (HandoffService.offerDecision now sessionId persistentUserId shouldOffer w1) ∧
       world (HandoffService.analyzeResponseForHandoff now sessionId persistentUserId
                shouldOffer w)
         = world (HandoffService.offerDecision now sessionId persistentUserId shouldOffer w1)).
Proof.
  intros HT Hrec. fold (recordAt T sessionId persistentUserId w) in Hrec.
  assert (Hcool : ∀ now, cooledDown now (recordAt now sessionId persistentUserId w)
                         = (SessionService.oneHourMs <=? now - T)%Z).
  { intros now. unfold cooledDown.
    rewrite (lastHandoffTime_any_instant _ _ now T), Hrec.
    destruct (T =? 0)%Z eqn:E; [apply Z.eqb_eq in E; contradiction|done]. }
  split; [|split; [|split; [|split]]].
  - destruct (canRequestHandoffAgain_spec (T + 59 * 60 * 1000) sessionId persistentUserId w)
      as (w' & -> & _).
    cbn [value fst]. rewrite Hcool. apply Z.leb_gt. unfold SessionService.oneHourMs. lia.
  - destruct (canRequestHandoffAgain_spec (T + 61 * 60 * 1000) sessionId persistentUserId w)
      as (w' & -> & _).
    cbn [value fst]. rewrite Hcool. apply Z.leb_le. unfold SessionService.oneHourMs. lia.
  - intros now w0 Hnone.
    destruct (canRequestHandoffAgain_spec now sessionId persistentUserId w0) as (w' & -> & _).
    cbn [value fst]. unfold cooledDown. fold (recordAt now sessionId persistentUserId w0) in Hnone.
    by rewrite Hnone.
  - intros now shouldOffer Hst Hlt r. subst r.
    destruct (not_bound_of_state _ _ _ _ _ Hst) as [Hnb Hrs]; [done|].
    destruct (getSessionState_spec now sessionId persistentUserId w) as (w1 & E1 & F1 & R1).
    unfold afterStateRead in R1. rewrite Hnb in R1, E1. rewrite Hrs in E1.
    destruct (canRequestHandoffAgain_spec now sessionId persistentUserId w1)
      as (w2 & E2 & F2 & R2).
    rewrite (R1 now) in E2, R2. rewrite Hcool in E2.
    assert ((SessionService.oneHourMs <=? now - T)%Z = false) as Hno by (apply Z.leb_gt; lia).
    rewrite Hno in E2.
    unfold HandoffService.analyzeResponseForHandoff.
    mbind E1. mlit. cbv iota. mbind E2. cbn [negb]. cbv iota. cbn [ret value world fst snd].
    split; [reflexivity|].
    rewrite getSessionState_value.
    rewrite (frame_agentBound w w2) by eauto using frame_trans.
    rewrite Hnb, (R2 now). exact Hrs.
  - intros now shouldOffer Hst Hge.
    destruct (not_bound_of_state _ _ _ _ _ Hst) as [Hnb Hrs]; [done|].
    destruct (getSessionState_spec now sessionId persistentUserId w) as (w1 & E1 & F1 & R1).
    unfold afterStateRead in R1. rewrite Hnb in R1, E1. rewrite Hrs in E1.
    destruct (canRequestHandoffAgain_spec now sessionId persistentUserId w1)
      as (w2 & E2 & F2 & R2).
    rewrite (R1 now) in E2, R2. rewrite Hcool in E2.
    assert ((SessionService.oneHourMs <=? now - T)%Z = true) as Hyes by (by apply Z.leb_le).
    rewrite Hyes in E2.
    destruct (setSessionState_spec now sessionId persistentUserId
                SessionState.SEEKING_HANDOFF w2) as (w3 & E3 & F3 & R3 & V3).
    { apply isValidState_elem. reflexivity. }
    exists w3. split; [|].
    + rewrite getSessionState_value.
      rewrite (frame_agentBound w w3) by eauto using frame_trans.
      rewrite Hnb, (R3 now). reflexivity.
    + unfold HandoffService.analyzeResponseForHandoff.
      mbind E1. mlit. cbv iota. mbind E2. cbn [negb]. cbv iota. mbind E3.
      destruct (HandoffService.offerDecision now sessionId persistentUserId shouldOffer w3)
        as [[a wa] ta]. done.
Qed.

(** * The agent-assignment coordinator *)

Section Connection.

Lemma connectionOf_Some (uid : string) (w : World) (a : ActiveSession.t) :
  connectionOf uid w = Some a ↔
  isConnected (redis w) = true ∧
  is_Some (sessionKeys (redis w) !! RedisService.ttlKey uid) ∧
  activeSessions (redis w) !! uid = Some a.
Proof.
  unfold connectionOf. wcases w. destruct c; mexec.
  - destruct (sk !! RedisService.ttlKey uid) eqn:E1; mexec.
    + split; [intros ->; eauto|]. by intros (_ & _ & ->).
    + destruct (ak !! uid); mexec; (split; [done|]); by intros (_ & [? ?] & _).
  - split; [done|]. by intros (? & _).
Qed.

Lemma connectionOf_None (uid : string) (w : World) :
  connectionOf uid w = None ↔
  isConnected (redis w) = false ∨
  sessionKeys (redis w) !! RedisService.ttlKey uid = None ∨
  activeSessions (redis w) !! uid = None.
Proof.
  unfold connectionOf. wcases w. destruct c; mexec.
  - destruct (sk !! RedisService.ttlKey uid) eqn:E1; mexec.
    + split; [intros ->; eauto|]. intros [?|[?|?]]; done.
    + destruct (ak !! uid); mexec; (split; [eauto|done]).
  - split; eauto.
Qed.

(** [getActiveSession] answers [connectionOf] and may only drop the hash
    entry of a connection whose mark is gone. *)
Lemma getActiveSession_spec (uid : string) (w : World) :
  ∃ w', RedisService.getActiveSession uid w = (connectionOf uid w, w', []) ∧
        frame w w' ∧
        sessions w' = sessions w ∧
        sessionStateKeys (redis w') = sessionStateKeys (redis w) ∧
        (is_Some (connectionOf uid w) → w' = w).
Proof.
  unfold connectionOf. wcases w.
  destruct c; [destruct (sk !! RedisService.ttlKey uid) eqn:E1, (ak !! uid) eqn:E2|]; mexec.
  all: eexists; split; [reflexivity|].
  all: split; [frame_tac; try (destruct (decide (u = uid)) as [->|Hne]); lookup_cases;
               reflexivity|].
  all: split; [reflexivity|split; [reflexivity|]]; try reflexivity.
  all: by intros [? ?].
Qed.

End Connection.

Section Extensionality.

(** [getSession] reads the connection flag, the saved records and the
    in-memory sessions only. *)
Lemma recordAt_ext' (n : Z) (sessionId : string) (p : option string) (w w' : World) :
  isConnected (redis w') = isConnected (redis w) →
  sessionStateKeys (redis w') = sessionStateKeys (redis w) →
  sessions w' = sessions w →
  recordAt n sessionId p w' = recordAt n sessionId p w.
Proof.
  unfold recordAt. wcases w. wcases w'. cbn. intros -> -> ->.
  destruct c, (Js.truthy p) as [u|] eqn:Ht;
    try destruct (ssk !! u) eqn:E1;
    destruct (ses !! sessionId) eqn:E2; sexec; reflexivity.
Qed.

Lemma recordAt_ext (n : Z) (sessionId : string) (p : option string) (w w' : World) :
  redis w' = redis w → sessions w' = sessions w →
  recordAt n sessionId p w' = recordAt n sessionId p w.
Proof. intros Hr Hs. apply recordAt_ext'; by rewrite ?Hr. Qed.

Lemma agentBound_ext (p : option string) (w w' : World) :
  redis w' = redis w → agentBound p w' = agentBound p w.
Proof.
  unfold agentBound, persistentKey, connectionOf.
  wcases w. destruct w' as [r' ses' sl' i']. cbn. intros ->.
  destruct c, (Js.truthy p) as [u|] eqn:Ht; sexec; try reflexivity.
  lookup_cases; reflexivity.
Qed.

Lemma connectionOf_ext (uid : string) (w w' : World) :
  redis w' = redis w → connectionOf uid w' = connectionOf uid w.
Proof.
  unfold connectionOf. wcases w. destruct w' as [r' ses' sl' i']. cbn. intros ->.
  destruct c; mexec; [|reflexivity]. lookup_cases; reflexivity.
Qed.

Lemma afterAcceptance_ext (n : Z) (sessionId : string) (p : option string) (w w' : World) :
  redis w' = redis w → sessions w' = sessions w →
  afterAcceptance n sessionId p w' = afterAcceptance n sessionId p w.
Proof.
  intros Hr Hs. unfold afterAcceptance.
  by rewrite (recordAt_ext _ _ _ _ _ Hr Hs), (agentBound_ext _ _ _ Hr).
Qed.

End Extensionality.

Section Accept.

Variables (now : Z) (uid sessionId userId userName originalMessageTs : string).

Lemma acceptStore_spec (w : World) :
  isConnected (redis w) = true →
  ∃ w', SlackService.acceptStore now uid sessionId userId userName originalMessageTs true w
          = (None, w', [SlackUpdate originalMessageTs (ChatAccepted userName sessionId)]) ∧
        isConnected (redis w') = true ∧
        connectionOf uid w' = Some (connectionData now uid sessionId userId userName originalMessageTs) ∧
        userKeys (redis w') !! uid = Some (acceptedUserState now sessionId userId userName) ∧
        handoffKeys (redis w') = delete uid (handoffKeys (redis w)) ∧
        timerKeys (redis w') = delete uid (timerKeys (redis w)) ∧
        sessionStateKeys (redis w') = sessionStateKeys (redis w) ∧
        sessions w' = sessions w ∧
        handoffTimeouts (slack w') = handoffTimeouts (slack w) ∧
        io w' = io w.
Proof.
  intros Hc. wcases w. cbn in Hc. subst c.
  eexists. split; [mexec; reflexivity|].
  unfold connectionOf. mexec.
  split; [done|]. split.
  { apply map_lookup_filter_Some. split; [apply lookup_insert_eq|].
    cbn. by rewrite lookup_insert_eq. }
  rewrite delete_delete_eq. done.
Qed.

Lemma acceptFinish_spec (w : World) (a : ActiveSession.t) :
  connectionOf uid w = Some a →
  ∃ w', SlackService.acceptFinish now uid sessionId userId userName originalMessageTs w
          = (SlackService.mkReply "accepted" None (Some originalMessageTs), w',
             acceptFinishEvents sessionId w) ∧
        isConnected (redis w') = true ∧
        connectionOf uid w' = Some a ∧
        userKeys (redis w') = userKeys (redis w) ∧
        handoffKeys (redis w') = handoffKeys (redis w) ∧
        handoffTimeouts (slack w') = delete uid (handoffTimeouts (slack w)) ∧
        io w' = io w ∧
        recorded sessionId (Some uid) w' (afterAcceptance now sessionId (Some uid) w) ∧
        recordedForVisitor (Some uid) w' (afterAcceptance now sessionId (Some uid) w).
Proof.
  intros Hconn.
  pose proof Hconn as (Hc & [v Httl] & Hak)%connectionOf_Some.
  rewrite <- (afterAcceptance_ext now sessionId (Some uid) w
                (withSlack (λ s, SlackService.setUserInactivityTimeouts (λ t, t ∖ {[uid]})
                   (SlackService.setSessionDurationIntervals (<[uid := originalMessageTs]>)
                      (SlackService.setHandoffTimeouts (delete uid) s))) w))
    by reflexivity.
  unfold acceptFinishEvents.
  wcases w. cbn in Hc, Httl, Hak. subst c. mexec.
  match goal with
  | |- context [SessionService.markHumanHandoffAccepted ?n ?s ?p ?w0] =>
      destruct (markHumanHandoffAccepted_spec n s p w0) as (w2 & E2 & F2 & R2 & V2);
      rewrite E2
  end.
  destruct F2 as [F2c F2u F2s F2h F2t F2l F2i F2n].
  wcases w2. cbn in F2c, F2u, F2s, F2h, F2t, F2l, F2i.
  injection F2l as -> -> -> -> -> -> -> ->. subst.
  mexec.
  eexists. split; [destruct i; reflexivity|].
  mexec.
  split; [done|]. split.
  { rewrite <- Hconn. etrans; [|etrans; [apply F2n|]]; by apply connectionOf_ext. }
  do 4 (split; [done|]).
  split.
  - intros n. rewrite <- (R2 n). apply recordAt_ext; reflexivity.
  - intros u Hu. apply V2. exact Hu.
Qed.

End Accept.

Section Claim.

Variables (now : Z) (identifier userId userName originalMessageTs : string).

Lemma resolveIdentifier_spec (w : World) :
  SlackService.resolveIdentifier identifier w
    = (value (SlackService.resolveIdentifier identifier w), w, []).
Proof.
  wcases w. destruct c; mexec; [|reflexivity].
  destruct (uk !! identifier) as [h|] eqn:E1; mexec.
  - destruct (UserState.isEmpty h); cbn [mbind option_bind];
      try destruct (Js.truthy (UserState.currentSessionId h)); mexec; reflexivity.
  - cbn [mbind option_bind]. cbn [Js.truthy]. mexec. reflexivity.
Qed.

Lemma acceptResolve_unresolved (w : World) (p : option string) (s : string) :
  value (SlackService.resolveIdentifier identifier w) = (p, s) →
  Js.truthy p = None ∨ Js.truthy (Some s) = None →
  SlackService.acceptResolve identifier originalMessageTs w
    = (SlackService.Finished notFound, w,
       [ConsoleError (String.append "Could not resolve identifiers: " identifier)]).
Proof.
  intros Hr Hbad. unfold SlackService.acceptResolve.
  rewrite (bind_eq _ _ _ _ _ _ (resolveIdentifier_spec w)), Hr. cbn [fst snd].
  destruct Hbad as [-> | ->]; [|destruct (Js.truthy p)]; reflexivity.
Qed.

Lemma acceptResolve_taken (w : World) (p : option string) (s uid sid : string)
    (a : ActiveSession.t) :
  value (SlackService.resolveIdentifier identifier w) = (p, s) →
  Js.truthy p = Some uid → Js.truthy (Some s) = Some sid →
  connectionOf uid w = Some a →
  SlackService.acceptResolve identifier originalMessageTs w
    = (SlackService.Finished (alreadyTaken a), w,
       [SlackUpdate originalMessageTs (AlreadyAccepted sid (ActiveSession.agentName a))]).
Proof.
  intros Hr Hp Hs Hconn. unfold SlackService.acceptResolve.
  rewrite (bind_eq _ _ _ _ _ _ (resolveIdentifier_spec w)), Hr. cbn [fst snd].
  rewrite Hp, Hs.
  destruct (getActiveSession_spec uid w) as (w' & E & _ & _ & _ & Hsame).
  rewrite Hconn in E, Hsame. rewrite Hsame in E by eauto.
  mbind E. reflexivity.
Qed.

Lemma acceptResolve_claiming (w : World) (p : option string) (s uid sid : string) :
  value (SlackService.resolveIdentifier identifier w) = (p, s) →
  Js.truthy p = Some uid → Js.truthy (Some s) = Some sid →
  connectionOf uid w = None →
  ∃ w', SlackService.acceptResolve identifier originalMessageTs w
          = (SlackService.Claiming uid sid, w', []) ∧
        frame w w' ∧ sessions w' = sessions w ∧
        sessionStateKeys (redis w') = sessionStateKeys (redis w).
Proof.
  intros Hr Hp Hs Hconn. unfold SlackService.acceptResolve.
  rewrite (bind_eq _ _ _ _ _ _ (resolveIdentifier_spec w)), Hr. cbn [fst snd].
  rewrite Hp, Hs.
  destruct (getActiveSession_spec uid w) as (w' & E & F & S1 & S2 & _).
  rewrite Hconn in E. exists w'. mbind E. done.
Qed.

(** A resolved identifier comes from a connected Redis. *)
Lemma resolved_connected (w : World) (p : option string) (s uid : string) :
  value (SlackService.resolveIdentifier identifier w) = (p, s) →
  Js.truthy p = Some uid →
  isConnected (redis w) = true.
Proof.
  wcases w. destruct c; [done|]. mexec. intros [= <- <-]. done.
Qed.

End Claim.

Section ClaimOutcome.

Variables (now : Z) (identifier userId userName originalMessageTs : string).

Lemma handleAcceptButton_accepts (w : World) (p : option string) (s uid sid : string) :
  value (SlackService.resolveIdentifier identifier w) = (p, s) →
  Js.truthy p = Some uid → Js.truthy (Some s) = Some sid →
  connectionOf uid w = None →
  ∃ w', SlackService.handleAcceptButton now identifier userId userName originalMessageTs true w
          = (acceptedReply originalMessageTs, w',
             SlackUpdate originalMessageTs (ChatAccepted userName sid)
             :: acceptFinishEvents sid w) ∧
        isConnected (redis w') = true ∧
        connectionOf uid w' = Some (connectionData now uid sid userId userName originalMessageTs) ∧
        userKeys (redis w') !! uid = Some (acceptedUserState now sid userId userName) ∧
        handoffKeys (redis w') = delete uid (handoffKeys (redis w)) ∧
        handoffTimeouts (slack w') = delete uid (handoffTimeouts (slack w)) ∧
        recorded sid (Some uid) w' (acceptedRecord now uid (recordAt now sid (Some uid) w)) ∧
        sessionStateKeys (redis w') !! uid
          = Some (acceptedRecord now uid (recordAt now sid (Some uid) w)).
Proof.
  intros Hr Hp Hs Hconn.
  pose proof (resolved_connected _ _ _ _ _ Hr Hp) as Hc.
  destruct (acceptResolve_claiming identifier originalMessageTs w p s uid sid Hr Hp Hs Hconn)
    as (w1 & E1 & F1 & S1 & K1).
  destruct (acceptStore_spec now uid sid userId userName originalMessageTs w1)
    as (w2 & E2 & C2 & N2 & U2 & H2 & T2 & K2 & S2 & O2 & I2).
  { by rewrite (frame_connected _ _ F1). }
  destruct (acceptFinish_spec now uid sid userId userName originalMessageTs w2 _ N2)
    as (w3 & E3 & C3 & N3 & U3 & H3 & O3 & I3 & R3 & V3).
  assert (afterAcceptance now sid (Some uid) w2
          = acceptedRecord now uid (recordAt now sid (Some uid) w)) as Hrec.
  { unfold afterAcceptance, agentBound, persistentKey.
    unfold SessionService.persistent, RedisService.connected, bind, gets, ret, value.
    cbn [fst snd]. rewrite C2, (truthy_idem _ _ Hp), N2. cbn [Js.present].
    rewrite (recordAt_ext' now sid (Some uid) w w2)
      by (rewrite ?C2, ?K2, ?S2, ?K1, ?S1; done).
    reflexivity. }
  rewrite Hrec in R3, V3.
  exists w3. unfold SlackService.handleAcceptButton.
  mbind E1. unfold SlackService.acceptContinue. mbind E2. rewrite E3.
  split.
  { unfold acceptFinishEvents. by rewrite I2, (frame_io _ _ F1). }
  split; [done|]. split; [done|]. split; [by rewrite U3|].
  split; [by rewrite H3, H2, (frame_handoff _ _ F1)|].
  split; [by rewrite O3, O2, (frame_slack _ _ F1)|].
  split; [done|].
  apply V3. unfold persistentKey, SessionService.persistent, RedisService.connected,
    bind, gets, ret, value. cbn [fst snd]. by rewrite C3, (truthy_idem _ _ Hp).
Qed.

Lemma accepted_inv (updateOk : bool) (w : World) :
  SlackService.status
    (value (SlackService.handleAcceptButton now identifier userId userName
              originalMessageTs updateOk w)) = "accepted"%string →
  updateOk = true ∧
  ∃ p s uid sid,
    value (SlackService.resolveIdentifier identifier w) = (p, s) ∧
    Js.truthy p = Some uid ∧ Js.truthy (Some s) = Some sid ∧
    connectionOf uid w = None.
Proof.
  destruct (value (SlackService.resolveIdentifier identifier w)) as [p s] eqn:Hr.
  destruct (Js.truthy p) as [uid|] eqn:Hp; [destruct (Js.truthy (Some s)) as [sid|] eqn:Hs|].
  - destruct (connectionOf uid w) as [a|] eqn:Hconn.
    + unfold SlackService.handleAcceptButton.
      rewrite (bind_eq _ _ _ _ _ _ (acceptResolve_taken _ _ _ _ _ _ _ _ Hr Hp Hs Hconn)).
      cbn. discriminate.
    + destruct updateOk; [intros _; split; [done|]; by exists p, s, uid, sid|].
      destruct (acceptResolve_claiming identifier originalMessageTs w p s uid sid Hr Hp Hs Hconn)
        as (w1 & E1 & _).
      unfold SlackService.handleAcceptButton. mbind E1. cbn. discriminate.
  - unfold SlackService.handleAcceptButton.
    rewrite (bind_eq _ _ _ _ _ _
               (acceptResolve_unresolved _ originalMessageTs _ _ _ Hr (or_intror Hs))).
    cbn. discriminate.
  - unfold SlackService.handleAcceptButton.
    rewrite (bind_eq _ _ _ _ _ _
               (acceptResolve_unresolved _ originalMessageTs _ _ _ Hr (or_introl Hp))).
    cbn. discriminate.
Qed.

End ClaimOutcome.

(** C2 (as amended).  A claim whose identifier resolves to a visitor that
    already has a live connection record is answered "already_taken", with a
    message naming the agent who holds the connection; a claim whose
    identifier resolves to no visitor, or to no session, is answered
    "Session not found".  In both cases the world is left as it was.  Whether
    a pending request exists is not looked at. *)
Theorem claim_failures_leave_world_unchanged
    (now : Z) (identifier userId userName originalMessageTs : string) (updateOk : bool)
    (w : World) (p : option string) (s : string) :
  value (SlackService.resolveIdentifier identifier w) = (p, s) →
  (∀ uid sid a,
     Js.truthy p = Some uid → Js.truthy (Some s) = Some sid →
     value (RedisService.getActiveSession uid w) = Some a →
     SlackService.handleAcceptButton now identifier userId userName originalMessageTs updateOk w
       = (SlackService.mkReply "already_taken"
            (Some (String.append "This chat is already being handled by "
                     (ActiveSession.agentName a))) None,
          w,
          [SlackUpdate originalMessageTs (AlreadyAccepted sid (ActiveSession.agentName a))])) ∧
  (Js.truthy p = None ∨ Js.truthy (Some s) = None →
     SlackService.handleAcceptButton now identifier userId userName originalMessageTs updateOk w
       = (SlackService.mkReply "error" (Some "Session not found"%string) None,
          w,
          [ConsoleError (String.append "Could not resolve identifiers: " identifier)])).
Proof.
  intros Hr. split.
  - intros uid sid a Hp Hs Hconn. unfold SlackService.handleAcceptButton.
    rewrite (bind_eq _ _ _ _ _ _ (acceptResolve_taken _ _ _ _ _ _ _ _ Hr Hp Hs Hconn)).
    reflexivity.
  - intros Hbad. unfold SlackService.handleAcceptButton.
    rewrite (bind_eq _ _ _ _ _ _ (acceptResolve_unresolved _ originalMessageTs _ _ _ Hr Hbad)).
    reflexivity.
Qed.

(** C2, as stated, fails: the request of visitor [u1] has timed out and
    is no longer pending, yet a claim on it succeeds. *)
Lemma claim_without_pending_request_succeeds :
  value (RedisService.getHandoffState "u1" Scenario.timedOut) = None ∧
  value (RedisService.getActiveSession "u1" Scenario.timedOut) = None ∧
  SlackService.status
    (value (SlackService.handleAcceptButton 700000 "u1" "B2" "bob"
              "1700.0001" true Scenario.timedOut)) = "accepted"%string.
Proof. vm_compute. done. Qed.


Section EndChat.

Variables (now : Z) (userId userName messageTs : string).

(** Ending a chat never touches a session record. *)
Lemma handleEndChatButton_keeps_sessions (identifier : string) (w : World) :
  let r := SlackService.handleEndChatButton now identifier userId userName messageTs w in
  sessionStateKeys (redis (world r)) = sessionStateKeys (redis w) ∧
  sessions (world r) = sessions w ∧
  isConnected (redis (world r)) = isConnected (redis w).
Proof.
  wcases w. destruct c; mexec; [|done].
  mcases; done.
Qed.

(** Ending the chat of a visitor whose connection record names that
    visitor removes the record. *)
Lemma handleEndChatButton_ends (uid : string) (w : World) (a : ActiveSession.t) :
  connectionOf uid w = Some a →
  ActiveSession.persistentUserId a = uid →
  Js.truthy (Some uid) = Some uid →
  let r := SlackService.handleEndChatButton now uid userId userName messageTs w in
  value r = SlackService.mkReply "ended" None None ∧
  connectionOf uid (world r) = None.
Proof.
  intros (Hc & [v Httl] & Hak)%connectionOf_Some Hp Ht.
  unfold connectionOf. wcases w. cbn in Hc, Httl, Hak. subst c.
  mexec. rewrite Hp, Ht. mexec. destruct i; mexec; done.
Qed.

End EndChat.

(** What holds of the cooldown timestamp: it is written when a claim
    succeeds.  After [handleAcceptButton] has answered "accepted" at instant
    [t1], the visitor's session record carries [lastHandoffTime = t1].
    Ending the chat at a later instant [t2] removes the connection record
    and writes no session record at all (neither in Redis nor in memory), so
    the timestamp still reads [t1]; if nothing has read the visitor's state
    in between, the record still holds the NORMAL_CHAT written by the
    claim. *)
Lemma handoff_time_recorded_at_claim
    (t1 t2 : Z) (identifier userId userName originalMessageTs : string) (updateOk : bool)
    (w : World) :
  let r1 := SlackService.handleAcceptButton t1 identifier userId userName
              originalMessageTs updateOk w in
  SlackService.status (value r1) = "accepted"%string →
  ∃ uid sid,
    Session.lastHandoffTime
      (value (SessionService.getSession t2 sid (Some uid) (world r1))) = Some t1 ∧
    let r2 := SlackService.handleEndChatButton t2 uid userId userName originalMessageTs
                (world r1) in
    value r2 = SlackService.mkReply "ended" None None ∧
    value (RedisService.getActiveSession uid (world r2)) = None ∧
    sessionStateKeys (redis (world r2)) = sessionStateKeys (redis (world r1)) ∧
    sessions (world r2) = sessions (world r1) ∧
    Session.lastHandoffTime
      (value (SessionService.getSession t2 sid (Some uid) (world r2))) = Some t1 ∧
    value (SessionService.getSessionState t2 sid (Some uid) (world r2))
      = SessionState.NORMAL_CHAT.
Proof.
  intros r1 Hacc. subst r1.
  destruct (accepted_inv _ _ _ _ _ _ _ Hacc) as (-> & p & s & uid & sid & Hr & Hp & Hs & Hconn).
  destruct (handleAcceptButton_accepts t1 identifier userId userName originalMessageTs
              w p s uid sid Hr Hp Hs Hconn)
    as (w' & E & C' & N' & U' & H' & O' & R' & V').
  rewrite E. cbn [world fst snd].
  exists uid, sid.
  fold (recordAt t2 sid (Some uid) w'). rewrite (R' t2).
  split; [reflexivity|].
  destruct (handleEndChatButton_keeps_sessions t2 userId userName originalMessageTs uid w')
    as (K & S & C'').
  destruct (handleEndChatButton_ends t2 userId userName originalMessageTs uid w' _ N'
              eq_refl (truthy_idem _ _ Hp)) as (V2 & N2).
  set (r2 := SlackService.handleEndChatButton t2 uid userId userName originalMessageTs w') in *.
  cbn zeta.
  assert (recordAt t2 sid (Some uid) (world r2) = recordAt t2 sid (Some uid) w') as Hsame.
  { by apply recordAt_ext'. }
  split; [exact V2|]. split; [exact N2|]. split; [exact K|]. split; [exact S|].
  fold (recordAt t2 sid (Some uid) (world r2)). rewrite Hsame, (R' t2).
  split; [reflexivity|].
  rewrite getSessionState_value.
  unfold agentBound, persistentKey, SessionService.persistent, RedisService.connected,
    bind, gets, ret, value. cbn [fst snd].
  rewrite C'', C', (truthy_idem _ _ Hp). fold (connectionOf uid (world r2)). rewrite N2.
  cbn [Js.present]. fold (recordAt t2 sid (Some uid) (world r2)).
  rewrite Hsame, (R' t2). reflexivity.
Qed.

(** C6.  The end of a chat is meant to give the visitor back to the
    assistant, but [handleEndChatButton] writes no session state: it relies
    on the NORMAL_CHAT that the claim has written, and any read of the
    visitor's state during the connection has replaced that by
    HUMAN_CONNECTED in the saved record.  Agent [alice] has accepted the
    request of visitor [u1]; while she is connected the visitor's browser
    sends a decline, whose handler reads the state; thirty seconds after the
    claim she ends the chat.  The connection record is gone and the visitor
    is told that the conversation has ended, the cooldown timestamp is still
    the instant of the claim, and the visitor reads as HUMAN_CONNECTED, not
    as NORMAL_CHAT: the next message is answered with the notice that a
    human agent is connected. *)
Theorem ended_chat_can_leave_human_connected :
  let t := Scenario.handoffInstant in
  let w1 := after (ChatController.declineRoute (t + 10000) "s1" (Some "u1"%string)
                     Scenario.connected) in
  let r2 := SlackService.handleEndChatButton (t + 30000) "u1" "A1" "alice" "1700.0001" w1 in
  let w2 := world r2 in
  value (RedisService.getActiveSession "u1" Scenario.connected)
    = Some (ActiveSession.mk "A1" "alice" "1700.0001" "1700.0001" t "u1" "s1") ∧
  value r2 = SlackService.mkReply "ended" None None ∧
  events r2 = [SlackUpdate "1700.0001" (ChatEnded "alice" "s1");
               SlackPost (Some "1700.0001") (ChatEndedThreadNote "alice");
               DbLog "logAgentDisconnection" "s1"; Emit "s1" "agent_disconnected"] ∧
  value (RedisService.getActiveSession "u1" w2) = None ∧
  Session.lastHandoffTime
    (value (SessionService.getSession (t + 60000) "s1" (Some "u1"%string) w2)) = Some t ∧
  value (SessionService.getSessionState (t + 60000) "s1" (Some "u1"%string) w2)
    = SessionState.HUMAN_CONNECTED ∧
  SessionState.HUMAN_CONNECTED ≠ SessionState.NORMAL_CHAT ∧
  value (AIService.getChatResponse (t + 60000) "s1" (Some "u1"%string) false
           (Some "Happy to help."%string) (false, EmptyString) w2)
    = Some (AIService.Notice
              "You're currently connected to a human agent. They should respond shortly.").
Proof. vm_compute. repeat split; done. Qed.

(** ** Claims one after the other, claims at the same time *)

(** Once a claim has been answered "accepted", a later claim that resolves
    to the same visitor is refused with the name of the agent who holds the
    connection, and changes nothing. *)
Lemma later_claim_is_refused
    (t1 t2 : Z) (id1 id2 user1 name1 user2 name2 ts1 ts2 : string) (ok1 ok2 : bool)
    (w : World) (p : option string) (s uid sid : string) :
  let r1 := SlackService.handleAcceptButton t1 id1 user1 name1 ts1 ok1 w in
  SlackService.status (value r1) = "accepted"%string →
  value (SlackService.resolveIdentifier id2 (world r1)) = (p, s) →
  Js.truthy p = Some uid → Js.truthy (Some s) = Some sid →
  is_Some (value (RedisService.getActiveSession uid (world r1))) →
  ∃ a, SlackService.handleAcceptButton t2 id2 user2 name2 ts2 ok2 (world r1)
         = (alreadyTaken a, world r1,
            [SlackUpdate ts2 (AlreadyAccepted sid (ActiveSession.agentName a))]).
Proof.
  intros r1 _ Hr Hp Hs [a Ha]. exists a. unfold SlackService.handleAcceptButton.
  by rewrite (bind_eq _ _ _ _ _ _ (acceptResolve_taken _ _ _ _ _ _ _ _ Hr Hp Hs Ha)).
Qed.

(** C1.  Two claims for the same pending request whose handlers both run
    their already-accepted check before either has stored its connection
    record are both answered "accepted".  The visitor is told twice that an
    agent has joined; the record of the first agent is overwritten by the
    second.  The check and the write are two separate Redis operations. *)
Theorem concurrent_claims_both_succeed :
  let r := Scenario.claimRace Scenario.waiting in
  SlackService.status (value r).1 = "accepted"%string ∧
  SlackService.status (value r).2 = "accepted"%string ∧
  ActiveSession.agentName <$> value (RedisService.getActiveSession "u1" (world r))
    = Some "bob"%string ∧
  events r =
    [SlackUpdate "1700.0001" (ChatAccepted "alice" "s1");
     DbLog "logAgentConnection" "s1"; Emit "s1" "agent_connected";
     SlackUpdate "1700.0001" (ChatAccepted "bob" "s1");
     DbLog "logAgentConnection" "s1"; Emit "s1" "agent_connected"].
Proof. vm_compute. done. Qed.

(** ** The handoff timeout *)

(** C5.  The timer of visitor [u1] fires when the request is no longer
    pending, an agent's claim having stored its connection and removed the
    request a moment before, while the timer is still registered.  The
    callback does not look at the pending request before it acts: it logs a
    timeout, rewrites the visitor's session record and tells the visitor's
    browser that nobody was available. *)
Theorem timeout_after_claim_is_not_a_noop :
  value (RedisService.getHandoffState "u1" Scenario.claimLanded) = None ∧
  ActiveSession.agentName <$> value (RedisService.getActiveSession "u1" Scenario.claimLanded)
    = Some "alice"%string ∧
  let r := SlackService.fireHandoffTimeout 601000 "u1" Scenario.claimLanded in
  events r = [DbLog "logHandoffTimeout" "u1"; Emit "s1" "handoff_timeout"; Emit "s1" "message"] ∧
  sessionStateKeys (redis Scenario.claimLanded) !! "u1"%string
    = Some (Session.mk SessionState.SEEKING_HANDOFF 900 true None None) ∧
  sessionStateKeys (redis (world r)) !! "u1"%string
    = Some (Session.mk SessionState.SEEKING_HANDOFF 601000 true None (Some "u1"%string)) ∧
  world r ≠ Scenario.claimLanded.
Proof.
  split; [vm_compute; done|]. split; [vm_compute; done|].
  cbn zeta. split; [vm_compute; done|]. split; [vm_compute; done|]. split; [vm_compute; done|].
  intros H.
  apply (f_equal (λ w, handoffTimeouts (slack w) !! "u1"%string)) in H.
  vm_compute in H. discriminate.
Qed.

Section Timeout.

Variables (now : Z) (uid : string).

(** A timer that is not registered does nothing when its instant comes;
    in particular the timer of a visitor whose claim has completed. *)
Lemma unregistered_timer_does_nothing (w : World) :
  handoffTimeouts (slack w) !! uid = None →
  SlackService.fireHandoffTimeout now uid w = (tt, w, []).
Proof.
  intros H. wcases w. cbn in H. mexec. reflexivity.
Qed.

(** A completed claim has cancelled the timer of its visitor. *)
Lemma completed_claim_cancels_timer
    (t1 : Z) (identifier userId userName ts : string) (ok : bool) (w : World) :
  let r := SlackService.handleAcceptButton t1 identifier userId userName ts ok w in
  SlackService.status (value r) = "accepted"%string →
  (value (SlackService.resolveIdentifier identifier w)).1 = Some uid →
  SlackService.fireHandoffTimeout now uid (world r) = (tt, world r, []).
Proof.
  intros r Hacc Hres. subst r.
  destruct (accepted_inv _ _ _ _ _ _ _ Hacc) as (-> & p & s & u & sid & Hr & Hp & Hs & Hconn).
  destruct (handleAcceptButton_accepts t1 identifier userId userName ts
              w p s u sid Hr Hp Hs Hconn)
    as (w' & E & C' & N' & U' & H' & O' & R' & V').
  rewrite E. cbn [world fst snd]. rewrite Hr in Hres. cbn in Hres. subst p.
  apply truthy_Some in Hp as [[= <-] _].
  apply unregistered_timer_does_nothing. rewrite O'. apply lookup_delete_eq.
Qed.

End Timeout.

(** ** Requesting a human twice *)



(** * Lead capture *)

Section LeadCapture.

Variables (now : Z) (sessionId botResponse : string) (persistentUserId : option string).


End LeadCapture.



(** * Callback requests *)

Section Callback.

Variables (now : Z) (sessionId : string) (persistentUserId : option string).

Lemma not_bound (w : World) :
  (∀ uid, Js.truthy persistentUserId = Some uid →
          value (RedisService.getActiveSession uid w) = None) →
  agentBound persistentUserId w = false.
Proof.
  intros H. unfold agentBound, persistentKey, SessionService.persistent,
    RedisService.connected, bind, gets, ret, value. cbn [fst snd].
  destruct (isConnected (redis w)); [|done].
  destruct (Js.truthy persistentUserId) as [uid|] eqn:Ht; [|done].
  unfold connectionOf. by rewrite (H uid).
Qed.

(** A state read leaves no stale connection record of the visitor behind:
    [getActiveSession] has removed it. *)
Lemma getSessionState_settled (uid : string) (w : World) :
  Js.truthy persistentUserId = Some uid →
  let w' := world (SessionService.getSessionState now sessionId persistentUserId w) in
  isConnected (redis w') = true →
  sessionKeys (redis w') !! RedisService.ttlKey uid = None →
  activeSessions (redis w') !! uid = None.
Proof.
  intros Ht. cbv zeta. wcases w.
  destruct c;
    [destruct (sk !! RedisService.ttlKey uid) as [v|] eqn:E0;
     destruct (ak !! uid) as [a|] eqn:E3;
     destruct (ssk !! uid) as [s|] eqn:E1|];
    destruct (ses !! sessionId) as [s'|] eqn:E2; sexec; try done.
  all: intros _ _; by rewrite ?lookup_delete_eq.
Qed.

(** The step [generateResponse] of [getChatResponse], taken after a state
    read: the mapping it writes changes neither the visitor's record nor
    whether an agent is bound. *)
Lemma generateResponse_spec (responder : option string) (w : World) :
  (∀ uid, Js.truthy persistentUserId = Some uid →
          isConnected (redis w) = true →
          sessionKeys (redis w) !! RedisService.ttlKey uid = None →
          activeSessions (redis w) !! uid = None) →
  ∃ w', ConversationService.generateResponse sessionId persistentUserId responder w
          = (responder, w',
             match responder with
             | Some _ => []
             | None => [ConsoleError "OpenAI API error in conversation service:"]
             end) ∧
        agentBound persistentUserId w' = agentBound persistentUserId w ∧
        (∀ n, recordAt n sessionId persistentUserId w'
              = recordAt n sessionId persistentUserId w) ∧
        isConnected (redis w') = isConnected (redis w) ∧
        (∀ uid, Js.truthy persistentUserId = Some uid →
                isConnected (redis w) = true → is_Some responder →
                value (RedisService.getSessionMapping sessionId w') = Some uid).
Proof.
  intros Hs. unfold ConversationService.generateResponse.
  destruct responder as [botResponse|].
  2: { exists w. repeat split; try done. }
  destruct (Js.truthy persistentUserId) as [uid|] eqn:Ht.
  2: { exists w. repeat split; try done. }
  specialize (Hs uid eq_refl).
  revert Hs. unfold agentBound, persistentKey, connectionOf. wcases w. cbn.
  destruct c; sexec; rewrite ?Ht; intros Hs; (eexists; split; [reflexivity|]); sexec;
    rewrite ?Ht.
  2: { split; [reflexivity|]. split; [intros n; by apply recordAt_ext'|]. done. }
  specialize (Hs eq_refl).
  split; [|split; [intros n; by apply recordAt_ext'|split; [reflexivity|]]].
  2: { by intros u [= <-] _ _. }
  destruct (decide (sessionId = RedisService.ttlKey uid)) as [->|Hne].
  - rewrite lookup_insert_eq.
    destruct (sk !! RedisService.ttlKey uid) as [v|] eqn:E0; sexec; [reflexivity|].
    rewrite (Hs eq_refl). reflexivity.
  - rewrite lookup_insert_ne by done.
    destruct (sk !! RedisService.ttlKey uid) as [v|] eqn:E0; sexec; [reflexivity|].
    rewrite (Hs eq_refl). reflexivity.
Qed.

(** In CALLBACK_REQUEST and in NORMAL_CHAT, [getChatResponse] changes no
    state: it stamps the activity instant and files the exchange. *)
Lemma getChatResponse_keeps_state (st : string) (userAgreed : bool)
    (responder : option string) (shouldOffer : bool * string) (w : World) :
  st = SessionState.CALLBACK_REQUEST ∨ st = SessionState.NORMAL_CHAT →
  agentBound persistentUserId w = false →
  Session.state (recordAt now sessionId persistentUserId w) = st →
  ∃ w',
    AIService.getChatResponse now sessionId persistentUserId userAgreed responder
      shouldOffer w
      = (AIService.Text <$> responder, w',
         match responder with
         | Some _ => []
         | None => [ConsoleError "OpenAI API error in conversation service:";
                    ConsoleError "OpenAI API error:"]
         end) ∧
    agentBound persistentUserId w' = false ∧
    (∀ n, Session.state (recordAt n sessionId persistentUserId w') = st).
Proof.
  intros Hst Hnb Hrec.
  destruct (updateSessionActivity_spec now sessionId persistentUserId w)
    as (w1 & E1 & F1 & R1 & _).
  destruct (getSessionState_spec now sessionId persistentUserId w1) as (w2 & E2 & F2 & R2).
  destruct (getSessionState_spec now sessionId persistentUserId w2) as (w3 & E3 & F3 & R3).
  unfold afterStateRead in R2, R3.
  rewrite (frame_agentBound w w1 _ F1), Hnb, (R1 now) in E2, R2.
  rewrite (frame_agentBound w1 w2 _ F2), (frame_agentBound w w1 _ F1), Hnb, (R2 now) in E3, R3.
  cbn [Session.state Session.setLastActivity] in E2, E3. rewrite Hrec in E2, E3.
  assert (Hb3 : agentBound persistentUserId w3 = false).
  { by rewrite (frame_agentBound w2 w3 _ F3), (frame_agentBound w1 w2 _ F2),
      (frame_agentBound w w1 _ F1). }
  destruct (generateResponse_spec responder w3) as (w4 & E4 & Hb4 & R4 & _).
  { intros uid Hk. pose proof (getSessionState_settled uid w2 Hk) as S.
    rewrite E3 in S. exact S. }
  assert (Hfin : ∀ n, Session.state (recordAt n sessionId persistentUserId w4) = st).
  { intros n. by rewrite (R4 n), (R3 n). }
  rewrite Hb3 in Hb4.
  unfold AIService.getChatResponse. mbind E1. mbind E2.
  destruct Hst as [-> | ->]; mlit; cbv iota; cbn [andb when];
    rewrite (bind_eq _ _ _ w2 tt [] eq_refl); cbv beta iota zeta; mbind E3; mbind E4;
    (destruct responder as [botResponse|];
     [mlit; cbv iota; rewrite (bind_eq _ _ _ w4 _ [] eq_refl); cbv beta iota zeta;
      cbn [HandoffService.action]; mlit; cbv iota|]);
    (exists w4; split; [reflexivity|]; split; [exact Hb4|exact Hfin]).
Qed.

End Callback.

(** What the callback branch does: for a visitor with no live agent
    connection, a callback request moves the conversation to
    CALLBACK_REQUEST from every state but NORMAL_CHAT, and the cooldown
    timestamp is not consulted on the way; in NORMAL_CHAT the request is
    answered by the responder and the state stays NORMAL_CHAT. *)
Lemma callback_request_transition
    (now : Z) (sessionId : string) (persistentUserId : option string)
    (responder : option string) (shouldOffer : bool * string) (w : World) :
  (∀ uid, Js.truthy persistentUserId = Some uid →
          value (RedisService.getActiveSession uid w) = None) →
  let before := value (SessionService.getSessionState now sessionId persistentUserId w) in
  let r := ChatController.callbackRoute now sessionId persistentUserId responder shouldOffer w in
  let after := value (SessionService.getSessionState now sessionId persistentUserId (world r)) in
  (before ≠ SessionState.NORMAL_CHAT → after = SessionState.CALLBACK_REQUEST) ∧
  (before = SessionState.NORMAL_CHAT → after = SessionState.NORMAL_CHAT).
Proof.
  intros Hfree before r after.
  pose proof (not_bound persistentUserId w Hfree) as Hnb.
  destruct (getSessionState_spec now sessionId persistentUserId w) as (w1 & E1 & F1 & R1).
  unfold afterStateRead in R1. rewrite Hnb in E1, R1.
  assert (before = Session.state (recordAt now sessionId persistentUserId w)) as Hbefore.
  { subst before. by rewrite E1. }
  clearbody before. subst before.
  assert (Hnb1 : agentBound persistentUserId w1 = false)
    by (by rewrite (frame_agentBound w w1)).
  subst after r. unfold ChatController.callbackRoute.
  rewrite (bind_eq _ _ _ w tt [DbLog "trackCallbackPressed" sessionId] eq_refl).
  cbv beta iota zeta. mbind E1.
  rewrite (bind_eq _ _ _ w1 tt [DbLog "logMessage" sessionId] eq_refl).
  cbv beta iota zeta.
  split.
  - intros Hne. apply String.eqb_neq in Hne. rewrite Hne. cbn [negb].
    destruct (setSessionState_spec now sessionId persistentUserId
                SessionState.CALLBACK_REQUEST w1) as (w2 & E2 & F2 & R2 & _).
    { apply isValidState_elem. reflexivity. }
    unfold SessionService.markCallbackRequested. mbind E2.
    destruct (getChatResponse_keeps_state now sessionId persistentUserId
                SessionState.CALLBACK_REQUEST ChatController.callbackMessageAgrees
                responder shouldOffer w2) as (w3 & E3 & Hb3 & R3).
    { by left. } { by rewrite (frame_agentBound w1 w2). } { by rewrite (R2 now). }
    mbind E3.
    destruct responder; cbn [fmap option_fmap option_map];
      (cbv beta iota zeta; cbn [bind emit ret world value fst snd]);
      by rewrite getSessionState_value, Hb3, (R3 now).
  - intros Hst. rewrite Hst. mlit. cbn [negb]. cbv iota.
    destruct (getChatResponse_keeps_state now sessionId persistentUserId
                SessionState.NORMAL_CHAT ChatController.callbackMessageAgrees
                responder shouldOffer w1) as (w3 & E3 & Hb3 & R3).
    { by right. } { done. } { by rewrite (R1 now). }
    mbind E3.
    destruct (getSessionState_spec now sessionId persistentUserId w3) as (w4 & E4 & F4 & R4).
    unfold afterStateRead in R4. rewrite Hb3 in E4, R4.
    destruct responder; cbn [fmap option_fmap option_map].
    + rewrite (bind_eq _ _ _ w3 tt [DbLog "logMessage" sessionId] eq_refl).
      cbv beta iota zeta. mbind E4. cbn [ret world value fst snd].
      rewrite getSessionState_value, (frame_agentBound w3 w4 _ F4), Hb3.
      by rewrite (R4 now), (R3 now).
    + cbv beta iota zeta. cbn [bind emit ret world value fst snd].
      by rewrite getSessionState_value, Hb3, (R3 now).
Qed.

(** C4.  Callback requests are documented as exempt from the cooldown of a
    live handoff, but the callback branch refuses to leave NORMAL_CHAT,
    which is the state a live handoff leaves behind.  One minute after agent
    [alice] accepted the request of visitor [u1] (she has ended the chat
    meanwhile) the visitor reads as NORMAL_CHAT with the cooldown running.
    The visitor presses the callback button: [markCallbackRequested] is not
    called, the answer carries no [leadCaptureMode], and the visitor still
    reads as NORMAL_CHAT and not as CALLBACK_REQUEST. *)
Theorem callback_during_cooldown_stays_in_normal_chat :
  let now := (Scenario.handoffInstant + 60000)%Z in
  let w := Scenario.afterLiveHandoff in
  value (RedisService.getActiveSession "u1" w) = None ∧
  value (SessionService.getSessionState now "s1" (Some "u1"%string) w)
    = SessionState.NORMAL_CHAT ∧
  value (SessionService.canRequestHandoffAgain now "s1" (Some "u1"%string) w) = false ∧
  let r := ChatController.callbackRoute now "s1" (Some "u1"%string)
             (Some "Happy to help."%string) (false, EmptyString) w in
  value r = Some (ChatController.mkJson "bot_response" false) ∧
  events r = [DbLog "trackCallbackPressed" "s1"; DbLog "logMessage" "s1";
              DbLog "logMessage" "s1"] ∧
  value (SessionService.getSessionState now "s1" (Some "u1"%string) (world r))
    = SessionState.NORMAL_CHAT ∧
  SessionState.NORMAL_CHAT ≠ SessionState.CALLBACK_REQUEST.
Proof. vm_compute. repeat split; done. Qed.

(** * The theorems at concrete inputs *)

Lemma live_handoff_cooldown_witness :
  Scenario.handoffInstant ≠ 0%Z ∧
  Session.lastHandoffTime
    (value (SessionService.getSession Scenario.handoffInstant "s1" (Some "u1"%string)
              Scenario.afterLiveHandoff)) = Some Scenario.handoffInstant ∧
  value (SessionService.canRequestHandoffAgain (Scenario.handoffInstant + 59 * 60 * 1000)
           "s1" (Some "u1"%string) Scenario.afterLiveHandoff) = false ∧
  value (SessionService.canRequestHandoffAgain (Scenario.handoffInstant + 61 * 60 * 1000)
           "s1" (Some "u1"%string) Scenario.afterLiveHandoff) = true ∧
  value (HandoffService.analyzeResponseForHandoff (Scenario.handoffInstant + 59 * 60 * 1000)
           "s1" (Some "u1"%string) (true, "asked for a person"%string)
           Scenario.afterLiveHandoff)
    = HandoffService.mk "continue_ai" "NORMAL_CHAT state - handoff cooldown active" ∧
  ∃ w1,
    value (SessionService.getSessionState (Scenario.handoffInstant + 61 * 60 * 1000)
             "s1" (Some "u1"%string) w1) = SessionState.SEEKING_HANDOFF ∧
    value (HandoffService.analyzeResponseForHandoff (Scenario.handoffInstant + 61 * 60 * 1000)
             "s1" (Some "u1"%string) (true, "asked for a person"%string)
             Scenario.afterLiveHandoff)
      = value (HandoffService.offerDecision (Scenario.handoffInstant + 61 * 60 * 1000)
                 "s1" (Some "u1"%string) (true, "asked for a person"%string) w1).
Proof.
  assert (H1 : Scenario.handoffInstant ≠ 0%Z) by (vm_compute; discriminate).
  assert (H2 : Session.lastHandoffTime
                 (value (SessionService.getSession Scenario.handoffInstant "s1"
                           (Some "u1"%string) Scenario.afterLiveHandoff))
               = Some Scenario.handoffInstant) by (vm_compute; reflexivity).
  destruct (live_handoff_cooldown Scenario.handoffInstant "s1" (Some "u1"%string)
              Scenario.afterLiveHandoff H1 H2) as (A & B & _ & D & E).
  split; [exact H1|]. split; [exact H2|]. split; [exact A|]. split; [exact B|].
  split.
  - apply D; [vm_compute; reflexivity | vm_compute; reflexivity].
  - destruct (E (Scenario.handoffInstant + 61 * 60 * 1000)%Z (true, "asked for a person"%string))
      as (w1 & S1 & V1 & _).
    + vm_compute; reflexivity.
    + vm_compute. discriminate.
    + exists w1. split; [exact S1 | exact V1].
Defined.

Lemma claim_failures_leave_world_unchanged_witness :
  value (SlackService.resolveIdentifier "u1" Scenario.connected) = (Some "u1"%string, "s1"%string) ∧
  SlackService.handleAcceptButton 1700000005000 "u1" "B2" "bob" "1700.0001" true
    Scenario.connected
    = (SlackService.mkReply "already_taken"
         (Some "This chat is already being handled by alice"%string) None,
       Scenario.connected,
       [SlackUpdate "1700.0001" (AlreadyAccepted "s1" "alice")]) ∧
  value (SlackService.resolveIdentifier "nobody" Scenario.connected) = (None, "nobody"%string) ∧
  SlackService.handleAcceptButton 1700000005000 "nobody" "B2" "bob" "1700.0001" true
    Scenario.connected
    = (SlackService.mkReply "error" (Some "Session not found"%string) None,
       Scenario.connected,
       [ConsoleError "Could not resolve identifiers: nobody"]).
Proof.
  assert (H1 : value (SlackService.resolveIdentifier "u1" Scenario.connected)
               = (Some "u1"%string, "s1"%string)) by (vm_compute; reflexivity).
  assert (H2 : value (SlackService.resolveIdentifier "nobody" Scenario.connected)
               = (None, "nobody"%string)) by (vm_compute; reflexivity).
  split; [exact H1|]. split; [|split; [exact H2|]].
  - apply (proj1 (claim_failures_leave_world_unchanged 1700000005000 "u1" "B2" "bob"
                    "1700.0001" true Scenario.connected _ _ H1) "u1"%string "s1"%string
             (ActiveSession.mk "A1" "alice" "1700.0001" "1700.0001" Scenario.handoffInstant
                "u1" "s1")).
    + reflexivity.
    + reflexivity.
    + vm_compute; reflexivity.
  - apply (proj2 (claim_failures_leave_world_unchanged 1700000005000 "nobody" "B2" "bob"
                    "1700.0001" true Scenario.connected _ _ H2)).
    left. reflexivity.
Defined.




(** * Further properties of the code

    Properties of the methods that the claims above do not reach. *)

(** ** The Redis adapter *)

Section RedisFacts.

Lemma append_cons (c : ascii) (a s : string) :
  String.append (String c a) s = String c (String.append a s).
Proof. reflexivity. Qed.

Lemma length_append (a b : string) :
  String.length (String.append a b) = (String.length a + String.length b)%nat.
Proof.
  induction a as [|c a IH]; [reflexivity|].
  rewrite append_cons. simpl. by rewrite IH.
Qed.

Lemma append_inj_r (s a b : string) : String.append a s = String.append b s → a = b.
Proof.
  revert b. induction a as [|c a IH]; intros [|d b] H.
  - reflexivity.
  - apply (f_equal String.length) in H. rewrite !length_append in H. simpl in H. lia.
  - apply (f_equal String.length) in H. rewrite !length_append in H. simpl in H. lia.
  - rewrite !append_cons in H. injection H as -> H. f_equal. by apply IH.
Qed.

Lemma ttlKey_inj (a b : string) : RedisService.ttlKey a = RedisService.ttlKey b → a = b.
Proof. apply append_inj_r. Qed.

(** The live entries of the hash, entry by entry. *)
Lemma live_lookup (sk : gmap string string) (ak : gmap string ActiveSession.t) (u : string) :
  filter (λ kv : string * ActiveSession.t,
            is_Some (sk !! RedisService.ttlKey (let (x, _) := kv in x))) ak !! u
  = match sk !! RedisService.ttlKey u with
    | Some _ => ak !! u
    | None => None
    end.
Proof.
  destruct (sk !! RedisService.ttlKey u) as [m|] eqn:Hm.
  - destruct (ak !! u) as [a|] eqn:Ha.
    + apply map_lookup_filter_Some. split; [done|]. cbn. by rewrite Hm.
    + apply map_lookup_filter_None. by left.
  - apply map_lookup_filter_None. right. intros a _. cbn. rewrite Hm. by intros [? ?].
Qed.

End RedisFacts.

(** X1. With Redis connected, a connection record stored by
    [setActiveSession] is what [getActiveSession] answers for that visitor,
    and [deleteActiveSession] makes it answer [null] again; neither touches
    what it answers for any other visitor. *)
Theorem active_session_round_trip (uid : string) (a : ActiveSession.t) (w : World) :
  isConnected (redis w) = true →
  let w1 := world (RedisService.setActiveSession uid a w) in
  let w2 := world (RedisService.deleteActiveSession uid w1) in
  RedisService.getActiveSession uid w1 = (Some a, w1, []) ∧
  RedisService.getActiveSession uid w2 = (None, w2, []) ∧
  (∀ other, other ≠ uid →
     value (RedisService.getActiveSession other w1)
       = value (RedisService.getActiveSession other w) ∧
     value (RedisService.getActiveSession other w2)
       = value (RedisService.getActiveSession other w)).
Proof.
  intros Hc. wcases w. cbn in Hc. subst c. cbv zeta.
  split; [mexec; reflexivity|].
  split; [mexec; reflexivity|].
  intros other Hne.
  assert (RedisService.ttlKey other ≠ RedisService.ttlKey uid)
    by (intros E; apply ttlKey_inj in E; done).
  split; lookup_cases; reflexivity.
Qed.

Lemma active_session_round_trip_witness :
  isConnected (redis Scenario.chatting) = true ∧
  value (RedisService.getActiveSession "u1"
           (world (RedisService.setActiveSession "u1"
                     (ActiveSession.mk "A1" "alice" "1700.1" "1700.1" 5 "u1" "s1")
                     Scenario.chatting)))
    = Some (ActiveSession.mk "A1" "alice" "1700.1" "1700.1" 5 "u1" "s1").
Proof.
  split; [reflexivity|].
  exact (f_equal value
           (proj1 (active_session_round_trip "u1"
                     (ActiveSession.mk "A1" "alice" "1700.1" "1700.1" 5 "u1" "s1")
                     Scenario.chatting eq_refl))).
Defined.


(** X2. [getAllActiveSessions] answers exactly the connections that
    [getActiveSession] answers one by one; it leaves no entry in the hash
    whose liveness mark is gone, and calling it again changes nothing and
    answers the same. *)
Theorem all_active_sessions_are_the_live_ones (w : World) :
  let r := RedisService.getAllActiveSessions w in
  (∀ uid, value r !! uid = value (RedisService.getActiveSession uid w)) ∧
  (isConnected (redis w) = true →
   ∀ uid, is_Some (activeSessions (redis (world r)) !! uid) →
          is_Some (sessionKeys (redis (world r)) !! RedisService.ttlKey uid)) ∧
  events r = [] ∧
  RedisService.getAllActiveSessions (world r) = (value r, world r, []).
Proof.
  wcases w. destruct c; cbv zeta; mexec.
  - split; [|split; [|split; [reflexivity|]]].
    + intros uid.
      destruct (sk !! RedisService.ttlKey uid) as [m|] eqn:Hm;
        destruct (ak !! uid) as [a|] eqn:Ha; cbn.
      * apply map_lookup_filter_Some. split; [done|]. cbn. by rewrite Hm.
      * apply map_lookup_filter_None. by left.
      * apply map_lookup_filter_None. right. intros x _. cbn. rewrite Hm.
        by intros [? ?].
      * apply map_lookup_filter_None. by left.
    + intros _ uid [a Ha]. apply map_lookup_filter_Some in Ha as [_ Ha]. exact Ha.
    + set (live := λ kv : string * ActiveSession.t,
                is_Some (sk !! RedisService.ttlKey (let (x, _) := kv in x))).
      assert (E : filter live (filter live ak) = filter live ak).
      { apply map_filter_id. intros uid a Ha.
        apply map_lookup_filter_Some in Ha as [_ Ha]. exact Ha. }
      by rewrite E.
  - split; [intros uid; apply lookup_empty|]. split; [done|]. split; reflexivity.
Qed.

Lemma all_active_sessions_are_the_live_ones_witness :
  isConnected (redis Scenario.connected) = true ∧
  ActiveSession.agentName <$> (value (RedisService.getAllActiveSessions Scenario.connected)
                                 !! "u1"%string) = Some "alice"%string.
Proof.
  split; [reflexivity|].
  rewrite (proj1 (all_active_sessions_are_the_live_ones Scenario.connected) "u1"%string).
  vm_compute. reflexivity.
Defined.

(** X3. [updateActiveSessionId] moves a live connection to the new
    session and keeps every other field of the record (the agent, the
    thread, the instant of connection); for a visitor without a live
    connection it answers [false] and creates none.  Other visitors'
    connections are not touched. *)
Theorem updateActiveSessionId_keeps_the_agent
    (uid newSessionId : string) (w : World) :
  let r := RedisService.updateActiveSessionId uid newSessionId w in
  events r = [] ∧
  value r = Js.present (value (RedisService.getActiveSession uid w)) ∧
  value (RedisService.getActiveSession uid (world r))
    = ActiveSession.setCurrentSessionId newSessionId
        <$> value (RedisService.getActiveSession uid w) ∧
  (∀ other, other ≠ uid →
     value (RedisService.getActiveSession other (world r))
       = value (RedisService.getActiveSession other w)).
Proof.
  wcases w. cbv zeta. destruct c; [|mexec; done].
  split; [|split; [|split]].
  - lookup_cases; reflexivity.
  - lookup_cases; reflexivity.
  - lookup_cases; reflexivity.
  - intros other Hne.
    assert (RedisService.ttlKey other ≠ RedisService.ttlKey uid)
      by (intros E; apply ttlKey_inj in E; done).
    lookup_cases; try reflexivity; mcases; try reflexivity; try congruence.
Qed.

(** ** The session records *)

Section SessionFacts.

Variables (sessionId : string) (persistentUserId : option string).

Lemma persistentKey_connected (w : World) (uid : string) :
  isConnected (redis w) = true → Js.truthy persistentUserId = Some uid →
  persistentKey persistentUserId w = Some uid.
Proof.
  intros Hc Ht. unfold persistentKey. wcases w. cbn in Hc. subst c. sexec. reflexivity.
Qed.

Lemma persistentKey_none (w : World) :
  isConnected (redis w) = false ∨ Js.truthy persistentUserId = None →
  persistentKey persistentUserId w = None.
Proof.
  intros H. unfold persistentKey. wcases w. cbn in H.
  destruct c; sexec; [|reflexivity]. destruct H as [H|H]; [done|]. by rewrite H.
Qed.

(** With Redis at hand the record of a visitor is the Redis copy,
    whatever the session. *)
Lemma recordAt_of_redis (n : Z) (w : World) (uid : string) (s : Session.t) :
  persistentKey persistentUserId w = Some uid →
  sessionStateKeys (redis w) !! uid = Some s →
  recordAt n sessionId persistentUserId w = s.
Proof.
  unfold persistentKey, recordAt. wcases w. intros Hp Hs. cbn in Hs.
  revert Hp. destruct c; sexec; [|done]. intros Hp. rewrite Hp. sexec. reflexivity.
Qed.

(** Without it the record is the cached one, or the default. *)
Lemma recordAt_in_memory (n : Z) (w : World) :
  persistentKey persistentUserId w = None →
  recordAt n sessionId persistentUserId w
    = default (Session.default n) (sessions w !! sessionId).
Proof.
  unfold persistentKey, recordAt. wcases w. intros Hp.
  revert Hp. destruct c; sexec.
  - intros Hp. rewrite Hp. sexec. destruct (ses !! sessionId); sexec; reflexivity.
  - intros _. destruct (ses !! sessionId); sexec; reflexivity.
Qed.

End SessionFacts.

(** X4. With Redis connected, [setSessionState] saves the state in the
    Redis record of the visitor and keeps the cooldown timestamp and the
    handoff-offered flag of the record.  The record is keyed by the visitor,
    not by the session: on any store that holds it, a read for that visitor
    on any session (the one of the call, or a new one after a reload) and
    with any clock answers that state, unless a live agent connection makes
    the read answer HUMAN_CONNECTED.  Redis keeps the record for one hour
    after a write ([setEx] with 3600 seconds); the expiry is not part of
    this store, so nothing is said about a read after the record is
    gone. *)
Theorem session_state_follows_the_visitor
    (now : Z) (sessionId state : string) (persistentUserId : option string) (uid : string)
    (w : World) :
  state ∈ SessionState.values →
  isConnected (redis w) = true →
  Js.truthy persistentUserId = Some uid →
  let before := value (SessionService.getSession now sessionId persistentUserId w) in
  let w' := world (SessionService.setSessionState now sessionId state persistentUserId w) in
  ∃ saved : Session.t,
    sessionStateKeys (redis w') !! uid = Some saved ∧
    Session.state saved = state ∧
    Session.lastHandoffTime saved = Session.lastHandoffTime before ∧
    Session.handoffOffered saved = Session.handoffOffered before ∧
    (∀ (later : Z) (anySession : string),
       value (SessionService.getSessionState later anySession persistentUserId w')
         = (if Js.present (value (RedisService.getActiveSession uid w))
            then SessionState.HUMAN_CONNECTED else state)) ∧
    ∀ (kept : World) (later : Z) (anySession : string),
      isConnected (redis kept) = true →
      sessionStateKeys (redis kept) !! uid = Some saved →
      value (SessionService.getSession later anySession persistentUserId kept) = saved ∧
      value (SessionService.getSessionState later anySession persistentUserId kept)
        = (if Js.present (value (RedisService.getActiveSession uid kept))
           then SessionState.HUMAN_CONNECTED else state).
Proof.
  intros Hin Hc Ht before w'. subst before w'.
  destruct (setSessionState_spec now sessionId persistentUserId state w Hin)
    as (w' & E & F & R & V).
  rewrite E. cbn [world fst snd].
  assert (Hk : persistentKey persistentUserId w = Some uid)
    by (by apply persistentKey_connected).
  assert (Hk' : persistentKey persistentUserId w' = Some uid)
    by (by rewrite (frame_persistentKey _ _ _ F)).
  fold (recordAt now sessionId persistentUserId w).
  eexists. split; [exact (V uid Hk')|].
  assert (Read : ∀ (kept : World) (later : Z) (anySession : string),
            isConnected (redis kept) = true →
            sessionStateKeys (redis kept) !! uid
              = Some (Session.setLastActivity now
                        (Session.setState state
                           (afterStateRead now sessionId persistentUserId w))) →
            value (SessionService.getSession later anySession persistentUserId kept)
              = Session.setLastActivity now
                  (Session.setState state (afterStateRead now sessionId persistentUserId w)) ∧
            value (SessionService.getSessionState later anySession persistentUserId kept)
              = (if Js.present (value (RedisService.getActiveSession uid kept))
                 then SessionState.HUMAN_CONNECTED else state)).
  { intros kept later anySession Hck Hs.
    assert (Hkk : persistentKey persistentUserId kept = Some uid)
      by (by apply persistentKey_connected).
    pose proof (recordAt_of_redis anySession persistentUserId later kept uid _ Hkk Hs)
      as Hrec.
    split; [exact Hrec|].
    rewrite getSessionState_value, Hrec. unfold agentBound. rewrite Hkk.
    fold (connectionOf uid kept). destruct (connectionOf uid kept); reflexivity. }
  split; [reflexivity|].
  split. { unfold afterStateRead. destruct (agentBound persistentUserId w); reflexivity. }
  split. { unfold afterStateRead. destruct (agentBound persistentUserId w); reflexivity. }
  split; [|exact Read].
  intros later anySession.
  destruct (Read w' later anySession) as [_ ->].
  - by rewrite (frame_connected _ _ F).
  - exact (V uid Hk').
  - fold (connectionOf uid w'). rewrite (frame_connection _ _ F uid). reflexivity.
Qed.

Lemma session_state_follows_the_visitor_witness :
  SessionState.LEAD_CAPTURE ∈ SessionState.values ∧
  sessionStateKeys
    (redis (world (SessionService.setSessionState 1000 "s1" SessionState.LEAD_CAPTURE
                     (Some "u1"%string) Scenario.chatting))) !! "u1"%string
    = Some (Session.mk SessionState.LEAD_CAPTURE 1000 true None None) ∧
  value (SessionService.getSessionState 2000 "s2" (Some "u1"%string)
           (world (SessionService.setSessionState 1000 "s1" SessionState.LEAD_CAPTURE
                     (Some "u1"%string) Scenario.chatting)))
    = SessionState.LEAD_CAPTURE.
Proof.
  assert (H : SessionState.LEAD_CAPTURE ∈ SessionState.values).
  { apply (bool_decide_unpack _). vm_compute. exact I. }
  split; [exact H|].
  destruct (session_state_follows_the_visitor 1000%Z "s1"%string
              SessionState.LEAD_CAPTURE (Some "u1"%string) "u1"%string
              Scenario.chatting H eq_refl eq_refl) as (saved & S & _ & _ & _ & R & _).
  split; [|exact (R 2000%Z "s2"%string)].
  vm_compute. reflexivity.
Defined.

(** X5. Without Redis, or for a visitor without a persistent id, the state
    lives in the session: a state set on one session is read back on that
    session and leaves the record of every other session as it was; a
    session seen for the first time starts in SEEKING_HANDOFF. *)
Theorem session_state_is_per_session_without_redis
    (now : Z) (sessionId state : string) (persistentUserId : option string) (w : World) :
  state ∈ SessionState.values →
  isConnected (redis w) = false ∨ Js.truthy persistentUserId = None →
  let w' := world (SessionService.setSessionState now sessionId state persistentUserId w) in
  (∀ later, value (SessionService.getSessionState later sessionId persistentUserId w') = state) ∧
  (∀ later other, other ≠ sessionId →
     sessions w' !! other = sessions w !! other ∧
     (sessions w !! other = None →
      value (SessionService.getSessionState later other persistentUserId w')
        = SessionState.SEEKING_HANDOFF)).
Proof.
  intros Hin Hno w'. subst w'.
  destruct (setSessionState_spec now sessionId persistentUserId state w Hin)
    as (w' & E & F & R & V).
  pose proof (persistentKey_none persistentUserId w Hno) as Hk.
  assert (Hk' : persistentKey persistentUserId w' = None)
    by (by rewrite (frame_persistentKey _ _ _ F)).
  assert (Hb : agentBound persistentUserId w' = false)
    by (unfold agentBound; by rewrite Hk').
  split.
  - intros later. rewrite E. cbn [world fst snd].
    rewrite getSessionState_value, Hb, (R later). reflexivity.
  - intros later other Hne.
    assert (Hs : sessions w' !! other = sessions w !! other).
    { clear - E Hne Hk Hin. apply isValidState_elem in Hin.
      revert E. unfold SessionService.setSessionState. rewrite Hin.
      unfold persistentKey in Hk. wcases w. revert Hk.
      destruct c; sexec.
      - intros Hk. rewrite Hk. sexec.
        destruct (ses !! sessionId) eqn:Hses; sexec; rewrite ?Hk; sexec;
          intros [= <-]; cbn; rewrite ?lookup_insert_ne by done; reflexivity.
      - intros _.
        destruct (ses !! sessionId) eqn:Hses; sexec;
          intros [= <-]; cbn; rewrite ?lookup_insert_ne by done; reflexivity. }
    rewrite E. cbn [world fst snd]. split; [exact Hs|].
    intros Hnone. rewrite getSessionState_value, Hb.
    rewrite (recordAt_in_memory other persistentUserId later w' Hk'), Hs, Hnone.
    reflexivity.
Qed.

Lemma session_state_is_per_session_without_redis_witness :
  SessionState.LEAD_CAPTURE ∈ SessionState.values ∧
  value (SessionService.getSessionState 2000 "s2" None
           (world (SessionService.setSessionState 1000 "s1" SessionState.LEAD_CAPTURE
                     None Scenario.chatting)))
    = SessionState.SEEKING_HANDOFF.
Proof.
  assert (H : SessionState.LEAD_CAPTURE ∈ SessionState.values).
  { apply (bool_decide_unpack _). vm_compute. exact I. }
  split; [exact H|].
  refine (proj2 (proj2 (session_state_is_per_session_without_redis 1000%Z "s1"%string
                          SessionState.LEAD_CAPTURE None Scenario.chatting H
                          (or_intror eq_refl)) 2000%Z "s2"%string _) eq_refl).
  vm_compute. congruence.
Defined.

(** X6. The hourly [cleanupOldSessions] drops exactly the in-memory
    records idle for more than an hour and touches nothing else.  A visitor
    whose record is also in Redis reads it back unchanged; a visitor known
    only in memory who was idle for more than an hour starts over with the
    default record: SEEKING_HANDOFF, no handoff offered, no cooldown
    timestamp (so a visitor left in NORMAL_CHAT is offered handoffs again). *)
Theorem cleanupOldSessions_forgets_idle_sessions (now : Z) (w : World) :
  let r := SessionService.cleanupOldSessions now w in
  let w' := world r in
  events r = [] ∧ redis w' = redis w ∧ slack w' = slack w ∧
  (∀ sid, sessions w' !! sid =
          s ← sessions w !! sid;
          if (Session.lastActivity s <? now - 60 * 60 * 1000)%Z then None else Some s) ∧
  (∀ sid p uid s later,
     isConnected (redis w) = true → Js.truthy p = Some uid →
     sessionStateKeys (redis w) !! uid = Some s →
     value (SessionService.getSession later sid p w') = s) ∧
  (∀ sid p s later,
     isConnected (redis w) = false ∨ Js.truthy p = None →
     sessions w !! sid = Some s →
     (Session.lastActivity s < now - 60 * 60 * 1000)%Z →
     value (SessionService.getSession later sid p w') = Session.default later ∧
     value (SessionService.getSessionState later sid p w') = SessionState.SEEKING_HANDOFF ∧
     value (SessionService.canRequestHandoffAgain later sid p w') = true).
Proof.
  cbv zeta.
  assert (L : ∀ sid, sessions (world (SessionService.cleanupOldSessions now w)) !! sid =
                     s ← sessions w !! sid;
                     if (Session.lastActivity s <? now - 60 * 60 * 1000)%Z
                     then None else Some s).
  { intros sid. unfold SessionService.cleanupOldSessions. cbn.
    destruct (sessions w !! sid) as [s|] eqn:Hs; cbn.
    - destruct (Z.ltb_spec (Session.lastActivity s) (now - 60 * 60 * 1000)).
      + apply map_lookup_filter_None. right. intros s' Hs'. cbn.
        assert (s' = s) as -> by congruence. lia.
      + apply map_lookup_filter_Some. split; [done|]. cbn. lia.
    - apply map_lookup_filter_None. by left. }
  split; [reflexivity|]. split; [reflexivity|]. split; [reflexivity|].
  split; [exact L|]. split.
  - intros sid p uid s later Hc Ht Hs.
    apply (recordAt_of_redis sid p later _ uid s); [|exact Hs].
    by apply persistentKey_connected.
  - intros sid p s later Hno Hs Hidle.
    set (w' := world (SessionService.cleanupOldSessions now w)) in *.
    assert (Hk : persistentKey p w' = None) by (by apply persistentKey_none).
    assert (Hr : ∀ n, recordAt n sid p w' = Session.default n).
    { intros n. rewrite (recordAt_in_memory sid p n w' Hk), L, Hs. cbn.
      destruct (Z.ltb_spec (Session.lastActivity s) (now - 60 * 60 * 1000)); [done|lia]. }
    split; [apply Hr|]. split.
    + rewrite getSessionState_value. unfold agentBound. rewrite Hk, Hr. reflexivity.
    + destruct (canRequestHandoffAgain_spec later sid p w') as (w2 & E & _).
      rewrite E. cbn [value fst]. rewrite Hr. reflexivity.
Qed.

Lemma cleanupOldSessions_forgets_idle_sessions_witness :
  let w := world (SessionService.markHumanHandoffAccepted 1000 "s9" None Scenario.chatting) in
  value (SessionService.getSessionState 4000000 "s9" None w) = SessionState.NORMAL_CHAT ∧
  value (SessionService.getSessionState 4000000 "s9" None
           (world (SessionService.cleanupOldSessions 4000000 w)))
    = SessionState.SEEKING_HANDOFF.
Proof.
  cbv zeta. split; [vm_compute; reflexivity|].
  set (w := world (SessionService.markHumanHandoffAccepted 1000 "s9" None Scenario.chatting)).
  destruct (cleanupOldSessions_forgets_idle_sessions 4000000%Z w)
    as (_ & _ & _ & _ & _ & Reset).
  apply (Reset "s9"%string None
           (Session.mk SessionState.NORMAL_CHAT 1000 false (Some 1000%Z) None)
           4000000%Z (or_intror eq_refl)).
  - vm_compute. reflexivity.
  - vm_compute. reflexivity.
Defined.

(** ** Offering a handoff *)

Section OfferFacts.

Variables (now : Z) (sessionId : string) (persistentUserId : option string).

Lemma offerDecision_spec (shouldOffer : bool * string) (w : World) :
  ∃ w', HandoffService.offerDecision now sessionId persistentUserId shouldOffer w
          = (if Session.handoffOffered (recordAt now sessionId persistentUserId w)
             then HandoffService.mk "continue_ai" "Human handoff already offered"
             else if shouldOffer.1 then HandoffService.mk "human_handoff" shouldOffer.2
             else HandoffService.mk "continue_ai" "No handoff triggers detected", w', []) ∧
        frame w w' ∧
        recorded sessionId persistentUserId w' (recordAt now sessionId persistentUserId w).
Proof.
  destruct (hasHandoffBeenOffered_spec now sessionId persistentUserId w) as (w1 & E1 & F1 & R1).
  exists w1. unfold HandoffService.offerDecision. mbind E1.
  destruct (Session.handoffOffered _); [done|]. destruct shouldOffer.1; done.
Qed.

End OfferFacts.

(** The answer of [analyzeResponseForHandoff] as a function of what the
    world holds for the visitor. *)
Lemma analyzeResponseForHandoff_spec
    (now : Z) (sessionId : string) (persistentUserId : option string)
    (shouldOffer : bool * string) (w : World) :
  let s := recordAt now sessionId persistentUserId w in
  let st := Session.state s in
  let decision :=
    if Session.handoffOffered s
    then HandoffService.mk "continue_ai" "Human handoff already offered"
    else if shouldOffer.1 then HandoffService.mk "human_handoff" shouldOffer.2
    else HandoffService.mk "continue_ai" "No handoff triggers detected" in
  ∃ w', HandoffService.analyzeResponseForHandoff now sessionId persistentUserId shouldOffer w
          = (if agentBound persistentUserId w
             then HandoffService.mk "continue_ai"
                    "HUMAN_CONNECTED state - agent handling conversation"
             else if String.eqb st SessionState.CALLBACK_REQUEST
             then HandoffService.mk "continue_ai"
                    "CALLBACK_REQUEST state - focusing on lead collection"
             else if String.eqb st SessionState.LEAD_CAPTURE
             then HandoffService.mk "continue_ai"
                    "LEAD_CAPTURE state - conversational lead capture mode"
             else if String.eqb st SessionState.HUMAN_CONNECTED
             then HandoffService.mk "continue_ai"
                    "HUMAN_CONNECTED state - agent handling conversation"
             else if String.eqb st SessionState.NORMAL_CHAT
             then (if cooledDown now s then decision
                   else HandoffService.mk "continue_ai"
                          "NORMAL_CHAT state - handoff cooldown active")
             else if String.eqb st SessionState.SEEKING_HANDOFF then decision
             else HandoffService.mk "continue_ai"
                    (String.append "Unknown session state: " st), w', []) ∧
        frame w w' ∧
        (agentBound persistentUserId w = false → st ≠ SessionState.NORMAL_CHAT →
         recorded sessionId persistentUserId w' s).
Proof.
  cbv zeta.
  destruct (getSessionState_spec now sessionId persistentUserId w) as (w1 & E1 & F1 & R1).
  unfold HandoffService.analyzeResponseForHandoff. mbind E1.
  unfold afterStateRead in R1.
  set (s := recordAt now sessionId persistentUserId w) in *.
  destruct (agentBound persistentUserId w) eqn:Hb.
  { mlit. cbv iota. by exists w1. }
  assert (Hb1 : agentBound persistentUserId w1 = false)
    by (by rewrite (frame_agentBound _ _ _ F1)).
  destruct (String.eqb (Session.state s) SessionState.CALLBACK_REQUEST); [by exists w1|].
  destruct (String.eqb (Session.state s) SessionState.LEAD_CAPTURE); [by exists w1|].
  destruct (String.eqb (Session.state s) SessionState.HUMAN_CONNECTED); [by exists w1|].
  destruct (String.eqb_spec (Session.state s) SessionState.NORMAL_CHAT) as [C4|C4].
  { destruct (canRequestHandoffAgain_spec now sessionId persistentUserId w1)
      as (w2 & E2 & F2 & R2).
    rewrite (R1 now) in E2, R2. mbind E2.
    destruct (cooledDown now s) eqn:Hcool; cbn [negb]; cbv iota.
    - destruct (setSessionState_spec now sessionId persistentUserId
                  SessionState.SEEKING_HANDOFF w2) as (w3 & E3 & F3 & R3 & V3).
      { apply isValidState_elem. reflexivity. }
      mbind E3.
      destruct (offerDecision_spec now sessionId persistentUserId shouldOffer w3)
        as (w4 & E4 & F4 & _).
      rewrite E4. rewrite (R3 now). unfold afterStateRead.
      rewrite (frame_agentBound _ _ _ F2), Hb1, (R2 now).
      cbn [Session.handoffOffered Session.setLastActivity Session.setState fst snd app].
      exists w4. split; [reflexivity|]. split; [eauto using frame_trans|done].
    - exists w2. split; [reflexivity|]. split; [eauto using frame_trans|done]. }
  destruct (String.eqb (Session.state s) SessionState.SEEKING_HANDOFF) eqn:C5.
  { destruct (offerDecision_spec now sessionId persistentUserId shouldOffer w1)
      as (w4 & E4 & F4 & R4).
    rewrite E4, (R1 now). fold s. exists w4. split; [reflexivity|].
    split; [eauto using frame_trans|]. intros _ _. by rewrite (R1 now) in R4. }
  by exists w1.
Qed.

(** X7. [analyzeResponseForHandoff] suggests a handoff in exactly one
    situation: the visitor reads as SEEKING_HANDOFF, or as NORMAL_CHAT with
    the cooldown elapsed; no handoff was offered on the record before; and
    the conversation analysis asks for one.  The reason it gives is then the
    reason of the analysis; in every other situation it answers
    "continue_ai". *)
Theorem handoff_is_suggested_exactly_when
    (now : Z) (sessionId : string) (persistentUserId : option string)
    (shouldOffer : bool * string) (w : World) :
  let state := value (SessionService.getSessionState now sessionId persistentUserId w) in
  let cooled := value (SessionService.canRequestHandoffAgain now sessionId persistentUserId w) in
  let offered := value (SessionService.hasHandoffBeenOffered now sessionId persistentUserId w) in
  let answer := value (HandoffService.analyzeResponseForHandoff now sessionId persistentUserId
                         shouldOffer w) in
  (HandoffService.action answer = "human_handoff"%string ↔
     (state = SessionState.SEEKING_HANDOFF ∨
      state = SessionState.NORMAL_CHAT ∧ cooled = true) ∧
     offered = false ∧ shouldOffer.1 = true) ∧
  (HandoffService.action answer = "human_handoff"%string ∨
   HandoffService.action answer = "continue_ai"%string) ∧
  (HandoffService.action answer = "human_handoff"%string →
   HandoffService.reason answer = shouldOffer.2).
Proof.
  cbv zeta.
  destruct (analyzeResponseForHandoff_spec now sessionId persistentUserId shouldOffer w)
    as (w' & -> & _).
  rewrite getSessionState_value.
  destruct (hasHandoffBeenOffered_spec now sessionId persistentUserId w) as (wo & -> & _).
  destruct (canRequestHandoffAgain_spec now sessionId persistentUserId w) as (wc & -> & _).
  cbn [value fst].
  set (s := recordAt now sessionId persistentUserId w).
  destruct (agentBound persistentUserId w).
  { cbn. split; [|split; [by right|discriminate]].
    split; [discriminate|]. intros [[H|[H _]] _]; discriminate. }
  destruct (String.eqb_spec (Session.state s) SessionState.CALLBACK_REQUEST) as [C1|C1].
  { rewrite C1. cbn. split; [|split; [by right|discriminate]].
    split; [discriminate|]. intros [[H|[H _]] _]; discriminate. }
  destruct (String.eqb_spec (Session.state s) SessionState.LEAD_CAPTURE) as [C2|C2].
  { rewrite C2. cbn. split; [|split; [by right|discriminate]].
    split; [discriminate|]. intros [[H|[H _]] _]; discriminate. }
  destruct (String.eqb_spec (Session.state s) SessionState.HUMAN_CONNECTED) as [C3|C3].
  { rewrite C3. cbn. split; [|split; [by right|discriminate]].
    split; [discriminate|]. intros [[H|[H _]] _]; discriminate. }
  destruct (String.eqb_spec (Session.state s) SessionState.NORMAL_CHAT) as [C4|C4].
  { rewrite C4.
    destruct (cooledDown now s), (Session.handoffOffered s), shouldOffer.1; cbn;
      (split; [|split; [auto|try discriminate; auto]]);
      split; try discriminate; auto;
      try (intros [_ [? ?]]; discriminate);
      try (intros [[H|[_ H]] _]; discriminate). }
  destruct (String.eqb_spec (Session.state s) SessionState.SEEKING_HANDOFF) as [C5|C5].
  { rewrite C5.
    destruct (Session.handoffOffered s), shouldOffer.1; cbn;
      (split; [|split; [auto|try discriminate; auto]]);
      split; try discriminate; auto; try (intros [_ [? ?]]; discriminate). }
  cbn. split; [|split; [by right|discriminate]].
  split; [discriminate|]. intros [[H|[H _]] _]; contradiction.
Qed.

(** X8. A handoff is offered once per record: [markHandoffOffered] sets
    the handoff-offered flag of the record, [setSessionState] keeps it, and
    on any store whose record carries the flag [analyzeResponseForHandoff]
    answers "continue_ai", whatever the conversation analysis says and with
    any clock.  The flag lasts as long as the record: Redis keeps a record
    for one hour after a write and the hourly cleanup drops idle in-memory
    records; neither is part of this statement. *)
Theorem handoff_is_offered_once
    (now : Z) (sessionId : string) (persistentUserId : option string) (w : World) :
  let w1 := world (SessionService.markHandoffOffered now sessionId persistentUserId w) in
  (∀ n, Session.handoffOffered
          (value (SessionService.getSession n sessionId persistentUserId w1)) = true) ∧
  (∀ (between : Z) (state : string) n,
     Session.handoffOffered
       (value (SessionService.getSession n sessionId persistentUserId
                 (world (SessionService.setSessionState between sessionId state
                           persistentUserId w1)))) = true) ∧
  (∀ (kept : World) (later : Z) (shouldOffer : bool * string),
     Session.handoffOffered
       (value (SessionService.getSession later sessionId persistentUserId kept)) = true →
     HandoffService.action
       (value (HandoffService.analyzeResponseForHandoff later sessionId persistentUserId
                 shouldOffer kept)) = "continue_ai"%string) ∧
  ∀ (later : Z) (shouldOffer : bool * string),
    HandoffService.action
      (value (HandoffService.analyzeResponseForHandoff later sessionId persistentUserId
                shouldOffer w1)) = "continue_ai"%string ∧
    ∀ (between : Z) (state : string),
      HandoffService.action
        (value (HandoffService.analyzeResponseForHandoff later sessionId persistentUserId
                  shouldOffer
                  (world (SessionService.setSessionState between sessionId state
                            persistentUserId w1)))) = "continue_ai"%string.
Proof.
  cbv zeta.
  destruct (markHandoffOffered_spec now sessionId persistentUserId w) as (w1 & -> & F1 & R1 & _).
  cbn [world fst snd].
  assert (K : ∀ w2 later shouldOffer,
                Session.handoffOffered (recordAt later sessionId persistentUserId w2) = true →
                HandoffService.action
                  (value (HandoffService.analyzeResponseForHandoff later sessionId
                            persistentUserId shouldOffer w2)) = "continue_ai"%string).
  { intros w2 later shouldOffer Hoff.
    destruct (analyzeResponseForHandoff_spec later sessionId persistentUserId shouldOffer w2)
      as (w' & -> & _).
    cbn [value fst]. rewrite Hoff.
    repeat match goal with |- context [if ?b then _ else _] => destruct b end; reflexivity. }
  assert (M1 : ∀ n, Session.handoffOffered (recordAt n sessionId persistentUserId w1) = true).
  { intros n. rewrite (R1 n). reflexivity. }
  assert (M2 : ∀ between state n,
             Session.handoffOffered
               (recordAt n sessionId persistentUserId
                  (world (SessionService.setSessionState between sessionId state
                            persistentUserId w1))) = true).
  { intros between state n.
    destruct (SessionService.isValidState state) eqn:Hv.
    + apply isValidState_elem in Hv.
      destruct (setSessionState_spec between sessionId persistentUserId state w1 Hv)
        as (w2 & -> & F2 & R2 & _).
      cbn [world fst snd]. rewrite (R2 n).
      unfold afterStateRead. rewrite (R1 between).
      destruct (agentBound persistentUserId w1); reflexivity.
    + unfold SessionService.setSessionState. rewrite Hv. cbn [emit world fst snd].
      apply M1. }
  split; [exact M1|]. split; [exact M2|]. split; [exact K|].
  intros later shouldOffer. split.
  - apply K, M1.
  - intros between state. apply K, M2.
Qed.

Lemma handoff_is_offered_once_witness :
  let w1 := world (SessionService.markHandoffOffered 1000 "s2" (Some "u2"%string)
                     Scenario.chatting) in
  HandoffService.action
    (value (HandoffService.analyzeResponseForHandoff 1000 "s2" (Some "u2"%string)
              (true, "Customer expressing frustration"%string) Scenario.chatting))
    = "human_handoff"%string ∧
  Session.handoffOffered
    (value (SessionService.getSession 2000 "s2" (Some "u2"%string) w1)) = true ∧
  HandoffService.action
    (value (HandoffService.analyzeResponseForHandoff 2000 "s2" (Some "u2"%string)
              (true, "Customer expressing frustration"%string) w1))
    = "continue_ai"%string.
Proof.
  cbv zeta. split; [vm_compute; reflexivity|].
  destruct (handoff_is_offered_once 1000%Z "s2"%string (Some "u2"%string) Scenario.chatting)
    as (M & _ & K & _).
  split; [exact (M 2000%Z)|].
  exact (K _ 2000%Z (true, "Customer expressing frustration"%string) (M 2000%Z)).
Defined.

(** ** The chat response *)

(** X9. Outside SEEKING_HANDOFF the chat path never suggests a handoff.
    For a visitor who reads as NORMAL_CHAT, CALLBACK_REQUEST or LEAD_CAPTURE,
    [getChatResponse] answers the responder's text as it is and does not run
    the handoff analysis, however long ago the last live handoff was; when
    the responder fails, the failure is logged by the conversation service
    and by [getChatResponse], which throws.  The only state change is
    LEAD_CAPTURE to CALLBACK_REQUEST when the message agrees; with Redis
    connected, an answered message leaves the session mapped to the
    visitor. *)
Theorem no_handoff_suggestion_outside_seeking_handoff
    (now : Z) (sessionId : string) (persistentUserId : option string)
    (userAgreed : bool) (responder : option string) (shouldOffer : bool * string)
    (w : World) (st : string) :
  value (SessionService.getSessionState now sessionId persistentUserId w) = st →
  st = SessionState.NORMAL_CHAT ∨ st = SessionState.CALLBACK_REQUEST ∨
  st = SessionState.LEAD_CAPTURE →
  let r := AIService.getChatResponse now sessionId persistentUserId userAgreed responder
             shouldOffer w in
  value r = AIService.Text <$> responder ∧
  events r = match responder with
             | Some _ => []
             | None => [ConsoleError "OpenAI API error in conversation service:";
                        ConsoleError "OpenAI API error:"]
             end ∧
  (∀ later, value (SessionService.getSessionState later sessionId persistentUserId (world r))
            = if String.eqb st SessionState.LEAD_CAPTURE && userAgreed
              then SessionState.CALLBACK_REQUEST else st) ∧
  (∀ uid, Js.truthy persistentUserId = Some uid → isConnected (redis w) = true →
          is_Some responder →
          value (RedisService.getSessionMapping sessionId (world r)) = Some uid).
Proof.
  intros Hst Hcases r. subst r.
  destruct (not_bound_of_state sessionId persistentUserId now w st Hst) as [Hnb Hrec].
  { destruct Hcases as [-> | [-> | ->]]; discriminate. }
  destruct (updateSessionActivity_spec now sessionId persistentUserId w)
    as (w1 & E1 & F1 & R1 & _).
  destruct (getSessionState_spec now sessionId persistentUserId w1) as (w2 & E2 & F2 & R2).
  unfold afterStateRead in R2.
  rewrite (frame_agentBound w w1 _ F1), Hnb, (R1 now) in E2, R2.
  cbn [Session.state Session.setLastActivity] in E2. rewrite Hrec in E2.
  assert (Hb2 : agentBound persistentUserId w2 = false).
  { by rewrite (frame_agentBound w1 w2 _ F2), (frame_agentBound w w1 _ F1). }
  assert (Hc2 : isConnected (redis w2) = isConnected (redis w)).
  { by rewrite (frame_connected _ _ F2), (frame_connected _ _ F1). }
  unfold AIService.getChatResponse. mbind E1. mbind E2.
  assert (Hhc : String.eqb st SessionState.HUMAN_CONNECTED = false).
  { destruct Hcases as [-> | [-> | ->]]; reflexivity. }
  rewrite Hhc. cbv iota.
  destruct (String.eqb st SessionState.LEAD_CAPTURE && userAgreed) eqn:Hagree; cbn [when].
  - (* the visitor agrees in LEAD_CAPTURE *)
    destruct (setSessionState_spec now sessionId persistentUserId
                SessionState.CALLBACK_REQUEST w2) as (w3 & E3 & F3 & R3 & _).
    { apply isValidState_elem. reflexivity. }
    destruct (getSessionState_spec now sessionId persistentUserId w3) as (w4 & E4 & F4 & R4).
    unfold afterStateRead in R3, R4.
    rewrite Hb2 in R3.
    rewrite (frame_agentBound w2 w3 _ F3), Hb2, (R3 now) in E4, R4.
    cbn [Session.state Session.setLastActivity Session.setState] in E4.
    destruct (generateResponse_spec sessionId persistentUserId responder w4)
      as (w5 & E5 & Hb5 & R5 & C5 & M5).
    { intros uid Hk. pose proof (getSessionState_settled now sessionId persistentUserId
                                   uid w3 Hk) as S.
      rewrite E4 in S. exact S. }
    rewrite (frame_agentBound w3 w4 _ F4), (frame_agentBound w2 w3 _ F3), Hb2 in Hb5.
    mbind E3. mbind E4. mbind E5.
    assert (Hfin : ∀ later,
               value (SessionService.getSessionState later sessionId persistentUserId w5)
               = SessionState.CALLBACK_REQUEST).
    { intros later. by rewrite getSessionState_value, Hb5, (R5 later), (R4 later). }
    assert (Hmap : ∀ uid, Js.truthy persistentUserId = Some uid →
                          isConnected (redis w) = true → is_Some responder →
                          value (RedisService.getSessionMapping sessionId w5) = Some uid).
    { intros uid Hk Hc Hr. apply M5; [done| |done].
      by rewrite (frame_connected _ _ F4), (frame_connected _ _ F3), Hc2. }
    destruct responder as [botResponse|].
    + mlit. cbv iota. rewrite (bind_eq _ _ _ w5 _ [] eq_refl). cbv beta iota zeta.
      cbn [HandoffService.action]. mlit. cbv iota. done.
    + done.
  - rewrite (bind_eq _ _ _ w2 tt [] eq_refl). cbv beta iota zeta.
    destruct (getSessionState_spec now sessionId persistentUserId w2) as (w4 & E4 & F4 & R4).
    unfold afterStateRead in R4. rewrite Hb2, (R2 now) in E4, R4.
    cbn [Session.state Session.setLastActivity] in E4. rewrite Hrec in E4.
    destruct (generateResponse_spec sessionId persistentUserId responder w4)
      as (w5 & E5 & Hb5 & R5 & C5 & M5).
    { intros uid Hk. pose proof (getSessionState_settled now sessionId persistentUserId
                                   uid w2 Hk) as S.
      rewrite E4 in S. exact S. }
    rewrite (frame_agentBound w2 w4 _ F4), Hb2 in Hb5.
    mbind E4. mbind E5.
    assert (Hfin : ∀ later,
               value (SessionService.getSessionState later sessionId persistentUserId w5)
               = st).
    { intros later. rewrite getSessionState_value, Hb5, (R5 later), (R4 later). exact Hrec. }
    assert (Hmap : ∀ uid, Js.truthy persistentUserId = Some uid →
                          isConnected (redis w) = true → is_Some responder →
                          value (RedisService.getSessionMapping sessionId w5) = Some uid).
    { intros uid Hk Hc Hr. apply M5; [done| |done].
      by rewrite (frame_connected _ _ F4), Hc2. }
    assert (Hsh : String.eqb st SessionState.SEEKING_HANDOFF = false).
    { destruct Hcases as [-> | [-> | ->]]; reflexivity. }
    destruct responder as [botResponse|].
    + rewrite Hsh. cbv iota. rewrite (bind_eq _ _ _ w5 _ [] eq_refl). cbv beta iota zeta.
      cbn [HandoffService.action]. mlit. cbv iota. done.
    + done.
Qed.

Lemma no_handoff_suggestion_outside_seeking_handoff_witness :
  value (SessionService.getSessionState (Scenario.handoffInstant + 7200000) "s1"
           (Some "u1"%string) Scenario.afterLiveHandoff) = SessionState.NORMAL_CHAT ∧
  value (SessionService.canRequestHandoffAgain (Scenario.handoffInstant + 7200000) "s1"
           (Some "u1"%string) Scenario.afterLiveHandoff) = true ∧
  value (AIService.getChatResponse (Scenario.handoffInstant + 7200000) "s1"
           (Some "u1"%string) false (Some "Here you go."%string)
           (true, "asked for a person"%string) Scenario.afterLiveHandoff)
    = Some (AIService.Text "Here you go.") ∧
  events (AIService.getChatResponse (Scenario.handoffInstant + 7200000) "s1"
            (Some "u1"%string) false None
            (true, "asked for a person"%string) Scenario.afterLiveHandoff)
    = [ConsoleError "OpenAI API error in conversation service:";
       ConsoleError "OpenAI API error:"].
Proof.
  assert (H : value (SessionService.getSessionState (Scenario.handoffInstant + 7200000) "s1"
                       (Some "u1"%string) Scenario.afterLiveHandoff)
              = SessionState.NORMAL_CHAT) by (vm_compute; reflexivity).
  split; [exact H|]. split; [vm_compute; reflexivity|]. split.
  - exact (proj1 (no_handoff_suggestion_outside_seeking_handoff
                    (Scenario.handoffInstant + 7200000) "s1"%string (Some "u1"%string) false
                    (Some "Here you go."%string) (true, "asked for a person"%string)
                    Scenario.afterLiveHandoff SessionState.NORMAL_CHAT H (or_introl eq_refl))).
  - exact (proj1 (proj2 (no_handoff_suggestion_outside_seeking_handoff
                    (Scenario.handoffInstant + 7200000) "s1"%string (Some "u1"%string) false
                    None (true, "asked for a person"%string)
                    Scenario.afterLiveHandoff SessionState.NORMAL_CHAT H (or_introl eq_refl)))).
Defined.

Section ChatFacts.

Variables (now : Z) (sessionId : string) (persistentUserId : option string).

(** [getChatResponse] for a visitor who reads as SEEKING_HANDOFF. *)
Lemma getChatResponse_seeking (userAgreed : bool) (botResponse : string)
    (shouldOffer : bool * string) (w : World) :
  agentBound persistentUserId w = false →
  Session.state (recordAt now sessionId persistentUserId w) = SessionState.SEEKING_HANDOFF →
  let s := Session.setLastActivity now (recordAt now sessionId persistentUserId w) in
  let suggest := negb (Session.handoffOffered s) && shouldOffer.1 in
  ∃ w', AIService.getChatResponse now sessionId persistentUserId userAgreed
          (Some botResponse) shouldOffer w
          = (Some (if suggest then AIService.Suggestion botResponse shouldOffer.2
                   else AIService.Text botResponse), w', []) ∧
        agentBound persistentUserId w' = false ∧
        recorded sessionId persistentUserId w'
          (if suggest then Session.setHandoffOffered true s else s).
Proof.
  intros Hnb Hst. cbv zeta.
  destruct (updateSessionActivity_spec now sessionId persistentUserId w)
    as (w1 & E1 & F1 & R1 & _).
  destruct (getSessionState_spec now sessionId persistentUserId w1) as (w2 & E2 & F2 & R2).
  unfold afterStateRead in R2.
  rewrite (frame_agentBound w w1 _ F1), Hnb, (R1 now) in E2, R2.
  cbn [Session.state Session.setLastActivity] in E2. rewrite Hst in E2.
  assert (Hb2 : agentBound persistentUserId w2 = false).
  { by rewrite (frame_agentBound w1 w2 _ F2), (frame_agentBound w w1 _ F1). }
  destruct (getSessionState_spec now sessionId persistentUserId w2) as (w3 & E3 & F3 & R3).
  unfold afterStateRead in R3. rewrite Hb2, (R2 now) in E3, R3.
  cbn [Session.state Session.setLastActivity] in E3. rewrite Hst in E3.
  assert (Hb3 : agentBound persistentUserId w3 = false).
  { by rewrite (frame_agentBound w2 w3 _ F3). }
  destruct (generateResponse_spec sessionId persistentUserId (Some botResponse) w3)
    as (wg & Eg & Hbg & Rg & _).
  { intros uid Hk. pose proof (getSessionState_settled now sessionId persistentUserId
                                 uid w2 Hk) as S.
    rewrite E3 in S. exact S. }
  rewrite Hb3 in Hbg.
  destruct (analyzeResponseForHandoff_spec now sessionId persistentUserId shouldOffer wg)
    as (w4 & E4 & F4 & R4).
  rewrite Hbg, (Rg now), (R3 now) in E4, R4.
  cbn [Session.state Session.setLastActivity Session.handoffOffered] in E4, R4.
  rewrite Hst in E4, R4. specialize (R4 eq_refl).
  assert (R4' : recorded sessionId persistentUserId w4
                  (Session.setLastActivity now (recordAt now sessionId persistentUserId w))).
  { apply R4. discriminate. }
  clear R4.
  assert (Hb4 : agentBound persistentUserId w4 = false)
    by (by rewrite (frame_agentBound wg w4 _ F4)).
  change (String.eqb SessionState.SEEKING_HANDOFF SessionState.CALLBACK_REQUEST)
    with false in E4.
  change (String.eqb SessionState.SEEKING_HANDOFF SessionState.LEAD_CAPTURE)
    with false in E4.
  change (String.eqb SessionState.SEEKING_HANDOFF SessionState.HUMAN_CONNECTED)
    with false in E4.
  change (String.eqb SessionState.SEEKING_HANDOFF SessionState.NORMAL_CHAT)
    with false in E4.
  change (String.eqb SessionState.SEEKING_HANDOFF SessionState.SEEKING_HANDOFF)
    with true in E4.
  cbv iota in E4.
  unfold AIService.getChatResponse. mbind E1. mbind E2. mlit. cbv iota. cbn [andb when].
  rewrite (bind_eq _ _ _ w2 tt [] eq_refl). cbv beta iota zeta. mbind E3. mbind Eg.
  mlit. cbv iota. mbind E4.
  change (Session.handoffOffered
            (Session.setLastActivity now (recordAt now sessionId persistentUserId w)))
    with (Session.handoffOffered (recordAt now sessionId persistentUserId w)).
  destruct (Session.handoffOffered (recordAt now sessionId persistentUserId w)) eqn:Hoff;
    cbn [negb andb HandoffService.action].
  - mlit. cbv iota. exists w4. split; [reflexivity|]. by split.
  - destruct shouldOffer.1; cbn [HandoffService.action HandoffService.reason].
    + mlit. cbv iota.
      destruct (markHandoffOffered_spec now sessionId persistentUserId w4)
        as (w5 & E5 & F5 & R5 & _).
      rewrite (R4' now) in R5. mbind E5.
      exists w5. split; [reflexivity|]. split; [|exact R5].
      by rewrite (frame_agentBound w4 w5 _ F5).
    + mlit. cbv iota. exists w4. split; [reflexivity|]. by split.
Qed.

End ChatFacts.

(** X10. While an agent connection is live for the visitor,
    [getChatResponse] answers the "connected to a human agent" notice without
    consulting the responder or the handoff analysis: the answer is the same
    whatever they would say, also when the responder would throw. *)
Theorem connected_visitor_is_not_answered_by_the_ai
    (now : Z) (sessionId : string) (persistentUserId : option string) (uid : string)
    (a : ActiveSession.t) (w : World) :
  Js.truthy persistentUserId = Some uid →
  value (RedisService.getActiveSession uid w) = Some a →
  ∀ (userAgreed : bool) (responder : option string) (shouldOffer : bool * string),
    let r := AIService.getChatResponse now sessionId persistentUserId userAgreed responder
               shouldOffer w in
    value r = Some (AIService.Notice
      "You're currently connected to a human agent. They should respond shortly.") ∧
    events r = [] ∧
    value (RedisService.getActiveSession uid (world r)) = Some a.
Proof.
  intros Ht Ha userAgreed responder shouldOffer r. subst r.
  fold (connectionOf uid w) in Ha.
  assert (Hc : isConnected (redis w) = true) by (by apply connectionOf_Some in Ha as [? _]).
  assert (Hb : agentBound persistentUserId w = true).
  { unfold agentBound. rewrite (persistentKey_connected persistentUserId w uid Hc Ht), Ha.
    reflexivity. }
  destruct (updateSessionActivity_spec now sessionId persistentUserId w)
    as (w1 & E1 & F1 & R1 & _).
  destruct (getSessionState_spec now sessionId persistentUserId w1) as (w2 & E2 & F2 & R2).
  rewrite (frame_agentBound w w1 _ F1), Hb in E2.
  unfold AIService.getChatResponse. mbind E1. mbind E2. mlit. cbv iota.
  cbn [ret value world events fst snd]. split; [reflexivity|]. split; [reflexivity|].
  fold (connectionOf uid w2).
  rewrite (frame_connection _ _ F2), (frame_connection _ _ F1). exact Ha.
Qed.

Lemma connected_visitor_is_not_answered_by_the_ai_witness :
  ActiveSession.agentName <$> value (RedisService.getActiveSession "u1" Scenario.connected)
    = Some "alice"%string ∧
  value (AIService.getChatResponse 1700000005000 "s1" (Some "u1"%string) false None
           (true, "asked for a person"%string) Scenario.connected)
    = Some (AIService.Notice
        "You're currently connected to a human agent. They should respond shortly.").
Proof.
  split; [vm_compute; reflexivity|].
  refine (proj1 (connected_visitor_is_not_answered_by_the_ai 1700000005000%Z "s1"%string
                   (Some "u1"%string) "u1"%string
                   (ActiveSession.mk "A1" "alice" "1700.0001" "1700.0001"
                      Scenario.handoffInstant "u1" "s1")
                   Scenario.connected eq_refl _ false None
                   (true, "asked for a person"%string))).
  vm_compute. reflexivity.
Defined.

(** X11. A handoff suggestion is made once per record.  For a visitor who
    reads as SEEKING_HANDOFF and was not offered a handoff yet,
    [getChatResponse] turns a positive analysis into a suggestion carrying
    the responder's text and the reason of the analysis, and marks the
    visitor's record as offered.  On any store in which the visitor reads as
    SEEKING_HANDOFF with a record so marked, it answers the plain responder
    text, whatever the analysis says.  The mark lasts as long as the record:
    Redis keeps a saved record for an hour after its last write, and
    [cleanupOldSessions] drops idle in-memory ones. *)
Theorem handoff_suggestion_is_made_once
    (now : Z) (sessionId : string) (persistentUserId : option string)
    (userAgreed : bool) (botResponse reason : string) (w : World) :
  value (SessionService.getSessionState now sessionId persistentUserId w)
    = SessionState.SEEKING_HANDOFF →
  value (SessionService.hasHandoffBeenOffered now sessionId persistentUserId w) = false →
  let r := AIService.getChatResponse now sessionId persistentUserId userAgreed
             (Some botResponse) (true, reason) w in
  value r = Some (AIService.Suggestion botResponse reason) ∧
  (∀ later,
     value (SessionService.getSessionState later sessionId persistentUserId (world r))
       = SessionState.SEEKING_HANDOFF ∧
     value (SessionService.hasHandoffBeenOffered later sessionId persistentUserId (world r))
       = true) ∧
  ∀ (w' : World) (later : Z) (userAgreed' : bool) (botResponse' : string)
    (shouldOffer' : bool * string),
    value (SessionService.getSessionState later sessionId persistentUserId w')
      = SessionState.SEEKING_HANDOFF →
    value (SessionService.hasHandoffBeenOffered later sessionId persistentUserId w') = true →
    value (AIService.getChatResponse later sessionId persistentUserId userAgreed'
             (Some botResponse') shouldOffer' w')
      = Some (AIService.Text botResponse').
Proof.
  intros Hst Hoff r. subst r.
  destruct (not_bound_of_state sessionId persistentUserId now w _ Hst) as [Hnb Hrec];
    [discriminate|].
  destruct (hasHandoffBeenOffered_spec now sessionId persistentUserId w) as (wo & Eo & _).
  rewrite Eo in Hoff. cbn [value fst] in Hoff.
  destruct (getChatResponse_seeking now sessionId persistentUserId userAgreed botResponse
              (true, reason) w Hnb Hrec) as (w1 & E1 & Hb1 & R1).
  cbn [Session.handoffOffered Session.setLastActivity fst snd] in E1, R1.
  rewrite Hoff in E1, R1. cbn [negb andb] in E1, R1.
  rewrite E1. cbn [value world events fst snd].
  split; [reflexivity|]. split.
  - intros later. split.
    + rewrite getSessionState_value, Hb1, (R1 later). exact Hrec.
    + destruct (hasHandoffBeenOffered_spec later sessionId persistentUserId w1)
        as (w2 & E2 & _).
      rewrite E2. cbn [value fst]. by rewrite (R1 later).
  - intros w' later userAgreed' botResponse' shouldOffer' Hst' Hoff'.
    destruct (not_bound_of_state sessionId persistentUserId later w' _ Hst')
      as [Hnb' Hrec']; [discriminate|].
    destruct (hasHandoffBeenOffered_spec later sessionId persistentUserId w')
      as (wo' & Eo' & _).
    rewrite Eo' in Hoff'. cbn [value fst] in Hoff'.
    destruct (getChatResponse_seeking later sessionId persistentUserId userAgreed'
                botResponse' shouldOffer' w' Hnb' Hrec') as (w2 & E2 & _).
    rewrite E2. cbn [value fst Session.handoffOffered Session.setLastActivity].
    by rewrite Hoff'.
Qed.

Lemma handoff_suggestion_is_made_once_witness :
  let w := world (SessionService.getSession 900 "s7" None Scenario.chatting) in
  let r := AIService.getChatResponse 950 "s7" None false (Some "Sure."%string)
             (true, "asked for a person"%string) w in
  value (SessionService.getSessionState 950 "s7" None w) = SessionState.SEEKING_HANDOFF ∧
  value r = Some (AIService.Suggestion "Sure." "asked for a person") ∧
  value (AIService.getChatResponse 990 "s7" None false (Some "Anything else?"%string)
           (true, "asked again"%string) (world r))
    = Some (AIService.Text "Anything else?").
Proof.
  cbv zeta.
  assert (H : value (SessionService.getSessionState 950 "s7" None
                       (world (SessionService.getSession 900 "s7" None Scenario.chatting)))
              = SessionState.SEEKING_HANDOFF) by (vm_compute; reflexivity).
  split; [exact H|].
  pose proof (handoff_suggestion_is_made_once 950%Z "s7"%string None false
                "Sure."%string "asked for a person"%string _ H eq_refl) as (A & B & C).
  split; [exact A|].
  exact (C _ 990%Z false "Anything else?"%string (true, "asked again"%string)
           (proj1 (B 990%Z)) (proj2 (B 990%Z))).
Defined.

(** ** Requests, timers and connections *)

Ltac xrun :=
  lazy [bindX retX lift emitX answer after effects
        SlackService.isSessionActive SlackService.isSessionActiveForUser
        SlackService.isSessionWaiting SlackService.disconnectSession
        SlackService.forceEndSession SlackService.cleanupSessionData
        SlackService.forceEndSessionByPersistentUserId
        SlackService.reconnectPersistentUser SlackService.handleSessionReconnection
        SlackService.sendToHuman SlackService.userInactivityCallback
        SlackService.fireUserInactivityTimeout SlackService.handleWaitingSessionDisconnect
        SlackService.orElse
        ChatController.reconnection ChatController.checkSessionState
        ChatController.humanRoute];
  mrun; cbn [map app].

Ltac xexec := repeat (progress (xrun; mhyp; mmap; mlit)).

Section Observations.

(** What [agentBound] and [connectionOf] depend on. *)
Lemma connectionOf_ext' (uid : string) (w w' : World) :
  isConnected (redis w') = isConnected (redis w) →
  sessionKeys (redis w') = sessionKeys (redis w) →
  activeSessions (redis w') = activeSessions (redis w) →
  connectionOf uid w' = connectionOf uid w.
Proof.
  unfold connectionOf. wcases w. wcases w'. cbn. intros -> -> ->.
  destruct c; mexec; [|reflexivity]. lookup_cases; reflexivity.
Qed.

Lemma agentBound_ext' (p : option string) (w w' : World) :
  isConnected (redis w') = isConnected (redis w) →
  sessionKeys (redis w') = sessionKeys (redis w) →
  activeSessions (redis w') = activeSessions (redis w) →
  agentBound p w' = agentBound p w.
Proof.
  intros Hc Hs Ha. unfold agentBound.
  assert (persistentKey p w' = persistentKey p w) as ->.
  { unfold persistentKey. wcases w. wcases w'. cbn in Hc. subst. reflexivity. }
  destruct (persistentKey p w); [|reflexivity].
  by rewrite (connectionOf_ext' _ w w').
Qed.

Lemma agentBound_by_connection (p : option string) (w w' : World) :
  isConnected (redis w') = isConnected (redis w) →
  (∀ uid, connectionOf uid w' = connectionOf uid w) →
  agentBound p w' = agentBound p w.
Proof.
  intros Hc Hn. unfold agentBound.
  assert (persistentKey p w' = persistentKey p w) as ->.
  { unfold persistentKey. wcases w. wcases w'. cbn in Hc. subst. reflexivity. }
  destruct (persistentKey p w); [|reflexivity]. by rewrite Hn.
Qed.

Lemma agentBound_of_connection (uid : string) (w : World) :
  connectionOf uid w = None → agentBound (Some uid) w = false.
Proof.
  intros H. unfold agentBound.
  destruct (persistentKey (Some uid) w) as [u|] eqn:Hk; [|reflexivity].
  assert (u = uid) as ->.
  { revert Hk. unfold persistentKey. wcases w. destruct c; sexec; [|done].
    destruct uid; cbn; congruence. }
  by rewrite H.
Qed.

End Observations.

Section Timer.

Variables (now : Z) (uid : string).

(** The firing of the timer of a pending request that nobody claimed. *)
Lemma fireHandoffTimeout_pending (timerSession ts sid : string) (h : Handoff.t) (w : World) :
  isConnected (redis w) = true →
  handoffTimeouts (slack w) !! uid = Some timerSession →
  handoffKeys (redis w) !! uid = Some h →
  Js.truthy (Some (Handoff.messageTs h)) = Some ts →
  connectionOf uid w = None →
  Js.truthy (Some (SlackService.currentSessionOr
                     (value (RedisService.getUserState uid w)) timerSession)) = Some sid →
  ∃ w', SlackService.fireHandoffTimeout now uid w
          = (tt, w',
             [DbLog "logHandoffTimeout" uid;
              SlackUpdate ts (RequestTimedOut (Handoff.sessionId h));
              SlackPost (Some ts) TimedOutThreadNote]
             ++ (if io w then [Emit sid "handoff_timeout"; Emit sid "message"] else [])) ∧
        isConnected (redis w') = true ∧
        handoffKeys (redis w') = delete uid (handoffKeys (redis w)) ∧
        timerKeys (redis w') = delete uid (timerKeys (redis w)) ∧
        handoffTimeouts (slack w') = delete uid (handoffTimeouts (slack w)) ∧
        (∀ u, connectionOf u w' = connectionOf u w) ∧
        (∀ later, Session.state (recordAt later sid (Some uid) w')
                  = SessionState.SEEKING_HANDOFF).
Proof.
  intros Hc Ht Hh Hts Hconn Hsid.
  pose proof (agentBound_of_connection uid w Hconn) as Hnb.
  destruct (setSessionState_spec now sid (Some uid) SessionState.SEEKING_HANDOFF w)
    as (w2 & E2 & F2 & R2 & _).
  { apply isValidState_elem. reflexivity. }
  unfold afterStateRead in R2. rewrite Hnb in R2.
  assert (R2' : ∀ later w3,
            isConnected (redis w3) = isConnected (redis w2) →
            sessionStateKeys (redis w3) = sessionStateKeys (redis w2) →
            sessions w3 = sessions w2 →
            Session.state (recordAt later sid (Some uid) w3) = SessionState.SEEKING_HANDOFF).
  { intros later w3 H1 H2 H3.
    rewrite (recordAt_ext' later sid (Some uid) w2 w3 H1 H2 H3), (R2 later). reflexivity. }
  clear Hconn Hnb R2.
  revert Hsid E2 F2 R2'. wcases w. cbn in Hc, Ht, Hh. subst c.
  intros Hsid E2 F2 R2.
  revert Hsid. mexec. intros Hsid. mexec. rewrite E2.
  destruct F2 as [F2c F2u F2s F2h F2t F2l F2i F2n].
  revert R2. wcases w2. cbn in F2c, F2u, F2s, F2h, F2t, F2l, F2i.
  injection F2l as -> -> -> -> -> -> -> ->. subst. intros R2.
  mexec.
  eexists. split; [destruct i; reflexivity|].
  mexec. rewrite !delete_delete_eq.
  do 4 (split; [done|]). split.
  - intros u. rewrite <- F2n. apply connectionOf_ext'; reflexivity.
  - intros later. apply R2; reflexivity.
Qed.

End Timer.

(** X12. The handoff timer of a pending request that nobody claimed: when
    it fires, the request is marked as timed out in Slack, the visitor's
    current session (the one named by the user hash, else the one the timer
    was set for) is reset to SEEKING_HANDOFF and told so, and the pending
    request, its timer key and the timer itself are removed; a second firing
    does nothing. *)
Theorem timeout_reclaims_pending_request
    (now : Z) (uid timerSession ts sid : string) (h : Handoff.t) (w : World) :
  isConnected (redis w) = true →
  handoffTimeouts (slack w) !! uid = Some timerSession →
  handoffKeys (redis w) !! uid = Some h →
  Js.truthy (Some (Handoff.messageTs h)) = Some ts →
  value (RedisService.getActiveSession uid w) = None →
  Js.truthy (Some (SlackService.currentSessionOr
                     (value (RedisService.getUserState uid w)) timerSession)) = Some sid →
  let r := SlackService.fireHandoffTimeout now uid w in
  events r = [DbLog "logHandoffTimeout" uid;
              SlackUpdate ts (RequestTimedOut (Handoff.sessionId h));
              SlackPost (Some ts) TimedOutThreadNote]
             ++ (if io w then [Emit sid "handoff_timeout"; Emit sid "message"] else []) ∧
  value (RedisService.getHandoffState uid (world r)) = None ∧
  value (RedisService.getTimerStart uid (world r)) = None ∧
  handoffTimeouts (slack (world r)) !! uid = None ∧
  (∀ later, value (SessionService.getSessionState later sid (Some uid) (world r))
            = SessionState.SEEKING_HANDOFF) ∧
  (∀ later, SlackService.fireHandoffTimeout later uid (world r) = (tt, world r, [])).
Proof.
  intros Hc Ht Hh Hts Hconn Hsid. cbv zeta.
  destruct (fireHandoffTimeout_pending now uid timerSession ts sid h w Hc Ht Hh Hts Hconn Hsid)
    as (w' & -> & Hc' & Hh' & Ht' & Hl' & Hn' & Hr').
  cbn [value world events fst snd].
  split; [reflexivity|].
  split. { revert Hc' Hh'. wcases w'. cbn. intros -> ->. mexec. reflexivity. }
  split. { revert Hc' Ht'. wcases w'. cbn. intros -> ->. mexec. reflexivity. }
  split. { rewrite Hl'. apply lookup_delete_eq. }
  split.
  - intros later. rewrite getSessionState_value.
    rewrite (agentBound_by_connection (Some uid) w w') by (congruence || done).
    rewrite (agentBound_of_connection uid w Hconn). apply Hr'.
  - intros later. apply unregistered_timer_does_nothing.
    rewrite Hl'. apply lookup_delete_eq.
Qed.

Lemma timeout_reclaims_pending_request_witness :
  value (RedisService.getHandoffState "u1" Scenario.waiting)
    = Some (Handoff.mk "s1" "1700.0001" 1000 [] None) ∧
  events (SlackService.fireHandoffTimeout 601000 "u1" Scenario.waiting)
    = [DbLog "logHandoffTimeout" "u1";
       SlackUpdate "1700.0001" (RequestTimedOut "s1");
       SlackPost (Some "1700.0001"%string) TimedOutThreadNote;
       Emit "s1" "handoff_timeout"; Emit "s1" "message"] ∧
  value (RedisService.getHandoffState "u1" Scenario.timedOut) = None.
Proof.
  split; [vm_compute; reflexivity|].
  destruct (timeout_reclaims_pending_request 601000%Z "u1"%string "s1"%string
              "1700.0001"%string "s1"%string (Handoff.mk "s1" "1700.0001" 1000 [] None)
              Scenario.waiting) as (E & H & _); try (vm_compute; reflexivity).
  split; [exact E | exact H].
Defined.

(** X13. When Slack refuses a new support request, [requestHumanAgent]
    logs the failure, answers "error" and leaves nothing pending: no request
    is stored, no waiting entry and no timer is set, so nothing will time
    out later. *)
Theorem failed_notification_leaves_no_request
    (now : Z) (sessionId : string) (history : list (string * string))
    (persistentUserId : option string) (summary : string) (w : World) :
  (∀ uid, Js.truthy persistentUserId = Some uid →
          value (RedisService.getHandoffState uid w) = None) →
  let r := SlackService.requestHumanAgent now sessionId history persistentUserId summary
             SlackService.PostThrows w in
  value r = SlackService.mkReply "error"
              (Some "Unable to connect to human agent right now. Please try again."%string)
              None ∧
  events r = [ConsoleError "Error sending Slack notification:"] ∧
  handoffKeys (redis (world r)) = handoffKeys (redis w) ∧
  timerKeys (redis (world r)) = timerKeys (redis w) ∧
  handoffTimeouts (slack (world r)) = handoffTimeouts (slack w) ∧
  updateIntervals (slack (world r)) = updateIntervals (slack w) ∧
  waitingSessions (slack (world r)) = waitingSessions (slack w).
Proof.
  intros Hnone. cbv zeta.
  destruct (Js.truthy persistentUserId) as [uid|] eqn:Ht.
  - specialize (Hnone uid eq_refl). revert Hnone. wcases w.
    destruct c; mexec; intros Hnone.
    + destruct history; mcases; repeat split; reflexivity.
    + destruct history; mcases; repeat split; reflexivity.
  - clear Hnone. wcases w. destruct history; mcases; repeat split; reflexivity.
Qed.

Lemma failed_notification_leaves_no_request_witness :
  value (RedisService.getHandoffState "u1" Scenario.chatting) = None ∧
  SlackService.status
    (value (SlackService.requestHumanAgent 1000 "s1" [] (Some "u1"%string) EmptyString
              SlackService.PostThrows Scenario.chatting)) = "error"%string ∧
  events (SlackService.requestHumanAgent 1000 "s1" [] (Some "u1"%string) EmptyString
            SlackService.PostThrows Scenario.chatting)
    = [ConsoleError "Error sending Slack notification:"] ∧
  handoffTimeouts
    (slack (world (SlackService.requestHumanAgent 1000 "s1" [] (Some "u1"%string)
                     EmptyString SlackService.PostThrows Scenario.chatting))) = ∅.
Proof.
  split; [vm_compute; reflexivity|].
  destruct (failed_notification_leaves_no_request 1000%Z "s1"%string [] (Some "u1"%string)
              EmptyString Scenario.chatting) as (V & E & _ & _ & T & _).
  - intros uid [= <-]. vm_compute. reflexivity.
  - split; [by rewrite V|]. split; [exact E|]. rewrite T. reflexivity.
Defined.

(** X14. With Redis down a handoff request is still published to Slack and
    acknowledged to the visitor, but it cannot be accepted: every click on
    "Accept" is answered "Session not found" and no agent connection can be
    found for any visitor. *)
Theorem request_without_redis_cannot_be_accepted
    (now : Z) (sessionId : string) (history : list (string * string))
    (persistentUserId : option string) (summary ts : string) (w : World) :
  isConnected (redis w) = false →
  let r := SlackService.requestHumanAgent now sessionId history persistentUserId summary
             (SlackService.PostReturns ts) w in
  value r = SlackService.mkReply "human_requested" (Some SlackService.requestSentMessage) None ∧
  events r = [SlackPost None (NewSupportRequest sessionId)] ∧
  redis (world r) = redis w ∧
  ∀ (later : Z) (identifier userId userName messageTs : string) (updateOk : bool),
    SlackService.handleAcceptButton later identifier userId userName messageTs updateOk (world r)
      = (SlackService.mkReply "error" (Some "Session not found"%string) None, world r,
         [ConsoleError (String.append "Could not resolve identifiers: " identifier)]) ∧
    value (SlackService.isSessionActive identifier (world r)) = false ∧
    value (SlackService.isSessionActiveForUser identifier (world r)) = false.
Proof.
  intros Hc. cbv zeta. wcases w. cbn in Hc. subst c.
  assert (Hdown : ∀ (w' : World), isConnected (redis w') = false →
            ∀ (later : Z) (identifier userId userName messageTs : string) (updateOk : bool),
              SlackService.handleAcceptButton later identifier userId userName messageTs
                updateOk w'
              = (SlackService.mkReply "error" (Some "Session not found"%string) None, w',
                 [ConsoleError (String.append "Could not resolve identifiers: " identifier)]) ∧
              value (SlackService.isSessionActive identifier w') = false ∧
              value (SlackService.isSessionActiveForUser identifier w') = false).
  { intros w' Hc' later identifier userId userName messageTs updateOk.
    wcases w'. cbn in Hc'. subst c. xexec. cbn [mbind option_bind Js.truthy]. xexec.
    done. }
  match goal with
  | |- context [SlackService.requestHumanAgent ?n ?s ?h ?p ?m ?o ?w0] =>
      assert (E : ∃ w', SlackService.requestHumanAgent n s h p m o w0
                        = (SlackService.mkReply "human_requested"
                             (Some SlackService.requestSentMessage) None, w',
                           [SlackPost None (NewSupportRequest sessionId)]) ∧
                        redis w' = redis w0)
  end.
  { destruct (Js.truthy persistentUserId) as [uid|] eqn:Ht;
      destruct (Js.truthy (Some ts)) as [ts'|] eqn:Hts;
      destruct history; mexec; eexists; split; reflexivity. }
  destruct E as (w' & -> & Hr). cbn [value world events fst snd].
  split; [reflexivity|]. split; [reflexivity|]. split; [exact Hr|].
  apply Hdown. by rewrite Hr.
Qed.

Lemma request_without_redis_cannot_be_accepted_witness :
  let w := mkWorld (mkRedis false ∅ ∅ ∅ ∅ ∅ ∅) ∅ Scenario.noTimers true in
  isConnected (redis w) = false ∧
  SlackService.status
    (value (SlackService.handleAcceptButton 2000 "u1" "A1" "alice" "1700.0001" true
              (world (SlackService.requestHumanAgent 1000 "s1" [] (Some "u1"%string)
                        EmptyString (SlackService.PostReturns "1700.0001") w))))
    = "error"%string.
Proof.
  cbv zeta. split; [reflexivity|].
  destruct (request_without_redis_cannot_be_accepted 1000%Z "s1"%string []
              (Some "u1"%string) EmptyString "1700.0001"%string
              (mkWorld (mkRedis false ∅ ∅ ∅ ∅ ∅ ∅) ∅ Scenario.noTimers true) eq_refl)
    as (_ & _ & _ & A).
  destruct (A 2000%Z "u1"%string "A1"%string "alice"%string "1700.0001"%string true)
    as (E & _).
  by rewrite E.
Defined.

Section Running.

Lemma bindX_eq {A B} (m : X A) (k : A → X B) (w w1 : World) (a : A) (t1 : list Effect) :
  m w = (a, w1, t1) →
  bindX m k w = (let '(b, w2, t2) := k a w1 in (b, w2, t1 ++ t2)).
Proof. intros E. unfold bindX. by rewrite E. Qed.

Lemma seq_assocX {A B C} (a : X A) (b : X B) (k : B → X C) (w : World) :
  bindX a (λ _, bindX b k) w = bindX (bindX a (λ _, b)) k w.
Proof.
  unfold bindX. destruct (a w) as [[x w1] t1]. destruct (b w1) as [[y w2] t2].
  destruct (k y w2) as [[z w3] t3]. by rewrite app_assoc.
Qed.

Lemma lift_eq {A} (m : M A) (w w1 : World) (a : A) (t : list Event) :
  m w = (a, w1, t) → lift m w = (a, w1, map Plain t).
Proof. intros E. unfold lift. by rewrite E. Qed.

Lemma getAllActiveSessions_spec (w : World) :
  ∃ w', RedisService.getAllActiveSessions w
          = (value (RedisService.getAllActiveSessions w), w', []) ∧
        frame w w' ∧ sessions w' = sessions w ∧
        sessionStateKeys (redis w') = sessionStateKeys (redis w).
Proof.
  wcases w. destruct c; mexec; eexists; (split; [reflexivity|]).
  - split; [|split; reflexivity].
    frame_tac. rewrite live_lookup.
    destruct (sk !! RedisService.ttlKey u) as [m|] eqn:Hm;
      destruct (ak !! u) as [a|] eqn:Ha; mexec; reflexivity.
  - split; [apply frame_refl|split; reflexivity].
Qed.

Lemma getUserState_pure (uid : string) (w : World) :
  RedisService.getUserState uid w = (value (RedisService.getUserState uid w), w, []).
Proof. wcases w. destruct c; mexec; reflexivity. Qed.

Lemma getSessionMapping_pure (sid : string) (w : World) :
  RedisService.getSessionMapping sid w = (sessionKeys (redis w) !! sid ≫= λ m,
                                          if isConnected (redis w) then Some m else None,
                                          w, []).
Proof. wcases w. destruct c; mexec; destruct (sk !! sid); reflexivity. Qed.

Lemma getHandoffState_pure (uid : string) (w : World) :
  RedisService.getHandoffState uid w
    = (value (RedisService.getHandoffState uid w), w, []).
Proof. wcases w. destruct c; mexec; reflexivity. Qed.

End Running.

Ltac xbind E := rewrite (bindX_eq _ _ _ _ _ _ E); cbv beta iota zeta.

Section SendToHuman.

Variables (sessionId message : string) (persistentUserId : option string).

(** The connection [sendToHuman] finds: the visitor's own, else the one
    of the visitor the session is mapped to. *)
Lemma sendToHuman_spec (post : SlackService.ThreadPostReply) (w : World) :
  let byMapping :=
    match Js.truthy (value (RedisService.getSessionMapping sessionId w)) with
    | Some uid => connectionOf uid w
    | None => None
    end in
  let found :=
    match Js.truthy persistentUserId with
    | Some uid =>
        match connectionOf uid w with
        | Some a => Some a
        | None => byMapping
        end
    | None => byMapping
    end in
  ∃ w1, frame w w1 ∧ sessions w1 = sessions w ∧
        sessionStateKeys (redis w1) = sessionStateKeys (redis w) ∧
        SlackService.sendToHuman sessionId message persistentUserId post w
        = match found with
          | None =>
              (SlackService.mkReply "error" (Some SlackService.noAgentMessage) None, w1, [])
          | Some a =>
              match post with
              | SlackService.Posted =>
                  (SlackService.mkReply "sent_to_human" None None,
                   match Js.truthy persistentUserId with
                   | Some uid =>
                       withSlack (SlackService.setUserInactivityTimeouts
                                    (λ s, (s ∖ {[uid]}) ∪ {[uid]})) w1
                   | None => w1
                   end,
                   [ThreadPost (ActiveSession.threadTs a) (CustomerMessage message)])
              | SlackService.ThreadGone =>
                  (SlackService.mkReply "thread_deleted"
                     (Some "Session cleaned up - please continue with AI assistant"%string)
                     None,
                   world (SlackService.forceEndSession sessionId w1),
                   Plain (ConsoleError "Error sending message to Slack:")
                   :: map Plain (events (SlackService.forceEndSession sessionId w1)))
              | SlackService.PostFailed =>
                  (SlackService.mkReply "error"
                     (Some "Failed to send message to human agent"%string) None,
                   w1, [Plain (ConsoleError "Error sending message to Slack:")])
              end
          end.
Proof.
  cbv zeta.
  destruct (getAllActiveSessions_spec w) as (w1 & E1 & F1 & S1 & K1).
  unfold SlackService.sendToHuman.
  xbind (lift_eq _ _ _ _ _ E1).
  (* the look-up by visitor *)
  assert (Hby : ∃ w2, frame w w2 ∧ sessions w2 = sessions w ∧
                  sessionStateKeys (redis w2) = sessionStateKeys (redis w) ∧
                  bindX (match Js.truthy persistentUserId with
                         | Some uid => bindX (lift (RedisService.getUserState uid))
                                         (λ _, retX tt)
                         | None => retX tt
                         end)
                    (λ _, match Js.truthy persistentUserId with
                          | Some uid => lift (RedisService.getActiveSession uid)
                          | None => retX None
                          end) w1
                  = (match Js.truthy persistentUserId with
                     | Some uid => connectionOf uid w
                     | None => None
                     end, w2, [])).
  { destruct (Js.truthy persistentUserId) as [uid|].
    - destruct (getActiveSession_spec uid w1) as (w2 & E2 & F2 & S2 & K2 & _).
      rewrite (frame_connection _ _ F1) in E2.
      exists w2. split; [eauto using frame_trans|]. split; [congruence|].
      split; [congruence|].
      assert (Eu : bindX (lift (RedisService.getUserState uid)) (λ _, retX tt) w1
                   = (tt, w1, [])).
      { unfold bindX. by rewrite (lift_eq _ _ _ _ _ (getUserState_pure uid w1)). }
      xbind Eu. by rewrite (lift_eq _ _ _ _ _ E2).
    - exists w1. done. }
  destruct Hby as (w2 & F2 & S2 & K2 & E2).
  (* the look-up by session *)
  assert (Hmap : ∃ w3, frame w w3 ∧ sessions w3 = sessions w ∧
                   sessionStateKeys (redis w3) = sessionStateKeys (redis w) ∧
                   bindX (lift (RedisService.getSessionMapping sessionId))
                     (λ mappedUserId,
                        match Js.truthy mappedUserId with
                        | Some uid => lift (RedisService.getActiveSession uid)
                        | None => retX None
                        end) w2
                   = (match Js.truthy (value (RedisService.getSessionMapping sessionId w)) with
                      | Some uid => connectionOf uid w
                      | None => None
                      end, w3, [])).
  { rewrite (getSessionMapping_pure sessionId w). cbn [value fst].
    xbind (lift_eq _ _ _ _ _ (getSessionMapping_pure sessionId w2)).
    rewrite (frame_sessionKeys _ _ F2), (frame_connected _ _ F2).
    match goal with
    | |- context [Js.truthy (?x ≫= ?f)] => destruct (Js.truthy (x ≫= f)) as [uid|]
    end.
    - destruct (getActiveSession_spec uid w2) as (w3 & E3 & F3 & S3 & K3 & _).
      rewrite (frame_connection _ _ F2) in E3.
      exists w3. split; [eauto using frame_trans|]. split; [congruence|].
      split; [congruence|]. cbv beta iota zeta. by rewrite (lift_eq _ _ _ _ _ E3).
    - exists w2. done. }
  destruct Hmap as (w3 & F3 & S3 & K3 & E3).
  assert (Hsame : ∀ uid a, Js.truthy persistentUserId = Some uid →
                           connectionOf uid w = Some a → w2 = w1).
  { intros uid a Ht Ha. revert E2. rewrite Ht.
    destruct (getActiveSession_spec uid w1) as (w2' & E2' & _ & _ & _ & Same).
    rewrite (frame_connection _ _ F1), Ha in E2', Same.
    specialize (Same (ex_intro _ a eq_refl)). subst w2'.
    assert (Eu : bindX (lift (RedisService.getUserState uid)) (λ _, retX tt) w1
                 = (tt, w1, [])).
    { unfold bindX. by rewrite (lift_eq _ _ _ _ _ (getUserState_pure uid w1)). }
    xbind Eu. rewrite (lift_eq _ _ _ _ _ E2'). cbn. intros H. congruence. }
  rewrite seq_assocX. xbind E2.
  set (tail := λ (w' : World) (a : ActiveSession.t),
         match post with
         | SlackService.Posted =>
             (SlackService.mkReply "sent_to_human" None None,
              match Js.truthy persistentUserId with
              | Some uid =>
                  withSlack (SlackService.setUserInactivityTimeouts
                               (λ s, (s ∖ {[uid]}) ∪ {[uid]})) w'
              | None => w'
              end,
              [ThreadPost (ActiveSession.threadTs a) (CustomerMessage message)])
         | SlackService.ThreadGone =>
             (SlackService.mkReply "thread_deleted"
                (Some "Session cleaned up - please continue with AI assistant"%string)
                None,
              world (SlackService.forceEndSession sessionId w'),
              Plain (ConsoleError "Error sending message to Slack:")
              :: map Plain (events (SlackService.forceEndSession sessionId w')))
         | SlackService.PostFailed =>
             (SlackService.mkReply "error"
                (Some "Failed to send message to human agent"%string) None,
              w', [Plain (ConsoleError "Error sending message to Slack:")])
         end).
  assert (Htail : ∀ w' a,
            match post with
            | SlackService.Posted =>
                bindX (emitX (ThreadPost (ActiveSession.threadTs a) (CustomerMessage message)))
                  (λ _, bindX (match Js.truthy persistentUserId with
                               | Some uid => lift (SlackService.setUserInactivityTimeout uid)
                               | None => retX tt
                               end)
                          (λ _, retX (SlackService.mkReply "sent_to_human" None None)))
            | SlackService.ThreadGone =>
                bindX (emitX (Plain (ConsoleError "Error sending message to Slack:")))
                  (λ _, bindX (lift (SlackService.forceEndSession sessionId))
                          (λ _, retX (SlackService.mkReply "thread_deleted"
                                        (Some "Session cleaned up - please continue with AI assistant"%string)
                                        None)))
            | SlackService.PostFailed =>
                bindX (emitX (Plain (ConsoleError "Error sending message to Slack:")))
                  (λ _, retX (SlackService.mkReply "error"
                                (Some "Failed to send message to human agent"%string) None))
            end w' = tail w' a).
  { intros w' a. unfold tail. destruct post.
    - destruct (Js.truthy persistentUserId); reflexivity.
    - unfold bindX, emitX, lift, retX.
      destruct (SlackService.forceEndSession sessionId w') as [[v w4] t4].
      cbn. by rewrite app_nil_r.
    - reflexivity. }
  destruct (Js.truthy persistentUserId) as [uid|] eqn:Ht.
  - destruct (connectionOf uid w) as [a|] eqn:Ha.
    + rewrite (Hsame uid a eq_refl Ha) in *.
      exists w1. split; [exact F1|]. split; [exact S1|]. split; [exact K1|].
      rewrite (bindX_eq _ _ _ w1 (Some a) [] eq_refl). cbv beta iota zeta.
      cbn [app]. rewrite Htail. subst tail. cbv beta. destruct post; reflexivity.
    + exists w3. split; [exact F3|]. split; [exact S3|]. split; [exact K3|].
      xbind E3. cbn [app].
      destruct (match Js.truthy (value (RedisService.getSessionMapping sessionId w)) with
                | Some uid0 => connectionOf uid0 w
                | None => None
                end) as [a|]; [|reflexivity].
      rewrite Htail. subst tail. cbv beta. destruct post; reflexivity.
  - exists w3. split; [exact F3|]. split; [exact S3|]. split; [exact K3|].
    xbind E3. cbn [app].
    destruct (match Js.truthy (value (RedisService.getSessionMapping sessionId w)) with
              | Some uid0 => connectionOf uid0 w
              | None => None
              end) as [a|]; [|reflexivity].
    rewrite Htail. subst tail. cbv beta. destruct post; reflexivity.
Qed.

End SendToHuman.

Section ForceEnd.

Variable (sessionId : string).

Lemma forceEndSession_cleaned (uid : string) (w : World) :
  isConnected (redis w) = true →
  Js.truthy (sessionKeys (redis w) !! sessionId) = Some uid →
  ∃ w', SlackService.forceEndSession sessionId w = (SlackService.Cleaned uid, w', []) ∧
        isConnected (redis w') = true ∧
        connectionOf uid w' = None ∧
        (∀ other, other ≠ uid → connectionOf other w' = connectionOf other w) ∧
        userKeys (redis w') = delete uid (userKeys (redis w)) ∧
        handoffKeys (redis w') = delete uid (handoffKeys (redis w)) ∧
        timerKeys (redis w') = timerKeys (redis w) ∧
        handoffTimeouts (slack w') = delete uid (handoffTimeouts (slack w)) ∧
        userInactivityTimeouts (slack w') = userInactivityTimeouts (slack w) ∖ {[uid]} ∧
        sessionDurationIntervals (slack w')
          = delete uid (sessionDurationIntervals (slack w)) ∧
        sessions w' = sessions w ∧
        sessionStateKeys (redis w') = sessionStateKeys (redis w) ∧
        io w' = io w.
Proof.
  intros Hc Hm. wcases w. cbn in Hc, Hm. subst c.
  xexec. eexists. split; [reflexivity|].
  split; [reflexivity|].
  split. { unfold connectionOf. mexec. reflexivity. }
  split.
  { intros other Hne.
    assert (RedisService.ttlKey other ≠ RedisService.ttlKey uid)
      by (intros E; apply ttlKey_inj in E; done).
    unfold connectionOf. lookup_cases; reflexivity. }
  repeat split; reflexivity.
Qed.

Lemma forceEndSession_not_found (w : World) :
  isConnected (redis w) = false ∨ Js.truthy (sessionKeys (redis w) !! sessionId) = None →
  SlackService.forceEndSession sessionId w = (SlackService.NotFound, w, []).
Proof.
  intros H. wcases w. cbn in H. destruct c; xexec.
  - destruct H as [H|H]; [done|]. rewrite H. reflexivity.
  - reflexivity.
Qed.

End ForceEnd.

(** X15. A message for an agent when no agent is connected: if neither
    the visitor nor the visitor the session is mapped to has a live
    connection, [sendToHuman] answers "error", posts nothing to Slack, arms no
    timer and keeps every stored record. *)
Theorem message_without_agent_is_refused
    (sessionId message : string) (persistentUserId : option string)
    (post : SlackService.ThreadPostReply) (w : World) :
  (∀ uid, Js.truthy persistentUserId = Some uid →
          value (RedisService.getActiveSession uid w) = None) →
  (∀ uid, Js.truthy (value (RedisService.getSessionMapping sessionId w)) = Some uid →
          value (RedisService.getActiveSession uid w) = None) →
  let r := SlackService.sendToHuman sessionId message persistentUserId post w in
  answer r = SlackService.mkReply "error" (Some SlackService.noAgentMessage) None ∧
  effects r = [] ∧
  slack (after r) = slack w ∧
  sessions (after r) = sessions w ∧
  sessionStateKeys (redis (after r)) = sessionStateKeys (redis w) ∧
  userKeys (redis (after r)) = userKeys (redis w) ∧
  handoffKeys (redis (after r)) = handoffKeys (redis w) ∧
  ∀ uid, value (RedisService.getActiveSession uid (after r))
         = value (RedisService.getActiveSession uid w).
Proof.
  intros Hu Hm. cbv zeta.
  destruct (sendToHuman_spec sessionId message persistentUserId post w)
    as (w1 & F1 & S1 & K1 & E1).
  rewrite E1. clear E1.
  assert (Hnone : match Js.truthy persistentUserId with
                  | Some uid =>
                      match connectionOf uid w with
                      | Some a => Some a
                      | None =>
                          match Js.truthy (value (RedisService.getSessionMapping sessionId w)) with
                          | Some uid0 => connectionOf uid0 w
                          | None => None
                          end
                      end
                  | None =>
                      match Js.truthy (value (RedisService.getSessionMapping sessionId w)) with
                      | Some uid0 => connectionOf uid0 w
                      | None => None
                      end
                  end = None).
  { assert (Hmap : match Js.truthy (value (RedisService.getSessionMapping sessionId w)) with
                   | Some uid0 => connectionOf uid0 w
                   | None => None
                   end = None).
    { destruct (Js.truthy (value (RedisService.getSessionMapping sessionId w)))
        as [m|] eqn:Hmm; [|reflexivity].
      exact (Hm m eq_refl). }
    destruct (Js.truthy persistentUserId) as [uid|]; [|exact Hmap].
    unfold connectionOf at 1. rewrite (Hu uid eq_refl). exact Hmap. }
  rewrite Hnone. cbn [answer after effects fst snd].
  destruct F1 as [Fc Fu Fs Fh Ft Fl Fi Fn].
  split; [reflexivity|]. split; [reflexivity|]. split; [exact Fl|].
  split; [exact S1|]. split; [exact K1|]. split; [exact Fu|]. split; [exact Fh|].
  intros uid. apply Fn.
Qed.

Lemma message_without_agent_is_refused_witness :
  value (RedisService.getActiveSession "u1" Scenario.waiting) = None ∧
  answer (SlackService.sendToHuman "s1" "hello?" (Some "u1"%string) SlackService.Posted
            Scenario.waiting)
    = SlackService.mkReply "error" (Some SlackService.noAgentMessage) None.
Proof.
  split; [vm_compute; reflexivity|].
  refine (proj1 (message_without_agent_is_refused "s1"%string "hello?"%string
                   (Some "u1"%string) SlackService.Posted Scenario.waiting _ _)).
  - intros uid [= <-]. vm_compute. reflexivity.
  - intros uid H. vm_compute in H. injection H as <-. vm_compute. reflexivity.
Defined.

(** X16. A message of a visitor with a live connection goes to the agent
    and not to the AI: [sendToHuman] posts it into the thread of the
    connection, answers "sent_to_human", re-arms the visitor's inactivity
    timer and leaves the connection in place; Route 1 of the controller
    answers with that result and goes no further. *)
Theorem message_reaches_the_agents_thread
    (sessionId message : string) (persistentUserId : option string) (uid : string)
    (a : ActiveSession.t) (userToHuman : bool) (w : World) :
  Js.truthy persistentUserId = Some uid →
  value (RedisService.getActiveSession uid w) = Some a →
  let r := SlackService.sendToHuman sessionId message persistentUserId
             SlackService.Posted w in
  answer r = SlackService.mkReply "sent_to_human" None None ∧
  effects r = [ThreadPost (ActiveSession.threadTs a) (CustomerMessage message)] ∧
  uid ∈ userInactivityTimeouts (slack (after r)) ∧
  value (RedisService.getActiveSession uid (after r)) = Some a ∧
  sessions (after r) = sessions w ∧
  sessionStateKeys (redis (after r)) = sessionStateKeys (redis w) ∧
  answer (ChatController.humanRoute sessionId message persistentUserId userToHuman
            SlackService.Posted w)
    = Some (SlackService.mkReply "sent_to_human" None None).
Proof.
  intros Ht Ha. cbv zeta. fold (connectionOf uid w) in Ha.
  destruct (sendToHuman_spec sessionId message persistentUserId SlackService.Posted w)
    as (w1 & F1 & S1 & K1 & E1).
  rewrite Ht, Ha in E1.
  split; [by rewrite E1|]. split; [by rewrite E1|].
  split. { rewrite E1. cbn. apply elem_of_union. right. by apply elem_of_singleton. }
  split. { rewrite E1. cbn [after fst snd]. fold (connectionOf uid (withSlack
             (SlackService.setUserInactivityTimeouts (λ s, s ∖ {[uid]} ∪ {[uid]})) w1)).
           rewrite (connectionOf_ext uid w1) by reflexivity.
           by rewrite (frame_connection _ _ F1). }
  split; [by rewrite E1|]. split; [by rewrite E1|].
  unfold ChatController.humanRoute. rewrite Ht.
  destruct (getActiveSession_spec uid w) as (w0 & E0 & _ & _ & _ & Same).
  rewrite Ha in E0, Same. specialize (Same (ex_intro _ a eq_refl)). subst w0.
  assert (Ei : lift (SlackService.isSessionActiveForUser uid) w = (true, w, [])).
  { apply (lift_eq _ w w true []). unfold SlackService.isSessionActiveForUser.
    by rewrite (bind_eq _ _ _ _ _ _ E0). }
  xbind Ei. rewrite orb_true_r. xbind E1. reflexivity.
Qed.

Lemma message_reaches_the_agents_thread_witness :
  effects (SlackService.sendToHuman "s1" "hello?" (Some "u1"%string) SlackService.Posted
             Scenario.connected)
    = [ThreadPost "1700.0001" (CustomerMessage "hello?")].
Proof.
  refine (proj1 (proj2 (message_reaches_the_agents_thread "s1"%string "hello?"%string
                          (Some "u1"%string) "u1"%string
                          (ActiveSession.mk "A1" "alice" "1700.0001" "1700.0001"
                             Scenario.handoffInstant "u1" "s1")
                          true Scenario.connected eq_refl _))).
  vm_compute. reflexivity.
Defined.

(** X17. When the agent's thread has been deleted, [sendToHuman] answers
    "thread_deleted" and cleans up through the mapping of the session: the
    connection, the user hash and any pending request of the mapped visitor
    are removed and the visitor's timers cleared, and Route 1 lets the
    message go on to the AI.  If the session has no mapping, the answer is
    the same but nothing is cleaned and the connection stays. *)
Theorem deleted_thread_ends_the_connection
    (sessionId message : string) (persistentUserId : option string) (uid : string)
    (a : ActiveSession.t) (userToHuman : bool) (w : World) :
  Js.truthy persistentUserId = Some uid →
  value (RedisService.getActiveSession uid w) = Some a →
  let r := SlackService.sendToHuman sessionId message persistentUserId
             SlackService.ThreadGone w in
  SlackService.status (answer r) = "thread_deleted"%string ∧
  effects r = [Plain (ConsoleError "Error sending message to Slack:")] ∧
  answer (ChatController.humanRoute sessionId message persistentUserId userToHuman
            SlackService.ThreadGone w) = None ∧
  (Js.truthy (value (RedisService.getSessionMapping sessionId w)) = Some uid →
   value (RedisService.getActiveSession uid (after r)) = None ∧
   value (RedisService.getUserState uid (after r)) = None ∧
   value (RedisService.getHandoffState uid (after r)) = None ∧
   (uid ∉ userInactivityTimeouts (slack (after r))) ∧
   handoffTimeouts (slack (after r)) !! uid = None) ∧
  (Js.truthy (value (RedisService.getSessionMapping sessionId w)) = None →
   value (RedisService.getActiveSession uid (after r)) = Some a).
Proof.
  intros Ht Ha. cbv zeta. fold (connectionOf uid w) in Ha.
  pose proof Ha as (Hc & _)%connectionOf_Some.
  destruct (sendToHuman_spec sessionId message persistentUserId SlackService.ThreadGone w)
    as (w1 & F1 & S1 & K1 & E1).
  rewrite Ht, Ha in E1.
  assert (Hc1 : isConnected (redis w1) = true) by (by rewrite (frame_connected _ _ F1)).
  assert (Hmap : value (RedisService.getSessionMapping sessionId w)
                 = sessionKeys (redis w1) !! sessionId).
  { rewrite getSessionMapping_pure, Hc, (frame_sessionKeys _ _ F1). cbn.
    by destruct (sessionKeys (redis w) !! sessionId). }
  rewrite Hmap.
  assert (Hev : events (SlackService.forceEndSession sessionId w1) = []).
  { destruct (Js.truthy (sessionKeys (redis w1) !! sessionId)) as [m|] eqn:Hm.
    - destruct (forceEndSession_cleaned sessionId m w1 Hc1 Hm) as (w2 & -> & _). done.
    - by rewrite forceEndSession_not_found by (by right). }
  split; [by rewrite E1|]. split; [by rewrite E1, Hev|]. split.
  { unfold ChatController.humanRoute. rewrite Ht.
    destruct (getActiveSession_spec uid w) as (w0 & E0 & _ & _ & _ & Same).
    rewrite Ha in E0, Same. specialize (Same (ex_intro _ a eq_refl)). subst w0.
    assert (Ei : lift (SlackService.isSessionActiveForUser uid) w = (true, w, [])).
    { apply (lift_eq _ w w true []). unfold SlackService.isSessionActiveForUser.
      by rewrite (bind_eq _ _ _ _ _ _ E0). }
    xbind Ei. rewrite orb_true_r. xbind E1. reflexivity. }
  split.
  - intros Hm.
    destruct (forceEndSession_cleaned sessionId uid w1 Hc1 Hm)
      as (w2 & E2 & Hc2 & Hn2 & _ & Hu2 & Hh2 & _ & Ht2 & Hi2 & _).
    rewrite E1, E2. cbn [after world fst snd].
    split; [exact Hn2|].
    split. { revert Hc2 Hu2. wcases w2. cbn. intros -> ->. mexec. reflexivity. }
    split. { revert Hc2 Hh2. wcases w2. cbn. intros -> ->. mexec. reflexivity. }
    split. { rewrite Hi2. apply not_elem_of_difference. right. by apply elem_of_singleton. }
    rewrite Ht2. apply lookup_delete_eq.
  - intros Hm. rewrite E1, forceEndSession_not_found by (by right).
    cbn [after world fst snd]. fold (connectionOf uid w1).
    by rewrite (frame_connection _ _ F1).
Qed.

Lemma deleted_thread_ends_the_connection_witness :
  value (RedisService.getSessionMapping "s1" Scenario.connected) = Some "u1"%string ∧
  value (RedisService.getActiveSession "u1"
           (after (SlackService.sendToHuman "s1" "hello?" (Some "u1"%string)
                     SlackService.ThreadGone Scenario.connected))) = None.
Proof.
  split; [vm_compute; reflexivity|].
  destruct (deleted_thread_ends_the_connection "s1"%string "hello?"%string
              (Some "u1"%string) "u1"%string
              (ActiveSession.mk "A1" "alice" "1700.0001" "1700.0001"
                 Scenario.handoffInstant "u1" "s1")
              true Scenario.connected eq_refl) as (_ & _ & _ & Clean & _).
  - vm_compute. reflexivity.
  - apply Clean. vm_compute. reflexivity.
Defined.

(** X18. The inactivity timer re-reads the connection when it fires: for
    a visitor for whom no connection is read at that moment (none was ever
    stored under that id, or the record is gone) the firing posts nothing,
    notifies nobody and changes no stored record; it only forgets the
    timer.  Such a timer exists: [sendToHuman] arms the timer of the
    persistent id it is given, also when the connection was found through
    the session mapping and belongs to another id. *)
Theorem idle_timer_without_connection_does_nothing (now : Z) (uid : string) (w : World) :
  value (RedisService.getActiveSession uid w) = None →
  let r := SlackService.fireUserInactivityTimeout now uid w in
  effects r = [] ∧
  userInactivityTimeouts (slack (after r)) = userInactivityTimeouts (slack w) ∖ {[uid]} ∧
  handoffTimeouts (slack (after r)) = handoffTimeouts (slack w) ∧
  cachedSummaries (slack (after r)) = cachedSummaries (slack w) ∧
  sessions (after r) = sessions w ∧
  sessionStateKeys (redis (after r)) = sessionStateKeys (redis w) ∧
  userKeys (redis (after r)) = userKeys (redis w) ∧
  handoffKeys (redis (after r)) = handoffKeys (redis w) ∧
  ∀ other, value (RedisService.getActiveSession other (after r))
           = value (RedisService.getActiveSession other w).
Proof.
  intros Hnone. cbv zeta. fold (connectionOf uid w) in Hnone.
  destruct (getActiveSession_spec uid w) as (w1 & E1 & F1 & S1 & K1 & _).
  rewrite Hnone in E1.
  unfold SlackService.fireUserInactivityTimeout.
  rewrite (bindX_eq _ _ _ w _ [] eq_refl). cbv beta iota zeta.
  destruct F1 as [Fc Fu Fs Fh Ft Fl Fi Fn].
  destruct (bool_decide (uid ∈ userInactivityTimeouts (slack w))) eqn:Harmed.
  - unfold SlackService.userInactivityCallback.
    xbind (lift_eq _ _ _ _ _ E1). cbn [map app].
    rewrite (bindX_eq _ _ _ w1 tt [] eq_refl). cbv beta iota zeta.
    cbn [lift modify answer after effects fst snd map app withSlack slack sessions redis
         SlackService.setUserInactivityTimeouts userInactivityTimeouts handoffTimeouts
         cachedSummaries].
    rewrite Fl. repeat split; try done.
    intros other. fold (connectionOf other w).
    rewrite <- (Fn other). by apply connectionOf_ext.
  - cbn [retX answer after effects fst snd].
    apply bool_decide_eq_false in Harmed.
    repeat split; try done.
    apply set_eq. intros x. rewrite elem_of_difference, elem_of_singleton.
    split; [|by intros [? _]]. intros Hx. split; [done|]. by intros ->.
Qed.

Lemma idle_timer_without_connection_does_nothing_witness :
  let w := after (SlackService.sendToHuman "s1" "hello" (Some "u2"%string)
                    SlackService.Posted Scenario.connected) in
  let r := SlackService.fireUserInactivityTimeout 1700000900000 "u2" w in
  "u2"%string ∈ userInactivityTimeouts (slack w) ∧
  value (RedisService.getActiveSession "u2" w) = None ∧
  effects r = [] ∧
  ("u2"%string ∉ userInactivityTimeouts (slack (after r))) ∧
  value (RedisService.getActiveSession "u1" (after r))
    = Some (ActiveSession.mk "A1" "alice" "1700.0001" "1700.0001"
              Scenario.handoffInstant "u1" "s1").
Proof.
  cbv zeta.
  set (w := after (SlackService.sendToHuman "s1" "hello" (Some "u2"%string)
                     SlackService.Posted Scenario.connected)).
  assert (A : "u2"%string ∈ userInactivityTimeouts (slack w)).
  { apply (bool_decide_unpack _). vm_compute. exact I. }
  assert (H : value (RedisService.getActiveSession "u2" w) = None)
    by (vm_compute; reflexivity).
  destruct (idle_timer_without_connection_does_nothing 1700000900000%Z "u2"%string w H)
    as (E & T & _ & _ & _ & _ & _ & _ & O).
  split; [exact A|]. split; [exact H|]. split; [exact E|].
  split.
  - rewrite T. apply not_elem_of_difference. right. by apply elem_of_singleton.
  - rewrite (O "u1"%string). vm_compute. reflexivity.
Defined.

(** X19. The inactivity timer of a connected visitor: when it fires, the
    Slack message of the conversation is marked as ended with the duration
    of the connection, the agent's thread and the visitor are told, and the
    connection, the user hash and the timers of the visitor are removed
    through the mapping of the visitor's current session.  The session
    records are not written: the visitor reads the state the record holds. *)
Theorem idle_timer_ends_the_connection
    (now : Z) (uid current : string) (a : ActiveSession.t) (w : World) :
  uid ∈ userInactivityTimeouts (slack w) →
  value (RedisService.getActiveSession uid w) = Some a →
  Js.truthy (value (RedisService.getUserState uid w) ≫= UserState.currentSessionId)
    = Some current →
  Js.truthy (value (RedisService.getSessionMapping current w)) = Some uid →
  let r := SlackService.fireUserInactivityTimeout now uid w in
  let room := ActiveSession.currentSessionId a in
  effects r =
    [MessageUpdate
       (SlackService.orElse (ActiveSession.originalMessageTs a) (ActiveSession.threadTs a))
       (InactivityEnded room
          (SlackService.formatDuration ((now - ActiveSession.connectedAt a) / 1000))
          (ActiveSession.agentName a));
     ThreadPost (ActiveSession.threadTs a) InactivityThreadNote]
    ++ (if io w && Js.present (Js.truthy (Some room))
        then [Plain (Emit room "agent_disconnected")] else [])
    ++ [Plain (DbLog "logUserInactivityTimeout" uid)] ∧
  value (RedisService.getActiveSession uid (after r)) = None ∧
  value (RedisService.getUserState uid (after r)) = None ∧
  (uid ∉ userInactivityTimeouts (slack (after r))) ∧
  sessions (after r) = sessions w ∧
  sessionStateKeys (redis (after r)) = sessionStateKeys (redis w).
Proof.
  intros Harmed Ha Hcur Hmap. cbv zeta. fold (connectionOf uid w) in Ha.
  pose proof Ha as (Hc & [v Httl] & Hak)%connectionOf_Some.
  assert (Hb : bool_decide (uid ∈ userInactivityTimeouts (slack w)) = true)
    by (by apply bool_decide_eq_true_2).
  clear Harmed. rename Hb into Harmed.
  revert Hcur Hmap Harmed. wcases w. cbn in Hc, Httl, Hak. subst c.
  mexec. intros Hcur Hmap Harmed.
  destruct (uk !! uid) as [h|] eqn:Hh; [|by cbn in Hcur].
  destruct (UserState.isEmpty h) eqn:He; [by cbn in Hcur|].
  cbn [mbind option_bind] in Hcur.
  destruct (sk !! current) as [m|] eqn:Hm; [|by cbn in Hmap].
  destruct (Js.truthy (Some (ActiveSession.currentSessionId a))) as [room|] eqn:Hroom;
    [pose proof Hroom as [Heq _]%truthy_Some; injection Heq as <-|].
  all: destruct i.
  all: repeat (progress (xexec; rewrite ?Harmed, ?He; cbn [mbind option_bind])).
  all:
    (split; [reflexivity|]);
    (split; [reflexivity|]);
    (split; [reflexivity|]);
    (split; [|split; reflexivity]);
    apply not_elem_of_difference; right; by apply elem_of_singleton.
Qed.

Lemma idle_timer_ends_the_connection_witness :
  let w := world (SlackService.setUserInactivityTimeout "u1" Scenario.connected) in
  "u1"%string ∈ userInactivityTimeouts (slack w) ∧
  value (RedisService.getActiveSession "u1"
           (after (SlackService.fireUserInactivityTimeout
                     (Scenario.handoffInstant + 600000) "u1" w))) = None ∧
  effects (SlackService.fireUserInactivityTimeout (Scenario.handoffInstant + 600000) "u1" w)
    = [MessageUpdate "1700.0001" (InactivityEnded "s1" "10m 0s" "alice");
       ThreadPost "1700.0001" InactivityThreadNote;
       Plain (Emit "s1" "agent_disconnected");
       Plain (DbLog "logUserInactivityTimeout" "u1")].
Proof.
  cbv zeta.
  assert (H : "u1"%string ∈ userInactivityTimeouts
                (slack (world (SlackService.setUserInactivityTimeout "u1" Scenario.connected)))).
  { apply (bool_decide_unpack _). vm_compute. exact I. }
  split; [exact H|].
  destruct (idle_timer_ends_the_connection (Scenario.handoffInstant + 600000) "u1"%string
              "s1"%string
              (ActiveSession.mk "A1" "alice" "1700.0001" "1700.0001"
                 Scenario.handoffInstant "u1" "s1")
              (world (SlackService.setUserInactivityTimeout "u1" Scenario.connected)) H)
    as (E & N & _); try (vm_compute; reflexivity).
  split; [exact N|]. rewrite E. vm_compute. reflexivity.
Defined.

(** X20. A visitor who comes back under a new session while a request is
    pending: [reconnectPersistentUser] silently moves the request, the user
    hash and the session mapping to the new session and leaves the timers
    running; an agent who then accepts the request is connected to the new
    session, which is the one that gets "agent_connected". *)
Theorem reconnection_moves_the_pending_request
    (uid newSessionId : string) (h : Handoff.t) (w : World) :
  isConnected (redis w) = true →
  handoffKeys (redis w) !! uid = Some h →
  activeSessions (redis w) !! uid = None →
  Js.truthy (Some uid) = Some uid →
  Js.truthy (Some newSessionId) = Some newSessionId →
  let r := SlackService.reconnectPersistentUser uid newSessionId w in
  value r = true ∧ events r = [] ∧
  value (RedisService.getHandoffState uid (world r))
    = Some (Handoff.mk newSessionId (Handoff.messageTs h) (Handoff.requestTime h)
              (Handoff.conversationHistory h) (Handoff.summary h)) ∧
  value (RedisService.getSessionMapping newSessionId (world r)) = Some uid ∧
  slack (world r) = slack w ∧
  ∀ (now : Z) (userId userName ts : string),
    let r2 := SlackService.handleAcceptButton now uid userId userName ts true (world r) in
    SlackService.status (value r2) = "accepted"%string ∧
    events r2 = [SlackUpdate ts (ChatAccepted userName newSessionId);
                 DbLog "logAgentConnection" newSessionId]
                ++ (if io w then [Emit newSessionId "agent_connected"] else []) ∧
    ActiveSession.currentSessionId <$> value (RedisService.getActiveSession uid (world r2))
      = Some newSessionId.
Proof.
  intros Hc Hh Ha Hu Hn. cbv zeta.
  assert (E : ∃ w', SlackService.reconnectPersistentUser uid newSessionId w = (true, w', []) ∧
                isConnected (redis w') = true ∧
                handoffKeys (redis w') = <[uid := Handoff.setSessionId newSessionId h]>
                                           (handoffKeys (redis w)) ∧
                sessionKeys (redis w') = <[newSessionId := uid]> (sessionKeys (redis w)) ∧
                userKeys (redis w') !! uid
                  = Some (UserState.setCurrentSessionId newSessionId
                            (default UserState.empty (userKeys (redis w) !! uid))) ∧
                activeSessions (redis w') !! uid = None ∧
                slack w' = slack w ∧ io w' = io w).
  { revert Hc Hh Ha. wcases w. cbn. intros -> Hh Ha. xexec.
    destruct (<[newSessionId:=uid]> sk !! RedisService.ttlKey uid); xexec;
      eexists; (split; [reflexivity|]); cbn; rewrite ?lookup_insert_eq; repeat split;
      try done; by rewrite lookup_delete_eq. }
  destruct E as (w' & -> & Hc' & Hh' & Hs' & Hu' & Ha' & Hl' & Hi').
  cbn [value world events fst snd].
  split; [reflexivity|]. split; [reflexivity|].
  split. { revert Hc' Hh'. wcases w'. cbn. intros -> ->. mexec. reflexivity. }
  split. { revert Hc' Hs'. wcases w'. cbn. intros -> ->. mexec. reflexivity. }
  split; [exact Hl'|].
  intros now userId userName ts.
  assert (Hres : value (SlackService.resolveIdentifier uid w') = (Some uid, newSessionId)).
  { revert Hc' Hu'. wcases w'. cbn. intros -> Hu'. mexec.
    cbn [UserState.isEmpty UserState.setCurrentSessionId mbind option_bind
         UserState.currentSessionId]. mexec. reflexivity. }
  assert (Hno : connectionOf uid w' = None).
  { apply connectionOf_None. right. right. exact Ha'. }
  destruct (handleAcceptButton_accepts now uid userId userName ts w' (Some uid) newSessionId
              uid newSessionId Hres Hu Hn Hno)
    as (w2 & E2 & _ & Hconn & _).
  rewrite E2. cbn [value world events fst snd SlackService.status acceptedReply].
  split; [reflexivity|]. split.
  - unfold acceptFinishEvents. rewrite Hi'. reflexivity.
  - fold (connectionOf uid w2). rewrite Hconn. reflexivity.
Qed.

Lemma reconnection_moves_the_pending_request_witness :
  handoffKeys (redis Scenario.waiting) !! "u1"%string
    = Some (Handoff.mk "s1" "1700.0001" 1000 [] None) ∧
  value (RedisService.getHandoffState "u1"
           (world (SlackService.reconnectPersistentUser "u1" "s2" Scenario.waiting)))
    = Some (Handoff.mk "s2" "1700.0001" 1000 [] None) ∧
  events (SlackService.handleAcceptButton 5000 "u1" "A1" "alice" "1700.0001" true
            (world (SlackService.reconnectPersistentUser "u1" "s2" Scenario.waiting)))
    = [SlackUpdate "1700.0001" (ChatAccepted "alice" "s2");
       DbLog "logAgentConnection" "s2"; Emit "s2" "agent_connected"].
Proof.
  assert (H1 : isConnected (redis Scenario.waiting) = true) by (vm_compute; reflexivity).
  assert (H2 : handoffKeys (redis Scenario.waiting) !! "u1"%string
                 = Some (Handoff.mk "s1" "1700.0001" 1000 [] None))
    by (vm_compute; reflexivity).
  assert (H3 : activeSessions (redis Scenario.waiting) !! "u1"%string = None)
    by (vm_compute; reflexivity).
  split; [exact H2|].
  pose proof (reconnection_moves_the_pending_request "u1"%string "s2"%string
                _ Scenario.waiting H1 H2 H3 eq_refl eq_refl) as (_ & _ & R & _ & _ & A).
  split; [exact R|].
  exact (proj1 (proj2 (A 5000%Z "A1"%string "alice"%string "1700.0001"%string))).
Defined.

(** X21. Reconnection of a visitor who talks to an agent: the live
    connection is moved to the new session with its agent and thread
    unchanged (the new session is mapped to the visitor unless its id is
    the visitor's own expiry key).  For a visitor with no pending request and no user hash
    saying that an agent is connected, there is nothing to reconnect: the
    call answers [false] and changes nothing. *)
Theorem reconnection_follows_the_live_connection
    (uid newSessionId : string) (w : World) :
  value (RedisService.getHandoffState uid w) = None →
  let r := SlackService.reconnectPersistentUser uid newSessionId w in
  let userState := value (RedisService.getUserState uid w) in
  events r = [] ∧
  (∀ a, value (RedisService.getActiveSession uid w) = Some a →
        userState ≫= UserState.agentConnected = Some "true"%string →
        value r = true ∧
        value (RedisService.getActiveSession uid (world r))
          = Some (ActiveSession.setCurrentSessionId newSessionId a) ∧
        (newSessionId ≠ RedisService.ttlKey uid →
         value (RedisService.getSessionMapping newSessionId (world r)) = Some uid)) ∧
  (userState ≫= UserState.agentConnected ≠ Some "true"%string →
   SlackService.reconnectPersistentUser uid newSessionId w = (false, w, [])).
Proof.
  intros Hh. cbv zeta.
  split; [|split].
  - revert Hh. wcases w. destruct c; xexec; [|done]. intros Hh. rewrite Hh.
    destruct (uk !! uid) as [u|]; xexec; [|done].
    destruct (UserState.isEmpty u); cbn [mbind option_bind]; [done|].
    destruct (UserState.agentConnected u) as [flag|]; [|done].
    destruct (String.eqb flag "true"); [|done].
    lookup_cases; try reflexivity.
    all: destruct (<[newSessionId:=uid]> sk !! RedisService.ttlKey uid); xexec;
      reflexivity.
  - intros a Ha Hflag. fold (connectionOf uid w) in Ha.
    pose proof Ha as (Hc & [v Httl] & Hak)%connectionOf_Some.
    revert Hh Hflag. wcases w. cbn in Hc, Httl, Hak. subst c. xexec. intros Hh Hflag.
    rewrite Hh. 
    destruct (uk !! uid) as [u|]; [|done].
    destruct (UserState.isEmpty u); cbn [mbind option_bind] in *; [done|].
    rewrite Hflag. xexec.
    assert (RedisService.ttlKey uid ≠ newSessionId ∨ RedisService.ttlKey uid = newSessionId)
      as [Hne | Heq] by (destruct (decide (RedisService.ttlKey uid = newSessionId)); auto).
    + rewrite !lookup_insert_ne by done. rewrite Httl. xexec. done.
    + rewrite Heq. xexec. done.
  - intros Hflag. revert Hh Hflag. wcases w. destruct c; xexec; [|done].
    intros Hh Hflag. rewrite Hh.
    destruct (uk !! uid) as [u|]; xexec; [|done].
    destruct (UserState.isEmpty u); cbn [mbind option_bind] in *; [done|].
    destruct (UserState.agentConnected u) as [flag|]; [|done].
    destruct (String.eqb_spec flag "true"); [congruence|done].
Qed.

Lemma reconnection_follows_the_live_connection_witness :
  value (RedisService.getHandoffState "u1" Scenario.connected) = None ∧
  ActiveSession.currentSessionId <$>
    value (RedisService.getActiveSession "u1"
             (world (SlackService.reconnectPersistentUser "u1" "s2" Scenario.connected)))
    = Some "s2"%string.
Proof.
  assert (H : value (RedisService.getHandoffState "u1" Scenario.connected) = None)
    by (vm_compute; reflexivity).
  split; [exact H|].
  destruct (reconnection_follows_the_live_connection "u1"%string "s2"%string
              Scenario.connected H) as (_ & Live & _).
  pose proof (Live (ActiveSession.mk "A1" "alice" "1700.0001" "1700.0001"
                      Scenario.handoffInstant "u1" "s1") eq_refl eq_refl) as (_ & E & _).
  rewrite E. reflexivity.
Defined.

(** ** Leaving, checking and declining *)

Section Leaving.

Lemma isSessionWaiting_pure (sid : string) (w : World) :
  SlackService.isSessionWaiting sid w = (value (SlackService.isSessionWaiting sid w), w, []).
Proof.
  unfold SlackService.isSessionWaiting.
  mbind (getSessionMapping_pure sid w).
  destruct (Js.truthy _) as [uid|]; [|reflexivity].
  mbind (getHandoffState_pure uid w). reflexivity.
Qed.

Lemma handleWaitingSessionDisconnect_spec (now : Z) (sid : string) (w : World) :
  ∃ w' t, SlackService.handleWaitingSessionDisconnect now sid w = (tt, w', t) ∧
          isConnected (redis w') = isConnected (redis w) ∧
          sessionKeys (redis w') = sessionKeys (redis w) ∧
          activeSessions (redis w') = activeSessions (redis w) ∧
          sessionStateKeys (redis w') = sessionStateKeys (redis w) ∧
          sessions w' = sessions w ∧
          handoffTimeouts (slack w') = handoffTimeouts (slack w) ∧
          (∀ uid, uid ≠ sid →
                  handoffKeys (redis w') !! uid = handoffKeys (redis w) !! uid).
Proof.
  unfold SlackService.handleWaitingSessionDisconnect.
  xbind (lift_eq _ _ _ _ _ (isSessionWaiting_pure sid w)).
  wcases w. xexec.
  destruct (ws !! sid) as [[[ts rt] p]|]; cbn [mbind option_bind snd];
    [destruct (Js.truthy p); [|destruct (Js.truthy (Some ts))]|]; destruct c; xexec;
    eexists _, _; (split; [reflexivity|]); repeat split; try done;
    intros uid Hne; cbn; by rewrite lookup_delete_ne.
Qed.

End Leaving.

(** X22. Closing the page does not end a conversation with an agent: when
    [isSessionActive] answers [true] for a session, which is the only case
    in which the socket's disconnect handler calls [disconnectSession],
    neither call changes the state or sends anything. *)
Theorem closing_the_page_keeps_the_connection (sid : string) (w : World) :
  value (SlackService.isSessionActive sid w) = true →
  SlackService.isSessionActive sid w = (true, w, []) ∧
  SlackService.disconnectSession sid w = (tt, w, []).
Proof.
  unfold SlackService.isSessionActive, SlackService.disconnectSession.
  mbind (getSessionMapping_pure sid w). mbind (getSessionMapping_pure sid w).
  destruct (Js.truthy _) as [uid|]; [|cbn; discriminate].
  destruct (getActiveSession_spec uid w) as (w' & E & _ & _ & _ & Hw). mbind E.
  cbn. intros H. split; [|reflexivity].
  destruct (connectionOf uid w) as [a|]; [|discriminate].
  by rewrite Hw.
Qed.

Lemma closing_the_page_keeps_the_connection_witness :
  value (SlackService.isSessionActive "s1" Scenario.connected) = true ∧
  SlackService.disconnectSession "s1" Scenario.connected = (tt, Scenario.connected, []).
Proof.
  assert (H : value (SlackService.isSessionActive "s1" Scenario.connected) = true)
    by (vm_compute; reflexivity).
  split; [exact H|].
  exact (proj2 (closing_the_page_keeps_the_connection "s1"%string Scenario.connected H)).
Defined.

(** X23. A visitor who leaves while waiting: [handleWaitingSessionDisconnect]
    leaves the handoff timer armed and the pending request of every other
    identifier in Redis, so the request of a visitor with a persistent id,
    which is filed under that id and not under the session id, survives and
    Slack is not told.  Only a waiting entry filed under the session id
    itself, without persistent user id, is reported to Slack as a
    disconnect and removed together with its request. *)
Theorem leaving_while_waiting_keeps_the_request (now : Z) (sid : string) (w : World) :
  let r := SlackService.handleWaitingSessionDisconnect now sid w in
  let entry := waitingSessions (slack w) !! sid in
  (∀ uid, uid ≠ sid →
          value (RedisService.getHandoffState uid (after r))
            = value (RedisService.getHandoffState uid w)) ∧
  handoffTimeouts (slack (after r)) = handoffTimeouts (slack w) ∧
  (entry = None → effects r = []) ∧
  (∀ ts requestTime uid, entry = Some (ts, requestTime, Some uid) →
                         Js.truthy (Some uid) = Some uid →
                         after r = w ∧ effects r = []) ∧
  (∀ ts requestTime, entry = Some (ts, requestTime, None) →
                     Js.truthy (Some ts) = Some ts →
     let waited := SlackService.formatDuration ((now - requestTime) / 1000) in
     effects r = [MessageUpdate ts (UserDisconnected sid waited);
                  ThreadPost ts (UserDisconnectedThreadNote waited)] ∧
     waitingSessions (slack (after r)) !! sid = None ∧
     value (RedisService.getHandoffState sid (after r)) = None).
Proof.
  cbv zeta.
  destruct (handleWaitingSessionDisconnect_spec now sid w)
    as (w' & t & E & Hc & _ & _ & _ & _ & Ht & Hh).
  split.
  { intros uid Hne. rewrite E. cbn [after fst snd]. specialize (Hh uid Hne).
    revert Hc Hh. clear. wcases w. wcases w'. cbn. intros -> Hh.
    destruct c; mexec; done. }
  split; [by rewrite E|]. clear E Hc Ht Hh w' t.
  unfold SlackService.handleWaitingSessionDisconnect.
  xbind (lift_eq _ _ _ _ _ (isSessionWaiting_pure sid w)).
  wcases w. xexec.
  split; [|split].
  - intros ->. destruct c; xexec; reflexivity.
  - intros ts rt uid -> Hu. cbn [mbind option_bind snd]. rewrite Hu. xexec. done.
  - intros ts rt -> Hts. cbn [mbind option_bind snd]. xexec. rewrite ?Hts.
    destruct c; xexec; (split; [reflexivity|]); (split; [apply lookup_delete_eq|]);
      [apply lookup_delete_eq|reflexivity].
Qed.

Section Checking.

Variables (sessionId : string) (persistentUserId : option string).

Lemma isSessionActiveForUser_spec (uid : string) (w : World) :
  ∃ w', SlackService.isSessionActiveForUser uid w
          = (Js.present (connectionOf uid w), w', []) ∧
        frame w w'.
Proof.
  unfold SlackService.isSessionActiveForUser.
  destruct (getActiveSession_spec uid w) as (w' & E & F & _). mbind E.
  by exists w'.
Qed.

Lemma isSessionActive_spec (w : World) :
  ∃ w', SlackService.isSessionActive sessionId w
          = (value (SlackService.isSessionActive sessionId w), w', []) ∧
        frame w w'.
Proof.
  unfold SlackService.isSessionActive.
  mbind (getSessionMapping_pure sessionId w).
  destruct (Js.truthy _) as [uid|];
    [|eexists; split; [reflexivity|apply frame_refl]].
  destruct (getActiveSession_spec uid w) as (w' & E & F & _). mbind E.
  by exists w'.
Qed.

End Checking.

(** X24. The page-refresh check never reports the agent's name.  It
    answers "specialist connected" only for a visitor without persistent
    id, and then with the placeholder name; for a visitor with a
    persistent id and a live connection the handler fails with the 500
    answer, because SlackService has no [getActiveSessionForUser].  A
    visitor with a pending request and no connection is told since when
    they wait. *)
Theorem session_check_never_names_the_agent
    (sessionId : string) (persistentUserId : option string) (w : World) :
  let r := ChatController.checkSessionState sessionId persistentUserId w in
  (∀ name, value r = Some (ChatController.SpecialistConnected name) →
           Js.truthy persistentUserId = None ∧ name = "Support Specialist"%string) ∧
  (∀ uid a, Js.truthy persistentUserId = Some uid → connectionOf uid w = Some a →
            value r = None) ∧
  (∀ uid h, Js.truthy persistentUserId = Some uid → connectionOf uid w = None →
            value (RedisService.getHandoffState uid w) = Some h →
            Handoff.requestTime h ≠ 0%Z →
            value r = Some (ChatController.WaitingForSpecialist (Handoff.requestTime h))).
Proof.
  cbv zeta. unfold ChatController.checkSessionState.
  destruct (Js.truthy persistentUserId) as [uid|] eqn:Hp.
  - destruct (isSessionActiveForUser_spec uid w) as (w1 & E1 & F1). mbind E1.
    assert (Hh : value (RedisService.getHandoffState uid w1)
                 = value (RedisService.getHandoffState uid w)).
    { destruct F1 as [Fc Fu Fs Fh Ft Fl Fi Fn]. clear - Fc Fh. wcases w. wcases w1.
      cbn in Fc, Fh. subst. destruct c; mexec; reflexivity. }
    split; [|split].
    + intros name. destruct (connectionOf uid w); cbn [Js.present].
      * mexec. discriminate.
      * mbind (getHandoffState_pure uid w1).
        destruct (value (RedisService.getHandoffState uid w1)) as [h|]; cbn;
          [destruct (Handoff.requestTime h =? 0)%Z|]; discriminate.
    + intros u a [= <-] ->. reflexivity.
    + intros u h [= <-] -> Hw Hne. cbn [Js.present].
      mbind (getHandoffState_pure uid w1). rewrite Hh, Hw. cbn.
      destruct (Z.eqb_spec (Handoff.requestTime h) 0); [done|reflexivity].
  - destruct (isSessionActive_spec sessionId w) as (w1 & E1 & F1). mbind E1.
    split; [|split]; [|intros ? ? [=]..].
    intros name. destruct (value (SlackService.isSessionActive sessionId w)); cbn;
      intros [= <-]; done.
Qed.

Section Declining.

Variables (sessionId : string) (persistentUserId : option string).

Lemma getSessionState_later (n : Z) (w : World) (s : Session.t) :
  recorded sessionId persistentUserId w s →
  value (SessionService.getSessionState n sessionId persistentUserId w)
    = if agentBound persistentUserId w then SessionState.HUMAN_CONNECTED
      else Session.state s.
Proof. intros R. by rewrite getSessionState_value, (R n). Qed.

End Declining.

(** X25. Declining the offer of a human: for a visitor who reads as
    SEEKING_HANDOFF the handler saves the record with LEAD_CAPTURE and
    answers with [leadCaptureMode] set; in every other state the decline is
    ignored and the answer carries no [leadCaptureMode].  The state is read
    back on the store as the handler leaves it, with any clock: LEAD_CAPTURE
    in the first case, the state read before in the second.  A read after
    the record is gone (Redis keeps it one hour after a write) is not
    covered. *)
Theorem decline_moves_to_lead_capture
    (now : Z) (sessionId : string) (persistentUserId : option string) (w : World) :
  let r := ChatController.declineRoute now sessionId persistentUserId w in
  let st := value (SessionService.getSessionState now sessionId persistentUserId w) in
  (st = SessionState.SEEKING_HANDOFF →
   answer r = (ChatController.declineAcknowledgment, Some true) ∧
   ∀ n, Session.state (value (SessionService.getSession n sessionId persistentUserId
                                (after r))) = SessionState.LEAD_CAPTURE ∧
        value (SessionService.getSessionState n sessionId persistentUserId (after r))
          = SessionState.LEAD_CAPTURE) ∧
  (st ≠ SessionState.SEEKING_HANDOFF →
   answer r = (ChatController.ignoredDeclineMessage, None) ∧
   ∀ n, value (SessionService.getSessionState n sessionId persistentUserId (after r)) = st).
Proof.
  cbv zeta. unfold ChatController.declineRoute.
  xbind (lift_eq _ _ _ _ _ (isSessionWaiting_pure sessionId w)).
  destruct (handleWaitingSessionDisconnect_spec now sessionId w)
    as (w1 & t1 & E1 & Hc1 & Hk1 & Ha1 & Hr1 & Hs1 & _). xbind E1.
  destruct (getSessionState_spec now sessionId persistentUserId w1) as (w2 & E2 & F2 & R2).
  xbind (lift_eq _ _ _ _ _ E2).
  rewrite getSessionState_value.
  pose proof (agentBound_ext' persistentUserId w w1 Hc1 Hk1 Ha1) as Hb1.
  pose proof (recordAt_ext' now sessionId persistentUserId w w1 Hc1 Hr1 Hs1) as Hq1.
  unfold afterStateRead in R2. rewrite Hb1, Hq1 in R2. rewrite Hb1, Hq1.
  assert (Hb2 : agentBound persistentUserId w2 = agentBound persistentUserId w).
  { by rewrite (frame_agentBound _ _ _ F2). }
  set (st := if agentBound persistentUserId w then SessionState.HUMAN_CONNECTED
             else Session.state (recordAt now sessionId persistentUserId w)) in *.
  destruct (String.eqb_spec st SessionState.SEEKING_HANDOFF) as [Hst|Hst]; cbn [negb].
  - split; [intros _|done].
    assert (Hb : agentBound persistentUserId w = false).
    { subst st. destruct (agentBound persistentUserId w); [discriminate|reflexivity]. }
    destruct (setSessionState_spec now sessionId persistentUserId SessionState.LEAD_CAPTURE w2)
      as (w3 & E3 & F3 & R3 & _).
    { unfold SessionState.values. set_solver. }
    unfold SessionService.markHumanHandoffDeclined.
    xbind (lift_eq _ _ _ _ _ E3).
    xexec. cbn [answer after fst snd]. split; [reflexivity|]. intros n.
    split.
    { change (Session.state (recordAt n sessionId persistentUserId w3)
              = SessionState.LEAD_CAPTURE). by rewrite (R3 n). }
    etrans; [exact (getSessionState_later _ _ n w3 _ R3)|].
    by rewrite (frame_agentBound _ _ _ F3), Hb2, Hb.
  - split; [done|intros _]. cbn. split; [reflexivity|]. intros n.
    etrans; [exact (getSessionState_later _ _ n w2 _ R2)|]. rewrite Hb2. subst st.
    destruct (agentBound persistentUserId w); reflexivity.
Qed.

Lemma decline_moves_to_lead_capture_witness :
  value (SessionService.getSessionState 2000 "s1" (Some "u1"%string) Scenario.chatting)
    = SessionState.SEEKING_HANDOFF ∧
  value (SessionService.getSessionState 3000 "s1" (Some "u1"%string)
           (after (ChatController.declineRoute 2000 "s1" (Some "u1"%string)
                     Scenario.chatting)))
    = SessionState.LEAD_CAPTURE ∧
  value (SessionService.getSessionState 2000 "s1" (Some "u1"%string) Scenario.connected)
    ≠ SessionState.SEEKING_HANDOFF ∧
  answer (ChatController.declineRoute 2000 "s1" (Some "u1"%string) Scenario.connected)
    = (ChatController.ignoredDeclineMessage, None).
Proof.
  assert (H1 : value (SessionService.getSessionState 2000 "s1" (Some "u1"%string)
                        Scenario.chatting) = SessionState.SEEKING_HANDOFF)
    by (vm_compute; reflexivity).
  assert (H2 : value (SessionService.getSessionState 2000 "s1" (Some "u1"%string)
                        Scenario.connected) ≠ SessionState.SEEKING_HANDOFF)
    by (vm_compute; discriminate).
  split; [exact H1|]. split.
  - exact (proj2 (proj2 (proj1 (decline_moves_to_lead_capture 2000 "s1"%string
                                  (Some "u1"%string) Scenario.chatting) H1) 3000%Z)).
  - split; [exact H2|].
    exact (proj1 (proj2 (decline_moves_to_lead_capture 2000 "s1"%string (Some "u1"%string)
                           Scenario.connected) H2)).
Defined.

(** ** The conversation memory *)

Section Memory.

Import MemoryService.

Lemma lastN_short {A} (n : nat) (l : list A) : (length l ≤ n)%nat → lastN n l = l.
Proof. intros H. unfold lastN. by replace (length l - n)%nat with 0%nat by lia. Qed.

Lemma lastN_length {A} (n : nat) (l : list A) : (length (lastN n l) ≤ n)%nat.
Proof. unfold lastN. rewrite length_drop. lia. Qed.

Lemma lastN_app {A} (n : nat) (l tail : list A) :
  (length tail ≤ n)%nat → lastN (length tail) (lastN n (l ++ tail)) = tail.
Proof.
  intros H. unfold lastN. rewrite drop_drop, length_drop, length_app.
  replace (length l + length tail - n + (length l + length tail - (length l + length tail - n)
                                         - length tail))%nat
    with (length l) by lia.
  by rewrite drop_app_length.
Qed.

(** What [addMessage] stores: the [if] around [slice] changes nothing. *)
Lemma window_eq {A} (n : nat) (l : list A) :
  (if (n <? length l)%nat then lastN n l else l) = lastN n l.
Proof.
  destruct (Nat.ltb_spec n (length l)); [reflexivity|]. symmetry. apply lastN_short. lia.
Qed.

Lemma alternates_pairs (l : list Message) :
  alternates l = true →
  ∃ n, length l = (2 * n)%nat ∧ ∀ k, alternates (drop (2 * k) l) = true.
Proof.
  remember (length l) as len eqn:Hlen. revert l Hlen.
  induction (lt_wf len) as [len _ IH]. intros l -> H.
  destruct l as [|u [|a rest]]; [|discriminate|].
  - exists 0%nat. split; [reflexivity|]. intros k. by rewrite drop_nil.
  - cbn [alternates] in H. apply andb_prop in H as [Hua Hrest].
    destruct (IH (length rest)) with (l := rest) as (n & Hn & Hd);
      [cbn; lia|reflexivity|exact Hrest|].
    exists (S n). split; [cbn; lia|].
    intros [|k].
    + change (alternates (u :: a :: rest) = true). cbn [alternates].
      by rewrite Hua, Hrest.
    + replace (2 * S k)%nat with (S (S (2 * k))) by lia. cbn [drop]. apply Hd.
Qed.

Lemma alternates_app (l : list Message) (u a : string) :
  alternates l = true →
  alternates (l ++ [mkMessage "user" u; mkMessage "assistant" a]) = true.
Proof.
  remember (length l) as len eqn:Hlen. revert l Hlen.
  induction (lt_wf len) as [len _ IH]. intros l -> H.
  destruct l as [|x [|y rest]]; [reflexivity|discriminate|].
  cbn [alternates app] in *. apply andb_prop in H as [-> Hrest]. cbn [andb].
  apply (IH (length rest)); [cbn; lia|reflexivity|exact Hrest].
Qed.

Lemma alternates_lastN (k : nat) (l : list Message) :
  alternates l = true → alternates (lastN (2 * k) l) = true.
Proof.
  intros H. destruct (alternates_pairs l H) as (n & Hn & Hd). unfold lastN.
  rewrite Hn. replace (2 * n - 2 * k)%nat with (2 * (n - k))%nat by lia. apply Hd.
Qed.

Lemma alternates_head (l : list Message) (m : Message) :
  alternates l = true → head l = Some m → role m = "user"%string.
Proof.
  destruct l as [|u [|a rest]]; [discriminate|discriminate|].
  cbn [alternates head]. intros [[Hu _]%andb_prop _]%andb_prop [= <-].
  by apply String.eqb_eq.
Qed.

Variables (sessionId userMessage botResponse : string) (persistentUserId : option string).

(** The memory after [addMessage] when Redis is connected. *)
Lemma addMessage_connected (s : Memory) :
  isConnected (redis (base s)) = true →
  let identifier := identifierOf sessionId persistentUserId in
  let history := lastN 10 (default [] (conversationKeys s !! identifier)
                           ++ [mkMessage "user" userMessage;
                               mkMessage "assistant" botResponse]) in
  let s' := addMessage sessionId userMessage botResponse persistentUserId s in
  isConnected (redis (base s')) = true ∧
  conversationKeys s' = <[identifier := history]> (conversationKeys s) ∧
  (∀ uid, Js.truthy persistentUserId = Some uid →
          sessionKeys (redis (base s')) !! sessionId = Some uid).
Proof.
  intros Hc. cbv zeta. unfold addMessage. rewrite Hc, window_eq.
  change (contextWindowLength * 2)%nat with 10%nat.
  destruct (Js.truthy persistentUserId) as [uid|] eqn:Hp.
  - unfold viaRedis. cbn [snd base conversationKeys].
    split; [|split; [reflexivity|]].
    + revert Hc. destruct s as [w ck]. cbn [base]. wcases w. cbn. intros ->. mexec. reflexivity.
    + intros u [= <-]. revert Hc. destruct s as [w ck]. cbn [base]. wcases w. cbn.
      intros ->. mexec. reflexivity.
  - cbn [base conversationKeys]. split; [exact Hc|]. split; [reflexivity|]. intros ? [=].
Qed.

Lemma getConversationHistory_stored (identifier : string) (l : list Message) (s : Memory) :
  isConnected (redis (base s)) = true →
  conversationKeys s !! identifier = Some l →
  getConversationHistory identifier s = (l, s).
Proof. intros Hc Hl. unfold getConversationHistory. by rewrite Hc, Hl. Qed.

End Memory.

(** X26. The memory keeps the last five exchanges: after [addMessage] the
    history read back for the visitor is the last ten messages of the old
    history followed by the new user message and answer, it ends with that
    exchange, and the messages built for the next OpenAI call are this
    history followed by the new user message. *)
Theorem memory_keeps_the_last_five_exchanges
    (sessionId userMessage botResponse : string) (persistentUserId : option string)
    (s : MemoryService.Memory) :
  isConnected (redis (MemoryService.base s)) = true →
  let identifier := MemoryService.identifierOf sessionId persistentUserId in
  let exchange := [MemoryService.mkMessage "user" userMessage;
                   MemoryService.mkMessage "assistant" botResponse] in
  let s' := MemoryService.addMessage sessionId userMessage botResponse persistentUserId s in
  let history := (MemoryService.getConversationHistory identifier s').1 in
  history = MemoryService.lastN 10
              (default [] (MemoryService.conversationKeys s !! identifier) ++ exchange) ∧
  (length history ≤ 10)%nat ∧
  MemoryService.lastN 2 history = exchange ∧
  ∀ newMessage,
    (MemoryService.getMessagesForOpenAI sessionId newMessage persistentUserId s').1
      = history ++ [MemoryService.mkMessage "user" newMessage].
Proof.
  intros Hc. cbv zeta.
  destruct (addMessage_connected sessionId userMessage botResponse persistentUserId s Hc)
    as (Hc' & Hk & _).
  set (s' := MemoryService.addMessage _ _ _ _ s) in *.
  set (identifier := MemoryService.identifierOf sessionId persistentUserId) in *.
  set (history := MemoryService.lastN 10 _) in Hk.
  assert (E : MemoryService.getConversationHistory identifier s' = (history, s')).
  { apply getConversationHistory_stored; [exact Hc'|]. by rewrite Hk, lookup_insert_eq. }
  rewrite E. cbn [fst].
  split; [reflexivity|]. split; [apply lastN_length|]. split.
  - subst history. by apply (lastN_app 10 _ [_; _]); cbn; lia.
  - intros newMessage. unfold MemoryService.getMessagesForOpenAI.
    fold identifier. by rewrite E.
Qed.

Lemma memory_keeps_the_last_five_exchanges_witness :
  isConnected (redis Scenario.chatting) = true ∧
  (MemoryService.getMessagesForOpenAI "s1" "and then?" (Some "u1"%string)
     (MemoryService.addMessage "s1" "hello" "hi there" (Some "u1"%string)
        (MemoryService.mkMemory Scenario.chatting ∅))).1
    = [MemoryService.mkMessage "user" "hello"; MemoryService.mkMessage "assistant" "hi there";
       MemoryService.mkMessage "user" "and then?"].
Proof.
  assert (H : isConnected (redis (MemoryService.base
                                    (MemoryService.mkMemory Scenario.chatting ∅))) = true)
    by reflexivity.
  split; [exact H|].
  destruct (memory_keeps_the_last_five_exchanges "s1"%string "hello"%string
              "hi there"%string (Some "u1"%string) _ H) as (E & _ & _ & N).
  rewrite N, E. reflexivity.
Defined.

(** X27. The stored history stays made of whole exchanges: if the history
    of a visitor alternates user and assistant messages, it still does
    after [addMessage], however often the window has cut it, so what is
    sent to OpenAI never starts with an orphaned answer; the histories of
    the other visitors are not touched. *)
Theorem memory_stays_in_whole_exchanges
    (sessionId userMessage botResponse : string) (persistentUserId : option string)
    (s : MemoryService.Memory) :
  isConnected (redis (MemoryService.base s)) = true →
  let identifier := MemoryService.identifierOf sessionId persistentUserId in
  alternates (default [] (MemoryService.conversationKeys s !! identifier)) = true →
  let s' := MemoryService.addMessage sessionId userMessage botResponse persistentUserId s in
  alternates (default [] (MemoryService.conversationKeys s' !! identifier)) = true ∧
  (∀ newMessage first,
     head (MemoryService.getMessagesForOpenAI sessionId newMessage persistentUserId s').1
       = Some first →
     MemoryService.role first = "user"%string) ∧
  (∀ other, other ≠ identifier →
            MemoryService.conversationKeys s' !! other
              = MemoryService.conversationKeys s !! other).
Proof.
  intros Hc identifier Ha. cbv zeta.
  destruct (addMessage_connected sessionId userMessage botResponse persistentUserId s Hc)
    as (Hc' & Hk & _).
  set (s' := MemoryService.addMessage _ _ _ _ s) in *. fold identifier in Hk.
  set (history := MemoryService.lastN 10 _) in Hk.
  assert (Hh : alternates history = true).
  { subst history. apply (alternates_lastN 5). by apply alternates_app. }
  split; [|split].
  - by rewrite Hk, lookup_insert_eq.
  - intros newMessage first. unfold MemoryService.getMessagesForOpenAI. fold identifier.
    rewrite (getConversationHistory_stored identifier history s' Hc')
      by (by rewrite Hk, lookup_insert_eq).
    cbn [fst]. destruct history as [|m rest] eqn:Eh; cbn [app head].
    + by intros [= <-].
    + intros [= <-]. by apply (alternates_head (m :: rest)).
  - intros other Hne. by rewrite Hk, lookup_insert_ne.
Qed.

Lemma memory_stays_in_whole_exchanges_witness :
  alternates (default [] (MemoryService.conversationKeys
                            (MemoryService.mkMemory Scenario.chatting ∅) !! "u1"%string))
    = true ∧
  alternates (default [] (MemoryService.conversationKeys
                            (MemoryService.addMessage "s1" "hello" "hi there"
                               (Some "u1"%string)
                               (MemoryService.mkMemory Scenario.chatting ∅))
                          !! "u1"%string)) = true.
Proof.
  assert (H : alternates (default [] (MemoryService.conversationKeys
                            (MemoryService.mkMemory Scenario.chatting ∅) !! "u1"%string))
              = true) by reflexivity.
  split; [exact H|].
  exact (proj1 (memory_stays_in_whole_exchanges "s1"%string "hello"%string "hi there"%string
                  (Some "u1"%string) (MemoryService.mkMemory Scenario.chatting ∅)
                  eq_refl H)).
Defined.

(** X28. The memory follows the visitor: what [addMessage] stores for a
    visitor with a persistent id is also what a request that carries only
    the session id reads back, through the session mapping that
    [addMessage] writes (unless a history is filed under the session id
    itself), and [clearSession] called with the session id alone removes
    the visitor's history. *)
Theorem memory_follows_the_visitor
    (sessionId userMessage botResponse uid : string) (s : MemoryService.Memory) :
  isConnected (redis (MemoryService.base s)) = true →
  Js.truthy (Some uid) = Some uid →
  let s' := MemoryService.addMessage sessionId userMessage botResponse (Some uid) s in
  let stored := (MemoryService.getConversationHistory uid s').1 in
  stored ≠ [] ∧
  (MemoryService.conversationKeys s !! sessionId = None →
   (MemoryService.getConversationHistory sessionId s').1 = stored) ∧
  MemoryService.conversationKeys (MemoryService.clearSession sessionId None s') !! uid = None.
Proof.
  intros Hc Hu. cbv zeta.
  destruct (addMessage_connected sessionId userMessage botResponse (Some uid) s Hc)
    as (Hc' & Hk & Hm).
  specialize (Hm uid Hu).
  assert (Hid : MemoryService.identifierOf sessionId (Some uid) = uid)
    by (unfold MemoryService.identifierOf; by rewrite Hu).
  rewrite Hid in Hk.
  set (s' := MemoryService.addMessage _ _ _ _ s) in *.
  set (history := MemoryService.lastN 10 _) in Hk.
  assert (Hne : history ≠ []).
  { intros E. pose proof (lastN_app 10 (default [] (MemoryService.conversationKeys s !! uid))
                            [MemoryService.mkMessage "user" userMessage;
                             MemoryService.mkMessage "assistant" botResponse]) as L.
    fold history in L. rewrite E in L. cbn in L. discriminate L. lia. }
  assert (Hs : MemoryService.conversationKeys s' !! uid = Some history)
    by (by rewrite Hk, lookup_insert_eq).
  rewrite (getConversationHistory_stored uid history s' Hc' Hs). cbn [fst].
  assert (Hmap : RedisService.getSessionMapping sessionId (MemoryService.base s')
                 = (Some uid, MemoryService.base s', [])).
  { rewrite getSessionMapping_pure, Hm, Hc'. reflexivity. }
  assert (Hclear : MemoryService.clearSession sessionId None s' = MemoryService.forget uid s').
  { unfold MemoryService.clearSession, MemoryService.viaRedis.
    rewrite Hc', Hmap. cbn [value world fst snd]. rewrite Hu. by destruct s'. }
  split; [exact Hne|]. split.
  - intros Hnone. destruct (decide (sessionId = uid)) as [->|Hd].
    + by rewrite (getConversationHistory_stored uid history s' Hc' Hs).
    + unfold MemoryService.getConversationHistory, MemoryService.viaRedis.
      rewrite Hc', Hk, lookup_insert_ne, Hnone, Hmap by done.
      cbn [value world fst snd MemoryService.conversationKeys]. rewrite Hu.
      by rewrite ?Hk, lookup_insert_eq.
  - rewrite Hclear. cbn. apply lookup_delete_eq.
Qed.

Lemma memory_follows_the_visitor_witness :
  isConnected (redis Scenario.chatting) = true ∧
  (MemoryService.getConversationHistory "s1"
     (MemoryService.addMessage "s1" "hello" "hi there" (Some "u1"%string)
        (MemoryService.mkMemory Scenario.chatting ∅))).1
    = (MemoryService.getConversationHistory "u1"
         (MemoryService.addMessage "s1" "hello" "hi there" (Some "u1"%string)
            (MemoryService.mkMemory Scenario.chatting ∅))).1.
Proof.
  split; [reflexivity|].
  exact (proj1 (proj2 (memory_follows_the_visitor "s1"%string "hello"%string
                         "hi there"%string "u1"%string
                         (MemoryService.mkMemory Scenario.chatting ∅) eq_refl eq_refl))
           eq_refl).
Defined.

(** ** Retrying the OpenAI call *)

Section Retry.

Import OpenAIRetryService.

Context {A : Type}.
Variable apiCall : nat → A + ApiError.

Lemma backoff_S (retries n : nat) :
  backoff (S retries) (S n) = delayBefore (S retries) :: backoff retries n.
Proof.
  unfold backoff. cbn [seq map]. f_equal. rewrite <- seq_shift, map_map.
  apply map_ext. intros i. reflexivity.
Qed.

Lemma retryWithBackoff_spec (made retries : nat) :
  let r := retryWithBackoff apiCall made retries in
  (made < calls r ≤ made + retries + 1)%nat ∧
  slept r = backoff retries (calls r - S made) ∧
  result r = apiCall (calls r - 1) ∧
  (∀ k, (made ≤ k < calls r - 1)%nat →
        ∃ e, apiCall k = inr e ∧ isRetryableError e = true) ∧
  (∀ e, result r = inr e → isRetryableError e = true →
        calls r = (made + retries + 1)%nat).
Proof.
  revert made. induction retries as [|n IH]; intros made; cbn [retryWithBackoff].
  - destruct (apiCall made) as [v|e] eqn:E; cbn [calls slept result].
    all: replace (S made - 1)%nat with made by lia.
    all: replace (S made - S made)%nat with 0%nat by lia.
    all: (split; [lia|]); (split; [reflexivity|]); (split; [by rewrite E|]).
    all: split; [intros k Hk; lia|intros; try discriminate; lia].
  - destruct (apiCall made) as [v|e] eqn:E; cbn [calls slept result].
    + replace (S made - 1)%nat with made by lia.
      replace (S made - S made)%nat with 0%nat by lia.
      (split; [lia|]); (split; [reflexivity|]); (split; [by rewrite E|]).
      split; [intros k Hk; lia|intros; discriminate].
    + destruct (isRetryableError e) eqn:Hr; cbn [negb calls slept result].
      * specialize (IH (S made)). cbv zeta in IH.
        destruct IH as (Hc & Hs & Hres & Hk & Hlast).
        set (rest := retryWithBackoff apiCall (S made) n) in *.
        split; [lia|]. split.
        { replace (calls rest - S made)%nat with (S (calls rest - S (S made))) by lia.
          by rewrite backoff_S, Hs. }
        split; [exact Hres|]. split.
        { intros k Hkk. destruct (decide (k = made)) as [->|Hne]; [by exists e|].
          apply Hk. lia. }
        intros e' He' Hr'. rewrite (Hlast e' He' Hr'). lia.
      * replace (S made - 1)%nat with made by lia.
        replace (S made - S made)%nat with 0%nat by lia.
        (split; [lia|]); (split; [reflexivity|]); (split; [by rewrite E|]).
        split; [intros k Hk; lia|]. intros e' [= <-]. congruence.
Qed.

End Retry.

(** X29. [retryWithBackoff] stops at the first call that succeeds or
    fails with an error that is not retryable, and after at most [retries]
    retries: the caller gets the outcome of the last call made, every call
    before it failed with a retryable error, and a retryable error reaches
    the caller only when the retries are used up.  With the default of
    three retries it sleeps 1, 2 and 4 seconds before them. *)
Theorem retry_stops_at_the_first_final_outcome
    {A : Type} (apiCall : nat → A + OpenAIRetryService.ApiError) (retries : nat) :
  let r := OpenAIRetryService.retryWithBackoff apiCall 0 retries in
  let calls := OpenAIRetryService.calls r in
  (1 ≤ calls ≤ retries + 1)%nat ∧
  OpenAIRetryService.result r = apiCall (calls - 1)%nat ∧
  (∀ k, (k < calls - 1)%nat →
        ∃ e, apiCall k = inr e ∧ OpenAIRetryService.isRetryableError e = true) ∧
  (∀ e, OpenAIRetryService.result r = inr e →
        OpenAIRetryService.isRetryableError e = true → calls = (retries + 1)%nat) ∧
  OpenAIRetryService.slept r = backoff retries (calls - 1) ∧
  (retries = OpenAIRetryService.maxRetries →
   OpenAIRetryService.slept r
     = take (calls - 1) [QArith_base.Qmake 1000 1; QArith_base.Qmake 2000 1;
                         QArith_base.Qmake 4000 1]).
Proof.
  cbv zeta.
  destruct (retryWithBackoff_spec apiCall 0 retries) as (Hc & Hs & Hr & Hk & Hl).
  split; [lia|]. split; [exact Hr|]. split; [intros k Hlt; apply Hk; lia|].
  split; [exact Hl|]. split; [exact Hs|].
  intros ->. rewrite Hs. unfold OpenAIRetryService.maxRetries in *.
  destruct (OpenAIRetryService.calls _ - 1)%nat as [|[|[|[|n]]]] eqn:E;
    [reflexivity..|lia].
Qed.

(** ** The fallback analysis *)

(** X30. When the OpenAI analysis fails, the fallback offers a human
    exactly when one of the categories of weight seven or more is
    triggered; the AI-limitation category, of weight six, is reported as
    the trigger when nothing else matches but never makes an offer.  An
    explicit request is always the reported trigger, also when the visitor's
    words match the acceptance patterns of the same weight. *)
Theorem fallback_offers_on_a_strong_signal
    (t : HandoffService.Tests) (aiResponse : string) (hasKnowledgeMatch : bool) :
  let r := HandoffService.enhancedFallbackAnalysis t aiResponse hasKnowledgeMatch in
  let aiLower := Js.toLowerCase aiResponse in
  let invited := Js.includes "connect" aiLower || Js.includes "speak" aiLower
                 || Js.includes "team" aiLower in
  let strong :=
    HandoffService.explicitRequests t || HandoffService.conversationEnding t
    || (negb hasKnowledgeMatch && HandoffService.knowledgeGap t)
    || HandoffService.strongEngagement t || HandoffService.complexity t
    || HandoffService.emotionalTriggers t
    || (invited && HandoffService.handoffAcceptance t) in
  HandoffService.shouldOffer r = strong ∧
  (HandoffService.explicitRequests t = true →
   HandoffService.fallbackTrigger r = Some "explicitRequests"%string) ∧
  (strong = false →
   HandoffService.fallbackTrigger r
     = if HandoffService.aiLimitation t || HandoffService.aiLimitationResponse t
       then Some "aiLimitation"%string else None).
Proof.
  cbv zeta. unfold HandoffService.enhancedFallbackAnalysis, HandoffService.patterns.
  generalize (Js.includes "connect" (Js.toLowerCase aiResponse)
              || Js.includes "speak" (Js.toLowerCase aiResponse)
              || Js.includes "team" (Js.toLowerCase aiResponse)).
  intros invited.
  destruct t as [b1 b2 b3 b4 b5 b6 b7 b8 b9].
  cbn [HandoffService.explicitRequests HandoffService.conversationEnding
       HandoffService.knowledgeGap HandoffService.strongEngagement
       HandoffService.complexity HandoffService.emotionalTriggers
       HandoffService.aiLimitation HandoffService.aiLimitationResponse
       HandoffService.handoffAcceptance].
  cbn [HandoffService.shouldOffer HandoffService.fallbackTrigger].
  generalize "Direct human connection request detected"%string,
    "User expressing satisfaction - prime opportunity for future support offer"%string,
    "Specific question without knowledge base match"%string,
    "Strong engagement and interest signals"%string,
    "Complex NDIS topics requiring personalized guidance"%string,
    "Emotional indicators suggest need for human support"%string,
    "AI acknowledging limitations or suggesting human help"%string,
    "User accepted AI offer to connect with team"%string,
    "No clear triggers detected"%string.
  intros r1 r2 r3 r4 r5 r6 r7 r8 r0.
  destruct b1, b2, b3, b4, b5, b6, b7, b8, b9, hasKnowledgeMatch, invited;
    (split; [reflexivity|split; intros H; first [discriminate H|reflexivity]]).
Qed.

